(** * deed_finder: the acquisition-and-assembly pipeline of [deed_finder.py]

    A shallow embedding of the downloader for the Plymouth County Registry
    of Deeds.  The program drives a headless browser to a record's image
    viewer, downloads every page image through a [requests] session that
    carries the browser's cookies, and binds the images into one PDF; [main]
    retries the whole pipeline a bounded number of times.

    The embedding has three layers:
    - the Python built-ins the program relies on ([str.format] of integers,
      [str.split], [int], [str.replace], [os.path.join], [sorted], [glob]);
    - the outside world (remote site, browser, file system) as a state with
      a history of interactions, and a state-and-exception monad over it;
    - the functions of [deed_finder.py], one definition per function. *)

From stdpp Require Import gmap strings list fin_maps pretty sorting.
From Stdlib Require Import ZArith Lia Ascii QArith.

(* ===================================================================== *)
(** * Python built-ins *)
(* ===================================================================== *)

Module Py.

(** [all_chars P s]: every character of [s] satisfies [P]. *)
Fixpoint all_chars (P : ascii → bool) (s : string) : bool :=
  match s with
  | EmptyString => true
  | String c s' => P c && all_chars P s'
  end.

Definition is_slash (c : ascii) : bool := bool_decide (c = "/"%char).
Definition not_slash (c : ascii) : bool := negb (is_slash c).

Definition is_digit (c : ascii) : bool :=
  match Ascii.is_nat c with Some _ => true | None => false end.

(** [str(z)], also ['{}'.format(z)], for an [int]. *)
Definition str_int (z : Z) : string := pretty z.

Fixpoint zeros (n : nat) : string :=
  match n with
  | O => ""
  | S n' => String "0"%char (zeros n')
  end.

(** ['{:0Wd}'.format(z)]: sign-aware zero padding to at least [width]
    characters; a longer number is printed in full. *)
Definition format_0d (width : nat) (z : Z) : string :=
  let sign := if bool_decide (z < 0)%Z then "-" else "" in
  let digits := pretty (Z.abs_N z) in
  sign +:+ zeros (width - String.length sign - String.length digits) +:+ digits.

(** [s.split(sep)] for a one-character separator: empty fields are kept
    and the result is never empty. *)
Fixpoint split_go (sep : ascii) (cur : string) (s : string) : list string :=
  match s with
  | EmptyString => [String.rev cur]
  | String c s' =>
      if bool_decide (c = sep) then String.rev cur :: split_go sep "" s'
      else split_go sep (String c cur) s'
  end.
Definition split (sep : ascii) (s : string) : list string := split_go sep "" s.

(** [l[-1]] on a list of strings known to be non-empty. *)
Definition last_item (l : list string) : string := List.last l "".

(** The characters of ASCII.  A string stands for a Python text as long as
    its characters are in ASCII; beyond ASCII the built-ins that look at
    the class of a character, as [int] does, are not modelled. *)
Definition is_ascii (c : ascii) : bool := (nat_of_ascii c <? 128)%nat.

(** White space stripped by [int] from a text of ASCII characters: TAB..CR
    and the blank. *)
Definition is_space (c : ascii) : bool :=
  let n := nat_of_ascii c in
  ((9 <=? n)%nat && (n <=? 13)%nat) || (n =? 32)%nat.

Fixpoint lstrip (s : string) : string :=
  match s with
  | EmptyString => ""
  | String c s' => if is_space c then lstrip s' else s
  end.
Definition strip (s : string) : string :=
  String.rev (lstrip (String.rev (lstrip s))).

(** Decimal digits, single underscores allowed between two digits. *)
Fixpoint digits_value (acc : Z) (after_digit : bool) (s : string) : option Z :=
  match s with
  | EmptyString => if after_digit then Some acc else None
  | String c s' =>
      match Ascii.is_nat c with
      | Some d => digits_value (10 * acc + Z.of_nat d) true s'
      | None =>
          if bool_decide (c = "_"%char) && after_digit
          then digits_value acc false s'
          else None
      end
  end.

(** [int(s)] on a text of ASCII characters: [None] stands for [ValueError].
    Outside ASCII, [int] also takes the decimal digits and the white space
    of Unicode, which this definition rejects: the statements that depend
    on what [int] rejects are about ASCII texts only, and a text this
    definition accepts is a text of ASCII characters. *)
Definition int (s : string) : option Z :=
  match strip s with
  | String "-" s' => Z.opp <$> digits_value 0 false s'
  | String "+" s' => digits_value 0 false s'
  | s' => digits_value 0 false s'
  end.

(** [s.replace(old, new)] for a non-empty [old]: occurrences are replaced
    from the left and do not overlap.  [skip] counts the characters of a
    matched occurrence still to be dropped. *)
Fixpoint replace_go (old new : string) (skip : nat) (s : string) : string :=
  match s with
  | EmptyString => ""
  | String c s' =>
      match skip with
      | S k => replace_go old new k s'
      | O =>
          if String.prefix old s
          then new +:+ replace_go old new (String.length old - 1) s'
          else String c (replace_go old new 0 s')
      end
  end.
Definition replace (old new s : string) : string := replace_go old new 0 s.

Definition starts_with (p s : string) : bool := String.prefix p s.
Definition ends_with (p s : string) : bool :=
  String.prefix (String.rev p) (String.rev s).

(** [os.path.join(a, b)] of [posixpath]. *)
Definition os_path_join (a b : string) : string :=
  if starts_with "/" b then b
  else if bool_decide (a = "") || ends_with "/" a then a +:+ b
  else a +:+ "/" +:+ b.

Fixpoint take_while (P : ascii → bool) (s : string) : string :=
  match s with
  | EmptyString => ""
  | String c s' => if P c then String c (take_while P s') else ""
  end.
Fixpoint drop_while (P : ascii → bool) (s : string) : string :=
  match s with
  | EmptyString => ""
  | String c s' => if P c then drop_while P s' else s
  end.

(** [os.path.split(p)] of [posixpath]: the tail is what follows the last
    slash; trailing slashes are stripped from the head unless the head
    consists of slashes only. *)
Definition os_path_split (p : string) : string * string :=
  let r := String.rev p in
  let tail := String.rev (take_while not_slash r) in
  let head_r := drop_while not_slash r in
  let stripped := drop_while is_slash head_r in
  (String.rev (if bool_decide (stripped = "") then head_r else stripped), tail).

(** [sorted(l)] on strings: Python compares strings by code point. *)
Definition sorted (l : list string) : list string := merge_sort String.le l.

End Py.

(* ===================================================================== *)
(** * Module constants and file names *)
(* ===================================================================== *)

Definition TITLE : string := "Plymouth County Registry of Deeds Downloader".
Definition DEFAULT_SLEEP_TIME : Q := 0.5.
Definition MAX_RETRIES : Z := 2.

(** The newline character of the ['\n'] escapes. *)
Definition nl : string := String "010"%char "".

(** The formatted [page_name] of [download_pdf]:
    ['{dir}/bk_{bk:06d}_pg_{pg:06d}_{curr:02d}_of_{tot:02d}']. *)
Definition page_name (dir : string) (bk pg curr tot : Z) : string :=
  dir +:+ "/bk_" +:+ Py.format_0d 6 bk +:+ "_pg_" +:+ Py.format_0d 6 pg
      +:+ "_" +:+ Py.format_0d 2 curr +:+ "_of_" +:+ Py.format_0d 2 tot.

(** [file_path] in [_download_image]:
    [os.path.join(directory, '{}.jpg'.format(img_name))]. *)
Definition image_file_path (directory img_name : string) : string :=
  Py.os_path_join directory (img_name +:+ ".jpg").

(** The transient file of page [curr] of [tot], as [download_pdf] passes
    the directory and the page name to [_download_image]. *)
Definition page_file (dir : string) (bk pg curr tot : Z) : string :=
  image_file_path dir (page_name dir bk pg curr tot).

(** [pdf_name.format(book, page)] in [download_pdf]. *)
Definition pdf_name (book page : Z) : string :=
  "plymouth_cty_reg_deeds_book" +:+ Py.format_0d 6 book
      +:+ "_page" +:+ Py.format_0d 6 page +:+ ".pdf".

(** [output_path] in [_create_pdf]: ['{}/{}'.format(output_dir, pdf_name)]. *)
Definition output_path (output_dir name : string) : string :=
  output_dir +:+ "/" +:+ name.

(** The branch of [_go_to_search_page] on the book number. *)
Definition search_button_id (book : Z) : string :=
  if bool_decide (book < 2393)%Z
  then "Navigator1_SearchCriteria1_LinkButton02"
  else "Navigator1_SearchCriteria1_LinkButton01".

(** The rewriting of the image URL in [_get_page_url]. *)
Definition zoom_url (image_url : string) : string :=
  Py.replace "ZOOM=1" "ZOOM=6" image_url.

(* ===================================================================== *)
(** * The outside world *)
(* ===================================================================== *)

(** Exception classes that reach the program.  [KeyboardInterrupt] and
    [SystemExit] derive from [BaseException] only; every other class
    derives from [Exception]. *)
Inductive exc_class :=
| KeyboardInterrupt | SystemExit
| ValueError | RuntimeError | OSError | FileNotFoundError | FileExistsError
| ElementDoesNotExist | WebDriverException | RequestException.

Inductive exception := Exc (cls : exc_class) (msg : string).

Definition is_Exception (ex : exception) : bool :=
  match ex with
  | Exc KeyboardInterrupt _ | Exc SystemExit _ => false
  | Exc _ _ => true
  end.

(** [str(ex)]. *)
Definition str_exception (ex : exception) : string :=
  match ex with Exc _ msg => msg end.

(** The value a caller receives from a Python function. *)
Inductive pyval := PyNone | PyStr (s : string).

(** An image placed on a page by [FPDF.image(name, x, y, w, h)]. *)
Record placement := Placement {
  img_name : string; img_data : string;
  img_x : Q; img_y : Q; img_w : Q; img_h : Q
}.

(** An [FPDF] document: its unit and format and, page after page, the
    images placed on it. *)
Record FPDF := Fpdf {
  pdf_unit : string; pdf_format : string;
  pdf_pages : list (list placement)
}.

(** What a file holds: downloaded bytes or a document written by
    [FPDF.output]. *)
Inductive file := Raw (data : string) | Pdf (doc : FPDF).

(** One interaction of the program with its surroundings.  The browser
    events name the browser instance they address. *)
Inductive event :=
| EvPrint (line : string)
| EvSleep (secs : Q)
| EvRaise (ex : exception)
| EvMkdtemp (dir : string)
| EvCleanup (dir : string)
| EvBrowser (b : nat) (driver : string)
| EvVisit (b : nat) (url : string)
| EvMouseOver (b : nat) (id : string)
| EvClick (b : nat) (id : string)
| EvFill (b : nat) (name : string) (value : Z)
| EvNextWindow (b : nat)
| EvCookies (b : nat) (cookies : list (string * string))
| EvValue (b : nat) (id value : string)
| EvAttr (b : nat) (id attr value : string)
| EvGet (cookies : list (string * string)) (url body : string)
| EvOpen (path : string)
| EvWrite (path data : string)
| EvImage (path : string)
| EvRemove (path : string)
| EvOutput (path : string) (doc : FPDF).

(** The surroundings answer as a function of the history of interactions:
    whether the next fallible call raises, what the page shows, what the
    server sends, how many bytes of a write that fails reach the file.
    Nothing is assumed about these answers. *)
Record environment := Environment {
  fault : list event → option exception;
  tmp_token : list event → N;
  base_path : string;
  element_value : list event → nat → string → string;
  element_attr : list event → nat → string → string → string;
  cookie_jar : list event → nat → list (string * string);
  http_body : list event → list (string * string) → string → string;
  bytes_written : list event → nat
}.

(** The state: directories with their entries, the browser instances
    started and not closed, and the history. *)
Record world := World {
  fs : gmap string (gmap string file);
  live_browsers : nat;
  history : list event
}.

Inductive result (A : Type) := Ok (a : A) | Raise (ex : exception).
Arguments Ok {A} a.
Arguments Raise {A} ex.

(** Computations: state passing, with exceptions. *)
Definition M (A : Type) : Type := world → result A * world.

Definition log (e : event) (w : world) : world :=
  World (fs w) (live_browsers w) (history w ++ [e]).

Definition ret {A} (a : A) : M A := λ w, (Ok a, w).

Definition bind {A B} (m : M A) (f : A → M B) : M B := λ w,
  match m w with
  | (Ok a, w1) => f a w1
  | (Raise ex, w1) => (Raise ex, w1)
  end.

Declare Scope py_scope.
Delimit Scope py_scope with py.
Notation "x ← m ; k" := (bind m (λ x, k))
  (at level 20, m at level 100, k at level 200, only parsing) : py_scope.
Notation "m ;; k" := (bind m (λ _, k))
  (at level 100, k at level 200, only parsing, right associativity) : py_scope.
Local Open Scope py_scope.

(** [raise ex]. *)
Definition raise {A} (ex : exception) : M A := λ w, (Raise ex, log (EvRaise ex) w).

Definition emit (e : event) : M unit := λ w, (Ok tt, log e w).

(** [try: body except Exception as ex: handler(ex)]: classes outside
    [Exception] pass through. *)
Definition try_except {A} (body : M A) (handler : exception → M A) : M A := λ w,
  match body w with
  | (Ok a, w1) => (Ok a, w1)
  | (Raise ex, w1) => if is_Exception ex then handler ex w1 else (Raise ex, w1)
  end.

(** The file a path names, if any. *)
Definition file_at (f : gmap string (gmap string file)) (path : string) : option file :=
  let '(d, n) := Py.os_path_split path in
  match f !! d with
  | Some entries => entries !! n
  | None => None
  end.

(** [fnmatch] of a name against ["*" + suffix]; [glob] skips hidden names. *)
Definition matches_star (suffix name : string) : bool :=
  Py.ends_with suffix name && negb (Py.starts_with "." name).

(** [glob(pattern)] for a pattern whose directory part holds none of the
    characters [glob] expands (the star, the question mark and the opening
    bracket) and whose last component is a star followed by literal text
    (as ["*.jpg"]); any other last component is taken literally.  The order
    of the result is the enumeration order of the directory.  A directory
    part with such characters is outside this definition: the statements
    about the list of images of an arbitrary directory exclude it. *)
Definition glob (f : gmap string (gmap string file)) (pattern : string) : list string :=
  let '(d, pat) := Py.os_path_split pattern in
  match pat with
  | String "*" suffix =>
      match f !! d with
      | Some entries =>
          (λ n, Py.os_path_join d n) <$>
            List.filter (matches_star suffix) (map_to_list entries).*1
      | None => []
      end
  | _ => match file_at f pattern with Some _ => [pattern] | None => [] end
  end.

(** Directory names of [tempfile.mkdtemp]. *)
Definition tmp_dir_name (token : N) : string := "/tmp/tmp" +:+ pretty token.

(** [FPDF.add_page()]. *)
Definition add_page (pdf : FPDF) : FPDF :=
  Fpdf (pdf_unit pdf) (pdf_format pdf) (pdf_pages pdf ++ [[]]).

(** [FPDF.close()], which [FPDF.output] calls before it writes: a document
    without a page gets one. *)
Definition fpdf_close (pdf : FPDF) : FPDF :=
  match pdf_pages pdf with
  | [] => add_page pdf
  | _ => pdf
  end.

(** The image goes on the current, that is the last, page. *)
Definition place (pdf : FPDF) (p : placement) : option FPDF :=
  match reverse (pdf_pages pdf) with
  | [] => None
  | cur :: before =>
      Some (Fpdf (pdf_unit pdf) (pdf_format pdf) (reverse before ++ [cur ++ [p]]))
  end.

Section Program.

Context (E : environment).

(** A call that may raise: the surroundings decide, from the history. *)
Definition fallible : M unit := λ w,
  match fault E (history w) with
  | Some ex => raise ex w
  | None => (Ok tt, w)
  end.

(** The answer of the surroundings at this point of the history. *)
Definition ask {A} (f : list event → A) : M A := λ w, (Ok (f (history w)), w).

Definition get_fs : M (gmap string (gmap string file)) := λ w, (Ok (fs w), w).
Definition set_fs (f : gmap string (gmap string file)) : M unit := λ w,
  (Ok tt, World f (live_browsers w) (history w)).

(** ** Primitives *)

Definition print (line : string) : M unit := emit (EvPrint line).
Definition sleep (secs : Q) : M unit := emit (EvSleep secs).

(** [Browser('chrome', executable_path=driver, headless=True)]. *)
Definition Browser (driver : string) : M nat := fallible ;; λ w,
  let b := live_browsers w in
  (Ok b, log (EvBrowser b driver) (World (fs w) (S b) (history w))).

Definition visit (b : nat) (url : string) : M unit :=
  fallible ;; emit (EvVisit b url).
(** [browser.find_by_id(id).first.mouse_over()]. *)
Definition mouse_over (b : nat) (id : string) : M unit :=
  fallible ;; emit (EvMouseOver b id).
(** [browser.find_by_id(id).first.click()]. *)
Definition click (b : nat) (id : string) : M unit :=
  fallible ;; emit (EvClick b id).
Definition fill (b : nat) (name : string) (value : Z) : M unit :=
  fallible ;; emit (EvFill b name value).
(** [browser.windows.current = browser.windows.current.next]. *)
Definition next_window (b : nat) : M unit :=
  fallible ;; emit (EvNextWindow b).
(** [browser.cookies.all()]. *)
Definition cookies_all (b : nat) : M (list (string * string)) :=
  fallible ;; c ← ask (λ h, cookie_jar E h b); emit (EvCookies b c) ;; ret c.
(** [browser.find_by_id(id).first.value]. *)
Definition value_of (b : nat) (id : string) : M string :=
  fallible ;; v ← ask (λ h, element_value E h b id); emit (EvValue b id v) ;; ret v.
(** [browser.find_by_id(id)[0][attr]]. *)
Definition attr_of (b : nat) (id attr : string) : M string :=
  fallible ;; v ← ask (λ h, element_attr E h b id attr);
  emit (EvAttr b id attr v) ;; ret v.
(** [session.get(url).content]. *)
Definition session_get (session : list (string * string)) (url : string) : M string :=
  fallible ;; body ← ask (λ h, http_body E h session url);
  emit (EvGet session url body) ;; ret body.

(** Creating or overwriting the file [path]: its directory must exist. *)
Definition store (path : string) (content : file) (e : event) : M unit :=
  f ← get_fs;
  let '(d, n) := Py.os_path_split path in
  match f !! d with
  | Some entries =>
      if bool_decide (n = "") then raise (Exc OSError path)
      else set_fs (<[d := <[n := content]> entries]> f) ;; emit e
  | None => raise (Exc FileNotFoundError path)
  end.

(** The file system with [content] in the file [path], if its directory
    exists. *)
Definition overwrite (f : gmap string (gmap string file)) (path : string)
    (content : file) : gmap string (gmap string file) :=
  let '(d, n) := Py.os_path_split path in
  match f !! d with
  | Some entries => <[d := <[n := content]> entries]> f
  | None => f
  end.

(** [with open(path, 'wb') as out_file: out_file.write(data)], in two
    steps.  [open] creates the file, or empties it.  Then the data are
    written and the file is closed: when this raises, the file keeps the
    bytes that went through, a prefix of [data] of a length the
    surroundings decide. *)
Definition write_binary (path data : string) : M unit :=
  fallible ;; store path (Raw "") (EvOpen path) ;;
  failure ← ask (fault E);
  match failure with
  | Some ex =>
      n ← ask (bytes_written E);
      f ← get_fs;
      set_fs (overwrite f path (Raw (String.substring 0 n data))) ;;
      raise ex
  | None => store path (Raw data) (EvWrite path data)
  end.

(** [os.remove(path)]. *)
Definition os_remove (path : string) : M unit :=
  fallible ;; f ← get_fs;
  let '(d, n) := Py.os_path_split path in
  match f !! d with
  | Some entries =>
      match entries !! n with
      | Some _ => set_fs (<[d := delete n entries]> f) ;; emit (EvRemove path)
      | None => raise (Exc FileNotFoundError path)
      end
  | None => raise (Exc FileNotFoundError path)
  end.

(** [pdf.image(name, x, y, w, h)]: the file is read when it is placed. *)
Definition pdf_image (pdf : FPDF) (name : string) (x y w h : Q) : M FPDF :=
  fallible ;; f ← get_fs;
  match file_at f name with
  | Some (Raw data) =>
      match place pdf (Placement name data x y w h) with
      | Some pdf' => emit (EvImage name) ;; ret pdf'
      | None => raise (Exc RuntimeError "No page open")
      end
  | Some (Pdf _) => raise (Exc RuntimeError name)
  | None => raise (Exc FileNotFoundError name)
  end.

(** [pdf.output(path, "F")]: the document is closed, then written.  The
    writing is taken as one step: a call that raises leaves the files as
    they were. *)
Definition pdf_output (pdf : FPDF) (path : string) : M unit :=
  fallible ;;
  let doc := fpdf_close pdf in
  store path (Pdf doc) (EvOutput path doc).

(** [tempfile.mkdtemp()]: a new, empty directory. *)
Definition mkdtemp : M string :=
  fallible ;; d ← ask (λ h, tmp_dir_name (tmp_token E h)); f ← get_fs;
  match f !! d with
  | Some _ => raise (Exc FileExistsError d)
  | None => set_fs (<[d := ∅]> f) ;; emit (EvMkdtemp d) ;; ret d
  end.

(** The exit of [TemporaryDirectory]: the directory goes with all it
    holds. *)
Definition cleanup (d : string) (w : world) : world :=
  log (EvCleanup d) (World (delete d (fs w)) (live_browsers w) (history w)).

(** [with tempfile.TemporaryDirectory() as d: body]: the directory is
    removed on every way out of [body]. *)
Definition with_TemporaryDirectory {A} (body : string → M A) : M A := λ w,
  match mkdtemp w with
  | (Ok d, w1) => let '(r, w2) := body d w1 in (r, cleanup d w2)
  | (Raise ex, w1) => (Raise ex, w1)
  end.

(** ** The functions of [deed_finder.py] *)

Definition _resource_path (relative_path : string) : string :=
  Py.os_path_join (base_path E) relative_path.

Definition _go_to_search_page (browser : nat) (book : Z) : M unit :=
  let menu_id := "Navigator1_SearchCriteria1_menuLabel" in
  let search_button_id := search_button_id book in
  sleep DEFAULT_SLEEP_TIME ;;
  mouse_over browser menu_id ;;
  click browser search_button_id.

Definition _fill_in_search_terms (browser : nat) (book page : Z) : M unit :=
  let book_input_name := "SearchFormEx1$ACSTextBox_Book" in
  let page_input_name := "SearchFormEx1$ACSTextBox_PageNumber" in
  let search_button_id := "SearchFormEx1_btnSearch" in
  fill browser book_input_name book ;;
  fill browser page_input_name page ;;
  click browser search_button_id.

Definition _select_document (browser : nat) : M unit :=
  let book_link_id := "DocList1_GridView_Document_ctl02_ButtonRow_Book_0" in
  let view_image_id := "TabController1_ImageViewertabitem" in
  click browser book_link_id ;;
  sleep DEFAULT_SLEEP_TIME ;;
  click browser view_image_id ;;
  sleep 2 ;;
  next_window browser.

(** The session is the cookie jar copied from the browser. *)
Definition _create_session (browser : nat) : M (list (string * string)) :=
  cookies ← cookies_all browser;
  ret cookies.

Definition _get_number_of_pages (browser : nat) : M Z :=
  let page_number_id := "ImageViewer1_lblPageNum" in
  page_range ← value_of browser page_number_id;
  match Py.int (Py.last_item (Py.split " " page_range)) with
  | Some num_pages => ret num_pages
  | None => raise (Exc ValueError page_range)
  end.

Definition _get_page_url (browser : nat) : M string :=
  let image_id := "ImageViewer1_docImage" in
  sleep 2 ;;
  image_url ← attr_of browser image_id "src";
  ret (zoom_url image_url).

Definition _download_image (session : list (string * string))
    (image_url directory img_name : string) (img_range : Z * Z) : M unit :=
  content ← session_get session image_url;
  let file_path := image_file_path directory img_name in
  write_binary file_path content ;;
  print ("Downloaded page " +:+ Py.str_int img_range.1
           +:+ " of " +:+ Py.str_int img_range.2).

Definition _go_to_next_page (browser : nat) : M unit :=
  let next_page_button_id := "ImageViewer1_BtnNext" in
  click browser next_page_button_id ;;
  sleep DEFAULT_SLEEP_TIME.

(** The [for image in images] loop of [_create_pdf]. *)
Fixpoint add_images (pdf : FPDF) (images : list string) : M FPDF :=
  match images with
  | [] => ret pdf
  | image :: rest =>
      pdf ← pdf_image (add_page pdf) image 0 0 8.5 11;
      os_remove image ;;
      add_images pdf rest
  end.

Definition _create_pdf (image_dir output_dir pdf_name : string) : M unit :=
  let directory := Py.os_path_join image_dir "*.jpg" in
  images ← (f ← get_fs; ret (Py.sorted (glob f directory)));
  let output_path := output_path output_dir pdf_name in
  let pdf := Fpdf "in" "letter" [] in
  pdf ← add_images pdf images;
  pdf_output pdf output_path.

(** The [while current_page <= total_pages] loop of [download_pdf];
    [fuel] bounds the iterations and [Z.to_nat (total_pages + 1 -
    current_page)] is enough. *)
Fixpoint fetch_pages (fuel : nat) (browser : nat) (session : list (string * string))
    (page_download_dir : string) (book page total_pages current_page : Z) : M unit :=
  match fuel with
  | O => ret tt
  | S fuel' =>
      if bool_decide (current_page ≤ total_pages)%Z then
        page_url ← _get_page_url browser;
        let img_range := (current_page, total_pages) in
        let page_name :=
          page_name page_download_dir book page current_page total_pages in
        _download_image session page_url page_download_dir page_name img_range ;;
        (if bool_decide (current_page ≠ total_pages)
         then _go_to_next_page browser else ret tt) ;;
        fetch_pages fuel' browser session page_download_dir book page
                    total_pages (current_page + 1)
      else ret tt
  end.

(** The block of [download_pdf] under
    [with tempfile.TemporaryDirectory() as page_download_dir]. *)
Definition download_pdf_block (book page : Z) (output_dir : string)
    (page_download_dir : string) : M unit :=
  let base_url := "http://titleview.org/plymouthdeeds/" in
  let driver := _resource_path "chromedriver" in
  browser ← Browser driver;
  visit browser base_url ;;
  _go_to_search_page browser book ;;
  _fill_in_search_terms browser book page ;;
  _select_document browser ;;
  session ← _create_session browser;
  let current_page := 1%Z in
  total_pages ← _get_number_of_pages browser;
  fetch_pages (Z.to_nat (total_pages + 1 - current_page)) browser session
              page_download_dir book page total_pages current_page ;;
  _create_pdf page_download_dir output_dir (pdf_name book page).

Definition download_pdf (book page : Z) (output_dir : string) : M pyval :=
  print ("Trying to obtain Book " +:+ Py.str_int book
           +:+ " Page " +:+ Py.str_int page) ;;
  with_TemporaryDirectory (download_pdf_block book page output_dir) ;;
  ret PyNone.

(** What [get_book_and_page] hands to [main]. *)
Record Namespace := Args { Directory : string; Book : Z; Page : Z }.

(** The [while retries <= max_retries] loop of [main].  [Some v]: the
    loop was left by [return v]; [None]: its condition became false.
    [Z.to_nat (max_retries + 1 - retries)] is enough fuel. *)
Fixpoint retry_loop (max_retries : Z) (fuel : nat) (book page : Z)
    (download_dir : string) (retries : Z) : M (option pyval) :=
  match fuel with
  | O => ret None
  | S fuel' =>
      if bool_decide (retries ≤ max_retries)%Z then
        try_except
          (download_pdf book page download_dir ;;
           print "Success!" ;;
           ret (Some PyNone))
          (λ ex,
             print "Error! Retrying" ;;
             print ("Exception:" +:+ nl +:+ str_exception ex +:+ nl) ;;
             retry_loop max_retries fuel' book page download_dir (retries + 1))
      else ret None
  end.

(** [main], with the bound on the retries as a parameter. *)
Definition run (max_retries : Z) (book page : Z) (download_dir : string) : M pyval :=
  let retries := 0%Z in
  r ← retry_loop max_retries (Z.to_nat (max_retries + 1 - retries))
                 book page download_dir retries;
  match r with
  | Some v => ret v
  | None =>
      raise (Exc ValueError
        "Unable to obtain document. Confirm the book and page numbers entered are valid")
  end.

(** [main]; [args] is the result of [get_book_and_page()]. *)
Definition main (args : Namespace) : M pyval :=
  let book := Book args in
  let page := Page args in
  let download_dir := Directory args in
  run MAX_RETRIES book page download_dir.

End Program.

Arguments Args Directory Book Page : rename.

(* ===================================================================== *)
(** * A model site, to run the program on *)
(* ===================================================================== *)

Definition is_next_click (e : event) : bool :=
  match e with
  | EvClick _ id => bool_decide (id = "ImageViewer1_BtnNext")
  | _ => false
  end.

Definition is_browser_start (e : event) : bool :=
  match e with EvBrowser _ _ => true | _ => false end.

(** The page the viewer of the model site shows: one more than the clicks
    on its next button since the browser was started. *)
Fixpoint viewer_page (page : N) (h : list event) : N :=
  match h with
  | [] => page
  | e :: h' =>
      if is_browser_start e then viewer_page 1 h'
      else if is_next_click e then viewer_page (page + 1) h'
      else viewer_page page h'
  end.

(** A record of [total] pages behind a site that answers every request;
    [faults] says which calls raise. *)
Definition site (total : Z) (faults : list event → option exception) : environment :=
  {| fault := faults;
     tmp_token := λ h, N.of_nat (length h);
     base_path := "/opt/deed_finder";
     element_value := λ h _ _,
       "Page " +:+ pretty (viewer_page 1 h) +:+ " of " +:+ pretty total;
     element_attr := λ h _ _ _,
       "http://titleview.org/plymouthdeeds/img.aspx?PG="
         +:+ pretty (viewer_page 1 h) +:+ "&ZOOM=1";
     cookie_jar := λ _ _, [("ASP.NET_SessionId", "k3")];
     http_body := λ _ _ url, "JPEG " +:+ url;
     bytes_written := λ _, 0%nat |}.

Definition no_faults : list event → option exception := λ _, None.

(** A machine with an empty download directory and no browser running. *)
Definition home : world := World {[ "/home/user/Downloads" := ∅ ]} 0 [].

(* ===================================================================== *)
(** * Notions the statements use *)
(* ===================================================================== *)

(** Position [i] of [u] holds the final [1] of an occurrence of [ZOOM=1]. *)
Definition zoom1_ends_at (u : string) (i : nat) : bool :=
  (5 <=? i)%nat && String.eqb (String.substring (i - 5) 6 u) "ZOOM=1".

(** The interactions that leave the file system as it is. *)
Definition keeps_files (e : event) : bool :=
  match e with
  | EvMkdtemp _ | EvCleanup _ | EvOpen _ | EvWrite _ _ | EvRemove _
  | EvOutput _ _ => false
  | _ => true
  end.

(** [w'] is [w] after some more interactions, all of them allowed by [ok],
    with one more live browser for each browser start among them, and with
    the same files if they all keep the files. *)
Definition evolves (ok : event → bool) (w w' : world) : Prop :=
  ∃ d, history w' = history w ++ d
       ∧ forallb ok d = true
       ∧ live_browsers w' =
           (live_browsers w + length (List.filter is_browser_start d))%nat
       ∧ (forallb keeps_files d = true → fs w' = fs w).

(** Whatever the outcome, [m] only adds interactions allowed by [ok]. *)
Definition emits_only {A} (ok : event → bool) (m : M A) : Prop :=
  ∀ w, evolves ok w (m w).2.

(** The first line an attempt prints. *)
Definition trying_line (book page : Z) : string :=
  "Trying to obtain Book " +:+ Py.str_int book +:+ " Page " +:+ Py.str_int page.

(** The interactions [_go_to_search_page] may add. *)
Definition search_page_event (browser : nat) (book : Z) (e : event) : bool :=
  match e with
  | EvSleep _ | EvRaise _ => true
  | EvMouseOver b id =>
      bool_decide (b = browser ∧ id = "Navigator1_SearchCriteria1_menuLabel")
  | EvClick b id => bool_decide (b = browser ∧ id = search_button_id book)
  | _ => false
  end.

(** The interactions the body of an attempt may add, between the creation
    of the temporary directory and its removal: it prints nothing but the
    progress lines and writes no document but the artifact of its record
    key in the destination directory.  (No interaction closes a browser:
    there is none in the program.) *)
Definition body_event (book page : Z) (output_dir : string) (e : event) : bool :=
  match e with
  | EvPrint line => String.prefix "Downloaded page " line
  | EvOutput path _ => bool_decide (path = output_path output_dir (pdf_name book page))
  | EvMkdtemp _ | EvCleanup _ => false
  | _ => true
  end.

(** The interactions an attempt may add after its first line. *)
Definition attempt_event (book page : Z) (output_dir : string) (e : event) : bool :=
  match e with
  | EvMkdtemp _ | EvCleanup _ => true
  | _ => body_event book page output_dir e
  end.



Definition is_attempt_start (e : event) : bool :=
  match e with
  | EvPrint line => String.prefix "Trying to obtain Book " line
  | _ => false
  end.

Definition is_success_report (e : event) : bool :=
  match e with
  | EvPrint line => bool_decide (line = "Success!")
  | _ => false
  end.

Definition is_download (e : event) : bool :=
  match e with EvGet _ _ _ => true | _ => false end.

(** How many attempts, success reports, downloads and clicks on the next
    button a stretch of history holds. *)
Definition attempts (d : list event) : nat := length (List.filter is_attempt_start d).
Definition success_reports (d : list event) : nat :=
  length (List.filter is_success_report d).
Definition downloads (d : list event) : nat := length (List.filter is_download d).
Definition advances (d : list event) : nat := length (List.filter is_next_click d).

(** What [main] prints when an attempt has raised [ex]. *)
Definition report_failure (ex : exception) (w : world) : world :=
  log (EvPrint ("Exception:" +:+ nl +:+ str_exception ex +:+ nl))
      (log (EvPrint "Error! Retrying") w).

(** The world after [k] attempts in a row that each raised an exception of
    some class under [Exception], whichever, and were reported by [main];
    [None] if one of these attempts returns or raises outside
    [Exception]. *)
Fixpoint after_failures (E : environment) (book page : Z) (dir : string)
    (k : nat) (w : world) : option world :=
  match k with
  | O => Some w
  | S k' =>
      match download_pdf E book page dir w with
      | (Raise ex, w1) =>
          if is_Exception ex
          then after_failures E book page dir k' (report_failure ex w1)
          else None
      | (Ok _, _) => None
      end
  end.

(** The error [main] ends with when every attempt has failed. *)
Definition terminal_error : exception :=
  Exc ValueError
    "Unable to obtain document. Confirm the book and page numbers entered are valid".

(** Surroundings in which one call fails, the one made when the history
    holds [n] interactions; and surroundings in which every call fails. *)
Definition fails_at (n : nat) : list event → option exception := λ h,
  if bool_decide (length h = n) then Some (Exc WebDriverException "chrome not reachable")
  else None.
Definition always_down : list event → option exception := λ _,
  Some (Exc RequestException "connection refused").

(** Every browser started between [w] and [w'] has been closed by [w']. *)
Definition session_released (w w' : world) : Prop :=
  live_browsers w' = live_browsers w.

(** A directory name that is not empty and does not end with a slash. *)
Definition plain_dir (d : string) : Prop :=
  ∃ c r, String.rev d = String c r ∧ Py.not_slash c = true.

(** The name of the transient file of a page inside its directory. *)
Definition page_basename (bk pg curr tot : Z) : string :=
  "bk_" +:+ Py.format_0d 6 bk +:+ "_pg_" +:+ Py.format_0d 6 pg
    +:+ "_" +:+ Py.format_0d 2 curr +:+ "_of_" +:+ Py.format_0d 2 tot +:+ ".jpg".

(** The characters of a formatted integer. *)
Definition digit_or_dash (c : ascii) : bool :=
  Py.is_digit c || bool_decide (c = "-"%char).

(** The file system without the file [path]. *)
Definition unlink (f : gmap string (gmap string file)) (path : string)
    : gmap string (gmap string file) :=
  match f !! (Py.os_path_split path).1 with
  | Some entries =>
      <[(Py.os_path_split path).1 := delete (Py.os_path_split path).2 entries]> f
  | None => f
  end.


(** Two paths name the same entry of the same directory. *)
Definition same_file (p q : string) : Prop := Py.os_path_split p = Py.os_path_split q.

(** The interactions of an attempt before it knows the number of pages,
    while it starts the browser and finds the record: they keep the files,
    and none of them is a download, a click on the next button of the
    viewer or the reading of the page count. *)
Definition nav_event (e : event) : bool :=
  match e with
  | EvRaise _ | EvSleep _ | EvBrowser _ _ | EvVisit _ _ | EvMouseOver _ _
  | EvFill _ _ _ | EvNextWindow _ | EvCookies _ _ => true
  | EvClick _ id => negb (bool_decide (id = "ImageViewer1_BtnNext"))
  | _ => false
  end.

(** [total_pages] as [_get_number_of_pages] computes it from the label. *)
Definition parse_page_count (page_range : string) : option Z :=
  Py.int (Py.last_item (Py.split " " page_range)).

(** [m] raises nothing but what the surroundings make a call raise. *)
Definition faults_only {A} (E : environment) (m : M A) : Prop :=
  ∀ w ex w', m w = (Raise ex, w') → ∃ h, fault E h = Some ex.

(** The files written along a stretch of history, in order. *)
Definition written (d : list event) : list string :=
  flat_map (λ e, match e with EvWrite p _ => [p] | _ => [] end) d.

(** The images of a document, page after page. *)
Definition page_images (doc : FPDF) : list string := img_name <$> concat (pdf_pages doc).

(** The document at [path], if there is one. *)
Definition document_at (f : gmap string (gmap string file)) (path : string) : option FPDF :=
  match file_at f path with
  | Some (Pdf doc) => Some doc
  | _ => None
  end.

(** The entries of the temporary directory after the pages [l], given with
    their bytes, have been stored on top of [entries]. *)
Definition add_page_files (bk pg tot : Z) (entries : gmap string file)
    (l : list (Z * string)) : gmap string file :=
  foldl (λ e p, <[page_basename bk pg p.1 tot := Raw p.2]> e) entries l.

(** The interactions of the page loop for page [curr], read at [src] and
    received as [body]. *)
Definition page_events (b : nat) (session : list (string * string)) (dir : string)
    (bk pg tot curr : Z) (src body : string) : list event :=
  [EvSleep 2; EvAttr b "ImageViewer1_docImage" "src" src;
   EvGet session (zoom_url src) body;
   EvOpen (page_file dir bk pg curr tot);
   EvWrite (page_file dir bk pg curr tot) body;
   EvPrint ("Downloaded page " +:+ Py.str_int curr +:+ " of " +:+ Py.str_int tot)]
  ++ (if bool_decide (curr ≠ tot)
      then [EvClick b "ImageViewer1_BtnNext"; EvSleep DEFAULT_SLEEP_TIME] else []).

(* ===================================================================== *)
(** * Notions of the further properties *)
(* ===================================================================== *)

Definition not_blank (c : ascii) : bool := negb (bool_decide (c = " "%char)).

(** [word] is the last field of [label.split(' ')]: what follows the last
    blank, or the whole label when it has no blank. *)
Definition last_word (label word : string) : Prop :=
  Py.all_chars not_blank word = true
  ∧ (label = word ∨ ∃ pre, label = pre +:+ " " +:+ word).

(** The characters an integer literal can hold: digits, signs, the
    underscore and white space. *)
Definition literal_char (c : ascii) : bool :=
  Py.is_digit c || bool_decide (c = "_"%char) || bool_decide (c = "-"%char)
  || bool_decide (c = "+"%char) || Py.is_space c.

(** The characters [glob] expands in a pattern are the star, the question
    mark and the opening bracket; [literal_dir d] says that the directory
    name [d] is not empty and holds none of them, so that [glob] takes it
    as it is. *)
Definition not_magic (c : ascii) : bool :=
  negb (bool_decide (c = "*"%char) || bool_decide (c = "?"%char)
        || bool_decide (c = "["%char)).
Definition literal_dir (d : string) : Prop :=
  d ≠ "" ∧ Py.all_chars not_magic d = true.


(** What a stretch of an attempt with the temporary directory [t] may have
    done to the file system [f0]: nothing outside [t] if it raises; if it
    returns, nothing outside [t] but the writing of a document at [path]. *)
Definition frame_post (t : string) (f0 : gmap string (gmap string file)) (path : string)
    {A} (r : result A * world) : Prop :=
  ∃ f3, (∀ d, d ≠ t → f3 !! d = f0 !! d)
    ∧ match r.1 with
      | Raise _ => fs r.2 = f3
      | Ok _ =>
          ∃ doc entries,
            f3 !! (Py.os_path_split path).1 = Some entries
            ∧ fs r.2 = <[(Py.os_path_split path).1 :=
                           <[(Py.os_path_split path).2 := Pdf doc]> entries]> f3
      end.

(** [f'] is [f] but for a document written at [path], into a directory
    that was there. *)
Definition only_artifact (path : string) (f f' : gmap string (gmap string file)) : Prop :=
  (∀ d, d ≠ (Py.os_path_split path).1 → f' !! d = f !! d)
  ∧ ∀ entries, f !! (Py.os_path_split path).1 = Some entries →
      ∃ doc, f' = <[(Py.os_path_split path).1 :=
                      <[(Py.os_path_split path).2 := Pdf doc]> entries]> f.

(** The line [main] prints when an attempt has failed. *)
Definition is_failure_report (e : event) : bool :=
  match e with
  | EvPrint line => bool_decide (line = "Error! Retrying")
  | _ => false
  end.
Definition failure_reports (d : list event) : nat :=
  length (List.filter is_failure_report d).

(* ===================================================================== *)
(** * Facts about strings *)
(* ===================================================================== *)

Section StringFacts.

#[local] Arguments String.append : simpl nomatch.

Lemma str_app_assoc (a b c : string) : (a +:+ b) +:+ c = a +:+ (b +:+ c).
Proof. induction a as [|x a IH]; simpl; [done|]. by rewrite IH. Qed.

Lemma str_app_nil_r (a : string) : a +:+ "" = a.
Proof. induction a as [|x a IH]; simpl; [done|]. by rewrite IH. Qed.

Lemma str_length_app (a b : string) :
  String.length (a +:+ b) = (String.length a + String.length b)%nat.
Proof. induction a as [|x a IH]; simpl; [done|]. by rewrite IH. Qed.

Lemma ascii_compare_refl (c : ascii) : Ascii.compare c c = Eq.
Proof. unfold Ascii.compare. apply N.compare_refl. Qed.

Lemma str_compare_refl (s : string) : String.compare s s = Eq.
Proof. induction s as [|c s IH]; simpl; [done|]. by rewrite ascii_compare_refl. Qed.

(** A common prefix does not take part in a comparison. *)
Lemma str_compare_app_l (p a b : string) :
  String.compare (p +:+ a) (p +:+ b) = String.compare a b.
Proof. induction p as [|c p IH]; simpl; [done|]. by rewrite ascii_compare_refl. Qed.

(** Two different strings of one length decide the comparison of
    whatever extends them. *)
Lemma str_compare_app_differ (a b s t : string) :
  String.length a = String.length b →
  String.compare a b ≠ Eq →
  String.compare (a +:+ s) (b +:+ t) = String.compare a b.
Proof.
  revert b. induction a as [|x a IH]; intros [|y b] Hlen Hne; simplify_eq/=.
  destruct (Ascii.compare x y); auto.
Qed.

Lemma str_prefix_nil (s : string) : String.prefix "" s = true.
Proof. by destruct s. Qed.

Lemma str_prefix_app (p s : string) : String.prefix p (p +:+ s) = true.
Proof.
  induction p as [|c p IH]; simpl; [apply str_prefix_nil|].
  by destruct (ascii_dec c c).
Qed.

Lemma str_ltb_compare (a b : string) :
  String.ltb a b = true ↔ String.compare a b = Lt.
Proof. unfold String.ltb. destruct (String.compare a b); naive_solver. Qed.

End StringFacts.

(* ===================================================================== *)
(** * Transient file names and their order *)
(* ===================================================================== *)

Section FileNames.

#[local] Arguments String.append : simpl nomatch.

Lemma starts_with_char (a c : ascii) (s : string) :
  Py.starts_with (String a "") (String c s) = bool_decide (a = c).
Proof.
  unfold Py.starts_with. cbn [String.prefix].
  destruct (ascii_dec a c); case_bool_decide; try done. by destruct s.
Qed.

(** The file of a page is a prefix and a suffix, both the same for every
    page of a run, around the two-digit index. *)
Lemma page_file_split (dir : string) (bk pg tot : Z) :
  ∃ pre, ∀ i,
    page_file dir bk pg i tot =
      pre +:+ Py.format_0d 2 i +:+ ("_of_" +:+ Py.format_0d 2 tot +:+ ".jpg").
Proof.
  unfold page_file, image_file_path, page_name, Py.os_path_join.
  destruct dir as [|c dir].
  - exists ("/bk_" +:+ Py.format_0d 6 bk +:+ "_pg_" +:+ Py.format_0d 6 pg +:+ "_").
    intros i. cbn [String.append]. rewrite starts_with_char.
    rewrite bool_decide_eq_true_2 by done.
    by repeat (rewrite str_app_assoc; cbn [String.append]).
  - destruct (bool_decide ("/"%char = c)) eqn:Hc;
      [|destruct (bool_decide (String c dir = "") || Py.ends_with "/" (String c dir))
          eqn:Hd].
    + exists (String c dir +:+ "/bk_" +:+ Py.format_0d 6 bk +:+ "_pg_"
                +:+ Py.format_0d 6 pg +:+ "_").
      intros i. cbn [String.append]. rewrite starts_with_char, Hc.
      by repeat (rewrite str_app_assoc; cbn [String.append]).
    + exists (String c dir +:+ String c dir +:+ "/bk_" +:+ Py.format_0d 6 bk
                +:+ "_pg_" +:+ Py.format_0d 6 pg +:+ "_").
      intros i. cbn [String.append]. rewrite starts_with_char, Hc.
      by repeat (rewrite str_app_assoc; cbn [String.append]).
    + exists (String c dir +:+ "/" +:+ String c dir +:+ "/bk_"
                +:+ Py.format_0d 6 bk +:+ "_pg_" +:+ Py.format_0d 6 pg +:+ "_").
      intros i. cbn [String.append]. rewrite starts_with_char, Hc.
      by repeat (rewrite str_app_assoc; cbn [String.append]).
Qed.

(** From 1 to 99 the two-digit indices have one length and grow with the
    number: checked on the 99 x 99 pairs. *)
Lemma two_digits_ordered (i j : Z) :
  (1 ≤ i)%Z → (i < j)%Z → (j ≤ 99)%Z →
  String.length (Py.format_0d 2 i) = String.length (Py.format_0d 2 j)
  ∧ String.compare (Py.format_0d 2 i) (Py.format_0d 2 j) = Lt.
Proof.
  intros Hi Hij Hj.
  pose (ok := λ a b : Z,
    if bool_decide (a < b)%Z then
      bool_decide (String.length (Py.format_0d 2 a) = String.length (Py.format_0d 2 b)
                   ∧ String.compare (Py.format_0d 2 a) (Py.format_0d 2 b) = Lt)
    else true).
  assert (forallb (λ a, forallb (ok a) (seqZ 1 99)) (seqZ 1 99) = true) as Hall
    by (vm_compute; reflexivity).
  rewrite List.forallb_forall in Hall.
  specialize (Hall i). rewrite List.forallb_forall in Hall.
  assert (ok i j = true) as Hok.
  { apply Hall; apply list_elem_of_In, elem_of_seqZ; lia. }
  clear Hall. rename Hok into Hall.
  unfold ok in Hall. rewrite bool_decide_eq_true_2 in Hall by done.
  by apply bool_decide_eq_true in Hall.
Qed.

End FileNames.

Section FileNameOrder.

#[local] Arguments String.append : simpl nomatch.

(** Up to 99 pages the file of a page sorts strictly before the file of
    every later page. *)
Lemma page_file_lt (dir : string) (bk pg tot i j : Z) :
  (1 ≤ i)%Z → (i < j)%Z → (j ≤ tot)%Z → (tot ≤ 99)%Z →
  String.ltb (page_file dir bk pg i tot) (page_file dir bk pg j tot) = true.
Proof.
  intros Hi Hij Hj Htot.
  destruct (page_file_split dir bk pg tot) as [pre Hpre].
  rewrite !Hpre. apply str_ltb_compare.
  rewrite str_compare_app_l.
  destruct (two_digits_ordered i j) as [Hlen Hlt]; [lia..|].
  rewrite str_compare_app_differ; [done|done|]. by rewrite Hlt.
Qed.

(** C5. Within one run, as long as the record has at most 99 pages, the
    transient file of page [i] sorts (by code point, as [sorted] compares
    strings) strictly before the file of every later page [j]; and for
    every total of 100 pages or more there are pages [i < j] whose files
    sort the other way round: the file of page 100 sorts before the file
    of page 10. *)
Theorem page_file_order_two_digits (dir : string) (bk pg : Z) :
  (∀ tot i j : Z, (1 ≤ i)%Z → (i < j)%Z → (j ≤ tot)%Z → (tot ≤ 99)%Z →
     String.ltb (page_file dir bk pg i tot) (page_file dir bk pg j tot) = true)
  ∧ (∀ tot : Z, (100 ≤ tot)%Z →
     ∃ i j : Z, (1 ≤ i)%Z ∧ (i < j)%Z ∧ (j ≤ tot)%Z ∧
       String.ltb (page_file dir bk pg j tot) (page_file dir bk pg i tot) = true).
Proof.
  split; [intros tot i j; apply page_file_lt|].
  intros tot Htot. exists 10%Z, 100%Z. repeat split; [lia..|].
  destruct (page_file_split dir bk pg tot) as [pre Hpre].
  rewrite !Hpre. apply str_ltb_compare.
  rewrite str_compare_app_l.
  change (Py.format_0d 2 100) with "100".
  change (Py.format_0d 2 10) with "10".
  reflexivity.
Qed.

(** A run of 12 pages and a run of 100 pages. *)
Lemma page_file_order_two_digits_witness :
  String.ltb (page_file "/tmp/tmp1" 500 10 9 12) (page_file "/tmp/tmp1" 500 10 10 12) = true
  ∧ ∃ i j : Z, (1 ≤ i)%Z ∧ (i < j)%Z ∧ (j ≤ 100)%Z ∧
       String.ltb (page_file "/tmp/tmp1" 500 10 j 100)
                  (page_file "/tmp/tmp1" 500 10 i 100) = true.
Proof.
  split.
  - apply (proj1 (page_file_order_two_digits "/tmp/tmp1" 500 10) 12%Z 9%Z 10%Z); lia.
  - apply (proj2 (page_file_order_two_digits "/tmp/tmp1" 500 10) 100%Z); lia.
Defined.

End FileNameOrder.

(* ===================================================================== *)
(** * The rewriting of the zoom parameter *)
(* ===================================================================== *)

Section Zoom.

#[local] Arguments String.append : simpl nomatch.

Lemma substring_0_0 (s : string) : String.substring 0 0 s = "".
Proof. by destruct s. Qed.

Lemma zoom1_ends_at_nil (i : nat) : zoom1_ends_at "" i = false.
Proof.
  unfold zoom1_ends_at. destruct (5 <=? i)%nat; [|done].
  by destruct (i - 5)%nat.
Qed.

Lemma zoom_url_match (t : string) :
  zoom_url ("ZOOM=1" +:+ t) = "ZOOM=6" +:+ zoom_url t.
Proof. by destruct t. Qed.

Lemma zoom_url_skip (c : ascii) (t : string) :
  String.prefix "ZOOM=1" (String c t) = false →
  zoom_url (String c t) = String c (zoom_url t).
Proof. intros H. unfold zoom_url, Py.replace. cbn [Py.replace_go]. by rewrite H. Qed.

Lemma prefix_zoom1 (u : string) :
  String.prefix "ZOOM=1" u = true → ∃ t, u = "ZOOM=1" +:+ t.
Proof.
  intros H. apply String.prefix_correct in H.
  do 6 (destruct u as [|? u]; [done|]). simpl in H. simplify_eq.
  by eexists.
Qed.

(** What [zoom_url] does, position by position. *)
Lemma zoom_url_pointwise (n : nat) (u : string) :
  (String.length u ≤ n)%nat →
  String.length (zoom_url u) = String.length u
  ∧ ∀ i, String.get i (zoom_url u) =
           if zoom1_ends_at u i then Some "6"%char else String.get i u.
Proof.
  revert u. induction n as [|n IH]; intros u Hlen.
  { destruct u; [|simpl in Hlen; lia]. split; [done|]. intros i.
    by rewrite zoom1_ends_at_nil. }
  destruct (String.prefix "ZOOM=1" u) eqn:Hp.
  - apply prefix_zoom1 in Hp as [t ->]. rewrite zoom_url_match.
    simpl in Hlen. destruct (IH t) as [IHlen IHget]; [lia|].
    split; [simpl; by rewrite IHlen|].
    intros i. unfold zoom1_ends_at.
    do 5 (destruct i as [|i]; [reflexivity|]).
    destruct i as [|i].
    { cbn. by rewrite substring_0_0. }
    cbn [String.append String.get]. rewrite IHget. unfold zoom1_ends_at.
    do 5 (destruct i as [|i]; [reflexivity|]).
    cbn. by rewrite Nat.sub_0_r.
  - destruct u as [|c t]; [simpl in Hlen|].
    { split; [done|]. intros i. by rewrite zoom1_ends_at_nil. }
    rewrite zoom_url_skip by done. simpl in Hlen.
    destruct (IH t) as [IHlen IHget]; [lia|].
    split; [simpl; by rewrite IHlen|].
    intros i. destruct i as [|i]; [reflexivity|].
    cbn [String.get]. rewrite IHget. unfold zoom1_ends_at.
    do 4 (destruct i as [|i]; [reflexivity|]).
    destruct i as [|i]; [|cbn; by rewrite Nat.sub_0_r].
    (* the occurrence would start at the head of [u] *)
    change (5 <=? 5)%nat with true. change (5 <=? 4)%nat with false.
    cbn [andb Nat.sub].
    assert (String.substring 0 (String.length "ZOOM=1") (String c t) ≠ "ZOOM=1") as Hne.
    { intros Heq. apply String.prefix_correct in Heq. congruence. }
    apply String.eqb_neq in Hne. change (String.length "ZOOM=1") with 6%nat in Hne.
    by rewrite Hne.
Qed.

End Zoom.

(* ===================================================================== *)
(** * What a computation may add to the history *)
(* ===================================================================== *)

Section Emits.

Context (E : environment) (ok : event → bool).
Hypothesis ok_raise : ∀ ex, ok (EvRaise ex) = true.

Lemma evolves_refl w : evolves ok w w.
Proof. exists []. rewrite app_nil_r. simpl. auto with lia. Qed.

Lemma evolves_trans w1 w2 w3 :
  evolves ok w1 w2 → evolves ok w2 w3 → evolves ok w1 w3.
Proof.
  intros (d1 & H1 & O1 & B1 & F1) (d2 & H2 & O2 & B2 & F2). exists (d1 ++ d2).
  rewrite H2, H1, <-app_assoc, !forallb_app, O1, O2, B2, B1.
  rewrite List.filter_app, length_app.
  split; [done|]. split; [done|]. split; [lia|].
  intros [K1 K2]%andb_true_iff. by rewrite F2, F1.
Qed.

Lemma evolves_log e w :
  ok e = true → is_browser_start e = false → evolves ok w (log e w).
Proof.
  intros He Hb. exists [e]. simpl. rewrite He, Hb. simpl. auto with lia.
Qed.

(** A change of the files goes with an interaction that tells it. *)
Lemma evolves_files f e w :
  ok e = true → is_browser_start e = false → keeps_files e = false →
  evolves ok w (log e (World f (live_browsers w) (history w))).
Proof.
  intros He Hb Hk. exists [e]. simpl. rewrite He, Hb, Hk. simpl.
  split_and!; [done..|lia|done].
Qed.

Lemma emits_ret {A} (a : A) : emits_only ok (ret a).
Proof. intros w. apply evolves_refl. Qed.

Lemma emits_bind {A B} (m : M A) (f : A → M B) :
  emits_only ok m → (∀ a, emits_only ok (f a)) → emits_only ok (bind m f).
Proof.
  intros Hm Hf w. unfold bind. specialize (Hm w).
  destruct (m w) as [[a|ex] w1]; [|done].
  eapply evolves_trans; [done|]. apply Hf.
Qed.

Lemma emits_raise {A} ex : emits_only ok (raise (A:=A) ex).
Proof. intros w. by apply evolves_log. Qed.

Lemma emits_emit e :
  ok e = true → is_browser_start e = false → emits_only ok (emit e).
Proof. intros ?? w. by apply evolves_log. Qed.

Lemma emits_fallible : emits_only ok (fallible E).
Proof.
  intros w. unfold fallible. destruct (fault E (history w)).
  - by apply evolves_log.
  - apply evolves_refl.
Qed.

Lemma emits_ask {A} (f : list event → A) : emits_only ok (ask f).
Proof. intros w. apply evolves_refl. Qed.

Lemma emits_get_fs : emits_only ok get_fs.
Proof. intros w. apply evolves_refl. Qed.

Lemma emits_set_fs_emit f e :
  ok e = true → is_browser_start e = false → keeps_files e = false →
  emits_only ok (bind (set_fs f) (λ _, emit e)).
Proof. intros ??? w. by apply evolves_files. Qed.

Lemma emits_try_except {A} (body : M A) handler :
  emits_only ok body → (∀ ex, emits_only ok (handler ex)) →
  emits_only ok (try_except body handler).
Proof.
  intros Hb Hh w. unfold try_except. specialize (Hb w).
  destruct (body w) as [[a|ex] w1]; [done|].
  destruct (is_Exception ex); [|done].
  eapply evolves_trans; [done|]. apply Hh.
Qed.

Lemma emits_Browser driver :
  (∀ b, ok (EvBrowser b driver) = true) → emits_only ok (Browser E driver).
Proof.
  intros Hok. apply emits_bind; [apply emits_fallible|]. intros _ w.
  exists [EvBrowser (live_browsers w) driver]. simpl. rewrite Hok.
  auto with lia.
Qed.

Lemma emits_store path content e :
  ok e = true → is_browser_start e = false → keeps_files e = false →
  emits_only ok (store path content e).
Proof.
  intros He Hb Hk. unfold store. apply emits_bind; [apply emits_get_fs|]. intros f.
  destruct (Py.os_path_split path) as [d n].
  destruct (f !! d); [|apply emits_raise].
  case_bool_decide; [apply emits_raise|]. by apply emits_set_fs_emit.
Qed.

(** The two steps of a write: the opening of the file tells that the file
    may have changed, also when the writing fails. *)
Lemma emits_write_binary path data :
  ok (EvOpen path) = true → ok (EvWrite path data) = true →
  emits_only ok (write_binary E path data).
Proof.
  intros Ho Hw w. unfold write_binary, store, overwrite, bind, fallible, ask,
    get_fs, set_fs, emit, raise.
  destruct (fault E (history w)) as [ex|]; [by apply evolves_log|].
  destruct (Py.os_path_split path) as [d n]. cbn [fs history live_browsers log].
  destruct (fs w !! d) as [entries|]; [|by apply evolves_log].
  case_bool_decide as Hn; [by apply evolves_log|].
  cbn [fs history live_browsers log].
  destruct (fault E (history w ++ [EvOpen path])) as [ex|].
  - exists [EvOpen path; EvRaise ex]. cbn. rewrite Ho, ok_raise, <-app_assoc.
    split_and!; [done..|lia|done].
  - unfold log. cbn [fs history live_browsers]. rewrite lookup_insert_eq.
    exists [EvOpen path; EvWrite path data]. cbn. rewrite Ho, Hw, <-app_assoc.
    split_and!; [done..|lia|done].
Qed.

Lemma emits_os_remove path :
  ok (EvRemove path) = true → emits_only ok (os_remove E path).
Proof.
  intros He. unfold os_remove.
  apply emits_bind; [apply emits_fallible|]. intros _.
  apply emits_bind; [apply emits_get_fs|]. intros f.
  destruct (Py.os_path_split path) as [d n].
  destruct (f !! d) as [entries|]; [|apply emits_raise].
  destruct (entries !! n); [|apply emits_raise]. by apply emits_set_fs_emit.
Qed.

Lemma emits_pdf_image pdf name x y w h :
  ok (EvImage name) = true → emits_only ok (pdf_image E pdf name x y w h).
Proof.
  intros He. unfold pdf_image.
  apply emits_bind; [apply emits_fallible|]. intros _.
  apply emits_bind; [apply emits_get_fs|]. intros f.
  destruct (file_at f name) as [[data|doc]|]; try apply emits_raise.
  destruct (place _ _); [|apply emits_raise].
  apply emits_bind; [by apply emits_emit|]. intros _. apply emits_ret.
Qed.

Lemma emits_mkdtemp :
  (∀ d, ok (EvMkdtemp d) = true) → emits_only ok (mkdtemp E).
Proof.
  intros He. unfold mkdtemp.
  apply emits_bind; [apply emits_fallible|]. intros _.
  apply emits_bind; [apply emits_ask|]. intros d.
  apply emits_bind; [apply emits_get_fs|]. intros f.
  destruct (f !! d); [apply emits_raise|].
  intros w. unfold bind, set_fs, emit, ret. by apply evolves_files.
Qed.

Lemma emits_with_TemporaryDirectory {A} (body : string → M A) :
  (∀ d, ok (EvMkdtemp d) = true) → (∀ d, ok (EvCleanup d) = true) →
  (∀ d, emits_only ok (body d)) →
  emits_only ok (with_TemporaryDirectory E body).
Proof.
  intros Hm Hc Hb w. unfold with_TemporaryDirectory.
  pose proof (emits_mkdtemp Hm w) as H1.
  destruct (mkdtemp E w) as [[d|ex] w1]; [|done].
  specialize (Hb d w1). destruct (body d w1) as [r w2]. simpl in *.
  eapply evolves_trans; [done|]. eapply evolves_trans; [done|].
  by apply evolves_files.
Qed.

End Emits.

(** Allowing more interactions keeps what was established. *)
Lemma evolves_mono (ok1 ok2 : event → bool) w w' :
  (∀ e, ok1 e = true → ok2 e = true) → evolves ok1 w w' → evolves ok2 w w'.
Proof.
  intros Hle (d & Hd & Hok & Hb & Hf). exists d.
  split; [done|]. split; [|done].
  rewrite List.forallb_forall in *. auto.
Qed.

(** Proves [emits_only ok m] for straight-line code over the primitives;
    the conditions on [ok] are left to [done]. *)
Ltac emits_side :=
  try done; try (apply bool_decide_eq_true_2; done); try apply str_prefix_app.
Ltac emits_step :=
  first
    [ apply emits_ret
    | apply emits_raise; [emits_side]
    | apply emits_fallible; [emits_side]
    | apply emits_ask
    | apply emits_get_fs
    | apply emits_emit; [emits_side..]
    | apply emits_Browser; [emits_side..]
    | apply emits_store; [emits_side..]
    | apply emits_write_binary; [emits_side..]
    | apply emits_os_remove; [emits_side..]
    | apply emits_pdf_image; [emits_side..]
    | apply emits_bind; [|intros ?] ].
Ltac emits := repeat emits_step.

(* ===================================================================== *)
(** * What the functions of the program add to the history *)
(* ===================================================================== *)

Section ProgramEmits.

Context (E : environment).

#[local] Arguments String.append : simpl nomatch.

Lemma emits_go_to_search_page browser book :
  emits_only (search_page_event browser book) (_go_to_search_page E browser book).
Proof.
  unfold _go_to_search_page, sleep, mouse_over, click. emits.
Qed.

Section Attempt.

Context (book page : Z) (output_dir : string).
Let ok := body_event book page output_dir.

Lemma emits_get_page_url b : emits_only ok (_get_page_url E b).
Proof. unfold _get_page_url, sleep, attr_of. emits. Qed.

Lemma emits_download_image s url dir name r :
  emits_only ok (_download_image E s url dir name r).
Proof. unfold _download_image, session_get, print. emits. Qed.

Lemma emits_go_to_next_page b : emits_only ok (_go_to_next_page E b).
Proof. unfold _go_to_next_page, click, sleep. emits. Qed.

Lemma emits_fetch_pages fuel b s dir bk pg total cur :
  emits_only ok (fetch_pages E fuel b s dir bk pg total cur).
Proof.
  revert cur. induction fuel as [|fuel IH]; intros cur; simpl; [apply emits_ret|].
  case_bool_decide; [|apply emits_ret].
  apply emits_bind; [apply emits_get_page_url|]. intros url.
  apply emits_bind; [apply emits_download_image|]. intros _.
  apply emits_bind; [|intros _; apply IH].
  case_bool_decide; [apply emits_go_to_next_page|apply emits_ret].
Qed.

Lemma emits_add_images pdf images : emits_only ok (add_images E pdf images).
Proof.
  revert pdf. induction images as [|image rest IH]; intros pdf; simpl.
  { apply emits_ret. }
  apply emits_bind; [by apply emits_pdf_image|]. intros pdf'.
  apply emits_bind; [by apply emits_os_remove|]. intros _. apply IH.
Qed.

Lemma emits_create_pdf image_dir :
  emits_only ok (_create_pdf E image_dir output_dir (pdf_name book page)).
Proof.
  unfold _create_pdf, pdf_output.
  apply emits_bind; [emits|]. intros images.
  apply emits_bind; [apply emits_add_images|]. intros pdf. emits.
Qed.

Lemma emits_go_to_search_page_attempt b :
  emits_only ok (_go_to_search_page E b book).
Proof. unfold _go_to_search_page, sleep, mouse_over, click. emits. Qed.

Lemma emits_fill_attempt b : emits_only ok (_fill_in_search_terms E b book page).
Proof. unfold _fill_in_search_terms, fill, click. emits. Qed.

Lemma emits_select_attempt b : emits_only ok (_select_document E b).
Proof. unfold _select_document, sleep, click, next_window. emits. Qed.

Lemma emits_create_session b : emits_only ok (_create_session E b).
Proof. unfold _create_session, cookies_all. emits. Qed.

Lemma emits_get_number_of_pages b : emits_only ok (_get_number_of_pages E b).
Proof.
  unfold _get_number_of_pages, value_of.
  apply emits_bind; [emits|]. intros v.
  destruct (Py.int _); emits.
Qed.

Lemma emits_download_pdf_block d :
  emits_only ok (download_pdf_block E book page output_dir d).
Proof.
  unfold download_pdf_block.
  apply emits_bind; [by apply emits_Browser|]. intros b.
  apply emits_bind; [unfold visit; emits|]. intros _.
  apply emits_bind; [apply emits_go_to_search_page_attempt|]. intros _.
  apply emits_bind; [apply emits_fill_attempt|]. intros _.
  apply emits_bind; [apply emits_select_attempt|]. intros _.
  apply emits_bind; [apply emits_create_session|]. intros session.
  apply emits_bind; [apply emits_get_number_of_pages|]. intros total.
  apply emits_bind; [apply emits_fetch_pages|]. intros _.
  apply emits_create_pdf.
Qed.

End Attempt.

End ProgramEmits.

(* ===================================================================== *)
(** * Navigation *)
(* ===================================================================== *)

Section Navigation.

Context (E : environment).

Lemma evolves_elem_of ok w w' d e :
  history w' = history w ++ d → evolves ok w w' → e ∈ d → ok e = true.
Proof.
  intros Hd (d' & Hd' & Hok & _) He. rewrite Hd in Hd'.
  apply app_inv_head in Hd' as <-.
  rewrite List.forallb_forall in Hok. by apply Hok, list_elem_of_In.
Qed.

(** C7. [_go_to_search_page] clicks one of two search links and the book
    number alone decides which, by comparison with the constant 2393:
    below it the link [..LinkButton02], from it on [..LinkButton01].
    Whatever the outcome no other click is made, and when the function
    returns it has made exactly that one click, after the pause and the
    pointer move over the menu. *)
Theorem go_to_search_page_threshold (browser : nat) (book : Z) (w : world) :
  ∃ d, history (_go_to_search_page E browser book w).2 = history w ++ d
    ∧ (∀ b id, EvClick b id ∈ d →
         ((book < 2393)%Z ∧ id = "Navigator1_SearchCriteria1_LinkButton02")
         ∨ ((2393 ≤ book)%Z ∧ id = "Navigator1_SearchCriteria1_LinkButton01"))
    ∧ (∀ u, (_go_to_search_page E browser book w).1 = Ok u →
         d = [EvSleep DEFAULT_SLEEP_TIME;
              EvMouseOver browser "Navigator1_SearchCriteria1_menuLabel";
              EvClick browser
                (if bool_decide (book < 2393)%Z
                 then "Navigator1_SearchCriteria1_LinkButton02"
                 else "Navigator1_SearchCriteria1_LinkButton01")]).
Proof.
  pose proof (emits_go_to_search_page E browser book w) as Hev.
  destruct Hev as (d & Hd & Hok & Hb & _). exists d. split; [done|]. split.
  - intros b id Hin. rewrite List.forallb_forall in Hok.
    apply list_elem_of_In, Hok in Hin. simpl in Hin.
    apply bool_decide_eq_true in Hin as [_ ->]. unfold search_button_id.
    case_bool_decide; [left|right]; split; auto with lia.
  - intros u Hu. revert Hd Hu. clear Hok Hb.
    cbv [_go_to_search_page bind sleep mouse_over click emit fallible raise log].
    cbn [history fs live_browsers].
    repeat (case_match; simplify_eq/=); try done.
    all: intros Hd _; rewrite <-!app_assoc in Hd; apply app_inv_head in Hd as <-.
    all: unfold search_button_id; by case_bool_decide.
Qed.

End Navigation.

Section PageUrl.

Context (E : environment).

(** C8. When [_get_page_url] returns, it has paused, read the [src] of
    the image the viewer shows, and returns that URL with every
    [ZOOM=1] turned into [ZOOM=6]: the result has the length of the URL
    read, holds [6] where the URL read holds the [1] of a [ZOOM=1], and
    is the URL read at every other position. *)
Theorem get_page_url_raises_zoom (browser : nat) (w : world) :
  ∀ url, (_get_page_url E browser w).1 = Ok url →
    ∃ src,
      history (_get_page_url E browser w).2 =
        history w ++ [EvSleep 2; EvAttr browser "ImageViewer1_docImage" "src" src]
      ∧ url = zoom_url src
      ∧ String.length url = String.length src
      ∧ ∀ i, String.get i url =
               if zoom1_ends_at src i then Some "6"%char else String.get i src.
Proof.
  intros url.
  cbv [_get_page_url bind sleep attr_of emit fallible raise log ask ret].
  cbn [history fs live_browsers].
  repeat (case_match; simplify_eq/=); try done.
  intros [= <-]. eexists. split; [by rewrite <-app_assoc|]. split; [done|].
  by eapply zoom_url_pointwise.
Qed.

End PageUrl.

(** The viewer of the model site shows page 1 at zoom level 1. *)
Lemma get_page_url_raises_zoom_witness :
  ∃ src,
    history (_get_page_url (site 3 no_faults) 0 home).2 =
      history home ++ [EvSleep 2; EvAttr 0 "ImageViewer1_docImage" "src" src]
    ∧ "http://titleview.org/plymouthdeeds/img.aspx?PG=1&ZOOM=6" = zoom_url src
    ∧ String.length "http://titleview.org/plymouthdeeds/img.aspx?PG=1&ZOOM=6"
        = String.length src
    ∧ ∀ i, String.get i "http://titleview.org/plymouthdeeds/img.aspx?PG=1&ZOOM=6" =
             if zoom1_ends_at src i then Some "6"%char else String.get i src.
Proof.
  apply (get_page_url_raises_zoom (site 3 no_faults) 0 home). reflexivity.
Defined.


(* ===================================================================== *)
(** * The shape of an attempt *)
(* ===================================================================== *)

Section Attempts.

Context (E : environment) (book page : Z) (output_dir : string).

#[local] Arguments String.append : simpl nomatch.

(** The world in which the block of an attempt starts, when the
    temporary directory [t] could be made. *)
Let entered (t : string) (w : world) : world :=
  log (EvMkdtemp t)
      (World (<[t := ∅]> (fs w)) (live_browsers w)
             (history w ++ [EvPrint (trying_line book page)])).

(** An attempt either fails to make its directory, because the call
    raises or because the name is taken, or runs its block in a new
    directory and removes the directory whatever the block did. *)
Lemma download_pdf_run_mkdtemp w :
  let h := history w ++ [EvPrint (trying_line book page)] in
  let t := tmp_dir_name (tmp_token E h) in
  (∃ ex, download_pdf E book page output_dir w =
           (Raise ex, log (EvRaise ex) (log (EvPrint (trying_line book page)) w))
         ∧ (fault E h = Some ex ∨ is_Some (fs w !! t)))
  ∨ (fault E h = None
     ∧ fs w !! t = None
     ∧ download_pdf E book page output_dir w =
         (match (download_pdf_block E book page output_dir t (entered t w)).1 with
          | Ok _ => Ok PyNone
          | Raise ex => Raise ex
          end,
          cleanup t (download_pdf_block E book page output_dir t (entered t w)).2)).
Proof.
  destruct w as [f n h].
  unfold download_pdf, with_TemporaryDirectory, mkdtemp, entered, cleanup, trying_line.
  cbv [bind print emit fallible raise ask get_fs set_fs ret log
       history fs live_browsers fst snd].
  destruct (fault E _) as [ex|] eqn:Hfault; [left; eexists; eauto|].
  destruct (f !! tmp_dir_name _) eqn:Hfree; [left; eexists; eauto|].
  right. split; [done|]. split; [done|].
  by destruct (download_pdf_block _ _ _ _ _ _) as [[[]|ex] w2].
Qed.

Lemma download_pdf_run w :
  (∃ ex, download_pdf E book page output_dir w =
           (Raise ex, log (EvRaise ex) (log (EvPrint (trying_line book page)) w)))
  ∨ (∃ t, fs w !! t = None
        ∧ download_pdf E book page output_dir w =
            (match (download_pdf_block E book page output_dir t (entered t w)).1 with
             | Ok _ => Ok PyNone
             | Raise ex => Raise ex
             end,
             cleanup t (download_pdf_block E book page output_dir t (entered t w)).2)).
Proof.
  destruct (download_pdf_run_mkdtemp w) as [(ex & Hr & _)|(_ & Hfree & Hr)];
    [left|right]; eauto.
Qed.

(** An attempt prints its first line and then only adds what
    [attempt_event] allows. *)
Lemma download_pdf_history w :
  ∃ d, history (download_pdf E book page output_dir w).2 =
         history w ++ EvPrint (trying_line book page) :: d
       ∧ forallb (attempt_event book page output_dir) d = true
       ∧ live_browsers (download_pdf E book page output_dir w).2 =
           (live_browsers w + length (List.filter is_browser_start d))%nat.
Proof.
  destruct (download_pdf_run w) as [[ex ->]|(t & Hfree & ->)].
  - exists [EvRaise ex]. simpl. rewrite <-app_assoc. auto with lia.
  - destruct (emits_download_pdf_block E book page output_dir t (entered t w))
      as (d & Hd & Hok & Hb & _).
    exists (EvMkdtemp t :: d ++ [EvCleanup t]).
    cbn [snd cleanup log history fs live_browsers]. rewrite Hd, Hb.
    subst entered. cbn [log history fs live_browsers].
    rewrite <-!app_assoc. split; [done|]. split.
    + rewrite List.forallb_forall in *. intros e [<-|He]; [done|].
      apply in_app_iff in He as [He|[<-|[]]]; [|done].
      specialize (Hok e He). by destruct e.
    + simpl. rewrite List.filter_app, length_app. simpl. lia.
Qed.

(** C3, as the program has it.  Whatever an attempt does, and so also
    when it raises in the middle of the page loop: the temporary
    directory it made is gone from the file system when the attempt
    returns or raises, its removal being the last interaction of the
    attempt; and no browser is ever closed: each browser the attempt
    started is still live then, so that after an attempt that started
    its browser more browsers are live than before. *)
Theorem attempt_cleanup (w : world) :
  ∃ d, history (download_pdf E book page output_dir w).2 = history w ++ d
    ∧ (∀ t, EvMkdtemp t ∈ d →
         fs (download_pdf E book page output_dir w).2 !! t = None
         ∧ List.last d (EvPrint "") = EvCleanup t)
    ∧ live_browsers (download_pdf E book page output_dir w).2 =
        (live_browsers w + length (List.filter is_browser_start d))%nat
    ∧ (∀ b driver, EvBrowser b driver ∈ d →
         (live_browsers w < live_browsers (download_pdf E book page output_dir w).2)%nat).
Proof.
  assert (∀ d : list event, ∀ b driver, EvBrowser b driver ∈ d →
            (0 < length (List.filter is_browser_start d))%nat) as Hstarted.
  { intros d b driver Hin. induction d as [|e d IH]; [by apply elem_of_nil in Hin|].
    apply elem_of_cons in Hin as [<-|Hin]; simpl; [lia|].
    destruct (is_browser_start e); simpl; auto with lia. }
  destruct (download_pdf_run w) as [[ex Hrun]|(t & Hfree & Hrun)]; rewrite Hrun.
  - exists [EvPrint (trying_line book page); EvRaise ex]. simpl.
    rewrite <-app_assoc. split; [done|]. split_and!.
    + intros t Hin. by repeat (apply elem_of_cons in Hin as [?|Hin]; [done|]);
        apply elem_of_nil in Hin.
    + lia.
    + intros b driver Hin. by repeat (apply elem_of_cons in Hin as [?|Hin]; [done|]);
        apply elem_of_nil in Hin.
  - destruct (emits_download_pdf_block E book page output_dir t (entered t w))
      as (d & Hd & Hok & Hb & _).
    exists (EvPrint (trying_line book page) :: EvMkdtemp t :: d ++ [EvCleanup t]).
    cbn [snd cleanup log history fs live_browsers]. rewrite Hd, Hb.
    subst entered. cbn [log history fs live_browsers].
    split; [by rewrite <-!app_assoc|].
    assert (List.filter is_browser_start
              (EvPrint (trying_line book page) :: EvMkdtemp t :: d ++ [EvCleanup t])
            = List.filter is_browser_start d) as Hcount.
    { simpl. rewrite List.filter_app. simpl. by rewrite app_nil_r. }
    rewrite Hcount. split_and!.
    + intros t' Hin.
      assert (t' = t) as ->.
      { apply elem_of_cons in Hin as [?|Hin]; [done|].
        apply elem_of_cons in Hin as [?|Hin]; [by simplify_eq|].
        apply elem_of_app in Hin as [Hin|Hin].
        - rewrite List.forallb_forall in Hok.
          by apply list_elem_of_In, Hok in Hin.
        - apply list_elem_of_singleton in Hin. by simplify_eq. }
      split; [apply lookup_delete_eq|].
      by rewrite !app_comm_cons, List.last_last.
    + simpl. lia.
    + intros b driver Hin. simpl.
      assert (0 < length (List.filter is_browser_start d))%nat; [|lia].
      rewrite <-Hcount. by eapply Hstarted.
Qed.

End Attempts.

(** The record has 3 pages and the attempt fails at page 2, after the
    download of page 1: the directory of the attempt is gone, the browser
    it started is not closed. *)
Lemma session_left_open_after_failure :
  let w' := (download_pdf (site 3 (fails_at 26)) 500 10 "/home/user/Downloads" home).2 in
  (download_pdf (site 3 (fails_at 26)) 500 10 "/home/user/Downloads" home).1
    = Raise (Exc WebDriverException "chrome not reachable")
  ∧ history w' !! 1%nat = Some (EvMkdtemp "/tmp/tmp1")
  ∧ history w' !! 2%nat = Some (EvBrowser 0 "/opt/deed_finder/chromedriver")
  ∧ downloads (history w') = 1%nat
  ∧ fs w' !! "/tmp/tmp1" = None
  ∧ ¬ session_released home w'.
Proof. vm_compute. by repeat split. Qed.

(* ===================================================================== *)
(** * The retry loop of [main] *)
(* ===================================================================== *)

Section Retry.

Context (E : environment) (book page : Z) (dir : string).

#[local] Arguments String.append : simpl nomatch.

Lemma filter_nil_forallb {A} (p q : A → bool) (d : list A) :
  (∀ x, q x = true → p x = false) → forallb q d = true → List.filter p d = [].
Proof.
  intros Hpq. induction d as [|x d IH]; simpl; [done|].
  intros [Hx Hd]%andb_true_iff. rewrite (Hpq x Hx). auto.
Qed.

Lemma attempt_event_not_start e :
  attempt_event book page dir e = true → is_attempt_start e = false.
Proof.
  destruct e; try done. cbn [attempt_event body_event is_attempt_start].
  destruct line as [|c line]; [done|]. cbn [String.prefix].
  destruct (ascii_dec "D" c) as [<-|]; [|done]. done.
Qed.

Lemma attempt_event_not_success e :
  attempt_event book page dir e = true → is_success_report e = false.
Proof.
  destruct e; try done. simpl. intros Hp.
  apply bool_decide_eq_false_2. by intros ->.
Qed.

(** One attempt adds one attempt start and no success report. *)
Lemma download_pdf_counts w :
  ∃ d, history (download_pdf E book page dir w).2 = history w ++ d
       ∧ attempts d = 1%nat ∧ success_reports d = 0%nat.
Proof.
  destruct (download_pdf_history E book page dir w) as (d & Hd & Hok & _).
  exists (EvPrint (trying_line book page) :: d). split; [done|].
  unfold attempts, success_reports. cbn [List.filter is_attempt_start is_success_report].
  unfold trying_line at 1. rewrite str_prefix_app.
  rewrite (filter_nil_forallb _ _ d attempt_event_not_start Hok).
  rewrite (filter_nil_forallb _ _ d attempt_event_not_success Hok).
  rewrite bool_decide_eq_false_2; [done|].
  unfold trying_line. by cbn [String.append].
Qed.

Lemma after_failures_counts k w wk :
  after_failures E book page dir k w = Some wk →
  ∃ d, history wk = history w ++ d
       ∧ attempts d = k ∧ success_reports d = 0%nat.
Proof.
  revert w. induction k as [|k IH]; intros w; simpl.
  { intros [= <-]. exists []. by rewrite app_nil_r. }
  destruct (download_pdf_counts w) as (d1 & Hd1 & Ha1 & Hs1).
  destruct (download_pdf E book page dir w) as [[v|ex] w1]; [done|].
  destruct (is_Exception ex); [|done].
  intros (d2 & Hd2 & Ha2 & Hs2)%IH. simpl in Hd1.
  exists (d1 ++ [EvPrint "Error! Retrying";
                 EvPrint ("Exception:" +:+ nl +:+ str_exception ex +:+ nl)] ++ d2).
  split.
  { rewrite Hd2. unfold report_failure, log. simpl. rewrite Hd1.
    by rewrite <-!app_assoc. }
  unfold attempts, success_reports in *.
  rewrite !List.filter_app, !length_app, Ha1, Hs1, Ha2, Hs2. simpl. lia.
Qed.

(** The loop, started with [retries] failures behind it, goes through
    [k] more failed attempts. *)
Lemma retry_loop_failures max k retries w wk :
  after_failures E book page dir k w = Some wk →
  (retries + Z.of_nat k ≤ max + 1)%Z →
  retry_loop E max (Z.to_nat (max + 1 - retries)) book page dir retries w =
  retry_loop E max (Z.to_nat (max + 1 - (retries + Z.of_nat k))) book page dir
             (retries + Z.of_nat k) wk.
Proof.
  revert retries w. induction k as [|k IH]; intros retries w; simpl after_failures.
  { intros [= <-] _. by rewrite Z.add_0_r. }
  intros Hk Hle.
  replace (Z.to_nat (max + 1 - retries))
    with (S (Z.to_nat (max + 1 - (retries + 1)))) by lia.
  cbn [retry_loop]. rewrite bool_decide_eq_true_2 by lia.
  unfold try_except at 1. unfold bind at 1.
  destruct (download_pdf E book page dir w) as [[v|ex] w1]; [done|].
  destruct (is_Exception ex); [|done].
  unfold bind, print, emit. fold (report_failure ex w1).
  rewrite (IH (retries + 1)%Z _ Hk) by lia.
  by replace (retries + 1 + Z.of_nat k)%Z with (retries + Z.of_nat (S k))%Z by lia.
Qed.

(** C2. The retry law of [main], for any bound [max] on the retries
    ([main] itself is [run MAX_RETRIES]).  If the first [k] attempts,
    [k <= max], each raise an exception of whatever class under
    [Exception] and the next attempt returns, then the run returns right
    after that attempt with one line [Success!]: its history holds
    [k + 1] attempts and one success report.  If [max + 1] attempts in a
    row raise, the run raises the one terminal [ValueError] right after
    the last report: its history holds [max + 1] attempts and no success
    report. *)
Theorem retry_law (max : Z) (w : world) :
  (∀ (k : nat) wk v w', (Z.of_nat k ≤ max)%Z →
     after_failures E book page dir k w = Some wk →
     download_pdf E book page dir wk = (Ok v, w') →
     run E max book page dir w = (Ok PyNone, log (EvPrint "Success!") w')
     ∧ ∃ d, history (log (EvPrint "Success!") w') = history w ++ d
            ∧ attempts d = S k ∧ success_reports d = 1%nat)
  ∧ (∀ wf, after_failures E book page dir (Z.to_nat (max + 1)) w = Some wf →
     run E max book page dir w = (Raise terminal_error, log (EvRaise terminal_error) wf)
     ∧ ∃ d, history (log (EvRaise terminal_error) wf) = history w ++ d
            ∧ attempts d = Z.to_nat (max + 1) ∧ success_reports d = 0%nat).
Proof.
  split.
  - intros k wk v w' Hk Hfail Hok. split.
    + unfold run, bind at 1.
      rewrite (retry_loop_failures max k 0 w wk Hfail) by lia.
      replace (Z.to_nat (max + 1 - (0 + Z.of_nat k)))
        with (S (Z.to_nat (max - Z.of_nat k))) by lia.
      cbn [retry_loop]. rewrite bool_decide_eq_true_2 by lia.
      unfold try_except, bind. by rewrite Hok.
    + destruct (after_failures_counts k w wk Hfail) as (d1 & Hd1 & Ha1 & Hs1).
      destruct (download_pdf_counts wk) as (d2 & Hd2 & Ha2 & Hs2).
      rewrite Hok in Hd2. simpl in Hd2.
      exists (d1 ++ d2 ++ [EvPrint "Success!"]). split.
      { simpl. rewrite Hd2, Hd1. by rewrite <-!app_assoc. }
      unfold attempts, success_reports in *.
      rewrite !List.filter_app, !length_app, Ha1, Hs1, Ha2, Hs2. simpl. lia.
  - intros wf Hfail. split.
    + unfold run, bind at 1.
      destruct (decide (0 ≤ max + 1)%Z) as [Hmax|Hmax].
      * rewrite (retry_loop_failures max (Z.to_nat (max + 1)) 0 w wf Hfail) by lia.
        by replace (Z.to_nat (max + 1 - (0 + Z.of_nat (Z.to_nat (max + 1))))) with 0%nat
          by lia.
      * replace (Z.to_nat (max + 1)) with 0%nat in Hfail by lia.
        simpl in Hfail. simplify_eq.
        by replace (Z.to_nat (max + 1 - 0)) with 0%nat by lia.
    + destruct (after_failures_counts _ w wf Hfail) as (d1 & Hd1 & Ha1 & Hs1).
      exists (d1 ++ [EvRaise terminal_error]). split.
      { simpl. by rewrite Hd1, <-app_assoc. }
      unfold attempts, success_reports in *.
      rewrite !List.filter_app, !length_app, Ha1, Hs1. simpl. lia.
Qed.

End Retry.

(** [main] on the model site: once with a browser that fails one call of
    the first attempt, once with every call failing. *)
Lemma retry_law_witness :
  (∃ w', main (site 2 (fails_at 5)) (Args "/home/user/Downloads" 500 10) home
           = (Ok PyNone, w')
         ∧ ∃ d, history w' = history home ++ d
                ∧ attempts d = 2%nat ∧ success_reports d = 1%nat)
  ∧ (∃ w', main (site 2 always_down) (Args "/home/user/Downloads" 500 10) home
             = (Raise terminal_error, w')
           ∧ ∃ d, history w' = history home ++ d
                  ∧ attempts d = 3%nat ∧ success_reports d = 0%nat).
Proof.
  split.
  - edestruct (proj1 (retry_law (site 2 (fails_at 5)) 500 10 "/home/user/Downloads"
                        MAX_RETRIES home) 1%nat) as [Hrun Hd].
    + done.
    + vm_compute. reflexivity.
    + vm_compute. reflexivity.
    + eexists. split; [exact Hrun|exact Hd].
  - edestruct (proj2 (retry_law (site 2 always_down) 500 10 "/home/user/Downloads"
                        MAX_RETRIES home)) as [Hrun Hd].
    + vm_compute. reflexivity.
    + eexists. split; [exact Hrun|exact Hd].
Defined.

(* ===================================================================== *)
(** * Attempts that return *)
(* ===================================================================== *)

Section Returns.

Context (E : environment).

Lemma bind_Ok {A B} (m : M A) (f : A → M B) w b w' :
  bind m f w = (Ok b, w') → ∃ a w1, m w = (Ok a, w1) ∧ f a w1 = (Ok b, w').
Proof. unfold bind. destruct (m w) as [[a|ex] w1]; [eauto|done]. Qed.

Lemma fallible_Ok w u w' :
  fallible E w = (Ok u, w') → fault E (history w) = None ∧ w' = w.
Proof. unfold fallible, raise. destruct (fault E (history w)); naive_solver. Qed.

(** A file that was stored is there. *)
Lemma store_Ok path content e w u w' :
  store path content e w = (Ok u, w') →
  history w' = history w ++ [e]
  ∧ live_browsers w' = live_browsers w
  ∧ file_at (fs w') path = Some content
  ∧ ∃ entries,
      fs w !! (Py.os_path_split path).1 = Some entries
      ∧ fs w' = <[(Py.os_path_split path).1 :=
                    <[(Py.os_path_split path).2 := content]> entries]> (fs w).
Proof.
  unfold store, file_at, bind, get_fs.
  destruct (Py.os_path_split path) as [d n]. simpl.
  destruct (fs w !! d) as [entries|] eqn:Hd; [|done].
  case_bool_decide; [done|].
  unfold set_fs, emit, log. intros [= _ <-]. simpl.
  rewrite !lookup_insert_eq. split_and!; [done..|]. by exists entries.
Qed.

(** A write that goes through: the file was opened, then written. *)
Lemma write_binary_Ok path data w u w' :
  write_binary E path data w = (Ok u, w') →
  history w' = history w ++ [EvOpen path; EvWrite path data]
  ∧ live_browsers w' = live_browsers w
  ∧ file_at (fs w') path = Some (Raw data)
  ∧ ∃ entries,
      fs w !! (Py.os_path_split path).1 = Some entries
      ∧ fs w' = <[(Py.os_path_split path).1 :=
                    <[(Py.os_path_split path).2 := Raw data]> entries]> (fs w).
Proof.
  unfold write_binary. intros (_ & w1 & [_ ->]%fallible_Ok & H)%bind_Ok.
  apply bind_Ok in H as ([] & w2 & Hopen & H).
  apply store_Ok in Hopen as (Hh & Hb & _ & entries & Hd & Hfs).
  apply bind_Ok in H as (failure & w3 & Hask & H).
  cbv [ask] in Hask. simplify_eq.
  destruct (fault E (history w3)) as [ex|].
  { by cbv [bind ask get_fs set_fs raise] in H. }
  apply store_Ok in H as (Hh' & Hb' & Hfile & entries' & Hd' & Hfs').
  rewrite Hh', Hh, <-app_assoc. split; [done|]. split; [congruence|]. split; [done|].
  exists entries. split; [done|].
  rewrite Hfs, lookup_insert_eq in Hd'. injection Hd' as <-.
  by rewrite Hfs', Hfs, !insert_insert_eq.
Qed.

Lemma create_pdf_Ok image_dir output_dir name w u w' :
  _create_pdf E image_dir output_dir name w = (Ok u, w') →
  ∃ pdf w1,
    add_images E (Fpdf "in" "letter" [])
      (Py.sorted (glob (fs w) (Py.os_path_join image_dir "*.jpg"))) w = (Ok pdf, w1)
    ∧ pdf_output E pdf (output_path output_dir name) w1 = (Ok u, w').
Proof.
  unfold _create_pdf. intros (images & w0 & H0 & H)%bind_Ok.
  apply bind_Ok in H as (pdf & w1 & H1 & H).
  unfold bind, get_fs, ret in H0. simplify_eq. eauto.
Qed.

Lemma pdf_output_Ok pdf path w u w' :
  pdf_output E pdf path w = (Ok u, w') →
  history w' = history w ++ [EvOutput path (fpdf_close pdf)]
  ∧ live_browsers w' = live_browsers w
  ∧ file_at (fs w') path = Some (Pdf (fpdf_close pdf))
  ∧ ∃ entries,
      fs w !! (Py.os_path_split path).1 = Some entries
      ∧ fs w' = <[(Py.os_path_split path).1 :=
                    <[(Py.os_path_split path).2 := Pdf (fpdf_close pdf)]> entries]> (fs w).
Proof.
  unfold pdf_output. intros (_ & w1 & [_ ->]%fallible_Ok & H)%bind_Ok.
  by apply store_Ok in H.
Qed.

Context (book page : Z) (output_dir : string).

(** The block of an attempt ends with [_create_pdf]. *)
Lemma download_pdf_block_Ok t w u w' :
  download_pdf_block E book page output_dir t w = (Ok u, w') →
  ∃ w1, evolves (body_event book page output_dir) w w1
        ∧ _create_pdf E t output_dir (pdf_name book page) w1 = (Ok u, w').
Proof.
  unfold download_pdf_block. intros H.
  apply bind_Ok in H as (b & w1 & H1 & H).
  pose proof (emits_Browser E (body_event book page output_dir)
                (λ _, eq_refl) (_resource_path E "chromedriver") (λ _, eq_refl) w) as Hev.
  rewrite H1 in Hev. simpl in Hev.
  repeat match type of H with
  | bind ?m _ ?w0 = (Ok _, _) =>
      let Hm := fresh "Hm" in
      let Hev' := fresh "Hev" in
      assert (emits_only (body_event book page output_dir) m) as Hev'
        by first [ apply emits_go_to_search_page_attempt | apply emits_fill_attempt
                 | apply emits_select_attempt | apply emits_create_session
                 | apply emits_get_number_of_pages | apply emits_fetch_pages
                 | unfold visit; emits ];
      specialize (Hev' w0);
      apply bind_Ok in H as (? & ? & Hm & H);
      rewrite Hm in Hev'; simpl in Hev';
      pose proof (evolves_trans _ _ _ _ Hev Hev') as Hev2;
      clear Hev Hev' Hm; rename Hev2 into Hev
  end.
  eauto.
Qed.

(** What an attempt that returns has done: it returns [None]; its last two
    interactions are the writing of the artifact, at the path made of the
    destination directory and the name for the record key, and the removal
    of its temporary directory; and the artifact is in the file system if
    the directory of its path was there before the attempt. *)
Lemma download_pdf_Ok w v w' :
  download_pdf E book page output_dir w = (Ok v, w') →
  v = PyNone
  ∧ ∃ t doc pre,
      history w' = history w ++ pre
        ++ [EvOutput (output_path output_dir (pdf_name book page)) doc; EvCleanup t]
      ∧ (is_Some (fs w !! (Py.os_path_split
                             (output_path output_dir (pdf_name book page))).1) →
         file_at (fs w') (output_path output_dir (pdf_name book page)) = Some (Pdf doc)).
Proof.
  intros Hrun.
  destruct (download_pdf_run E book page output_dir w) as [[ex Hr]|(t & Hfree & Hr)];
    rewrite Hr in Hrun; [done|].
  set (w1 := log (EvMkdtemp t) _) in Hrun.
  destruct (download_pdf_block E book page output_dir t w1) as [[[]|ex] w2] eqn:Hblock;
    [|done].
  simpl in Hrun. injection Hrun as <- <-. split; [done|].
  apply download_pdf_block_Ok in Hblock as (w3 & (d3 & Hd3 & _) & Hpdf).
  apply create_pdf_Ok in Hpdf as (pdf & w4 & Himg & Hout).
  match type of Himg with
  | add_images _ ?p ?l _ = _ =>
      pose proof (emits_add_images E book page output_dir p l w3) as (d4 & Hd4 & _)
  end.
  rewrite Himg in Hd4. simpl in Hd4.
  apply pdf_output_Ok in Hout as (Hh & _ & Hfile & entries & Hdir & Hfs).
  exists t, (fpdf_close pdf), (EvPrint (trying_line book page) :: EvMkdtemp t :: d3 ++ d4).
  split.
  - simpl. rewrite Hh, Hd4, Hd3. subst w1. simpl. by rewrite <-!app_assoc.
  - intros [old Hold]. unfold file_at in *. cbn [cleanup log fs].
    destruct (Py.os_path_split _) as [d n]. cbn [fst snd] in *.
    assert (t ≠ d) by congruence.
    by rewrite lookup_delete_ne.
Qed.

End Returns.

(* ===================================================================== *)
(** * Paths *)
(* ===================================================================== *)

Section Paths.

#[local] Arguments String.append : simpl nomatch.

Lemma str_rev_app_eq (a b : string) : String.rev_app a b = String.rev a +:+ b.
Proof.
  unfold String.rev. revert b. induction a as [|c a IH]; intros b; simpl; [done|].
  rewrite IH, (IH (String c "")). by rewrite str_app_assoc.
Qed.

Lemma str_rev_cons (c : ascii) (a : string) :
  String.rev (String c a) = String.rev a +:+ String c "".
Proof. unfold String.rev at 1. simpl. apply str_rev_app_eq. Qed.

Lemma str_rev_app (a b : string) :
  String.rev (a +:+ b) = String.rev b +:+ String.rev a.
Proof.
  induction a as [|c a IH]; simpl.
  - by rewrite str_app_nil_r.
  - by rewrite !str_rev_cons, IH, str_app_assoc.
Qed.

Lemma str_rev_involutive (a : string) : String.rev (String.rev a) = a.
Proof.
  induction a as [|c a IH]; [done|].
  by rewrite str_rev_cons, str_rev_app, IH.
Qed.

Lemma all_chars_app (P : ascii → bool) (a b : string) :
  Py.all_chars P (a +:+ b) = Py.all_chars P a && Py.all_chars P b.
Proof. induction a as [|c a IH]; simpl; [done|]. by rewrite IH, andb_assoc. Qed.

Lemma all_chars_rev (P : ascii → bool) (a : string) :
  Py.all_chars P (String.rev a) = Py.all_chars P a.
Proof.
  induction a as [|c a IH]; [done|].
  rewrite str_rev_cons, all_chars_app, IH. simpl. by rewrite andb_true_r, andb_comm.
Qed.

Lemma all_chars_impl (P Q : ascii → bool) (a : string) :
  (∀ c, P c = true → Q c = true) → Py.all_chars P a = true → Py.all_chars Q a = true.
Proof.
  intros HPQ. induction a as [|c a IH]; simpl; [done|].
  intros [Hc Ha]%andb_true_iff. by rewrite (HPQ c Hc), IH.
Qed.

Lemma take_while_stop (P : ascii → bool) (a b : string) (c : ascii) :
  Py.all_chars P a = true → P c = false →
  Py.take_while P (a +:+ String c b) = a
  ∧ Py.drop_while P (a +:+ String c b) = String c b.
Proof.
  intros Ha Hc. induction a as [|x a IH]; simpl in *.
  - by rewrite Hc.
  - apply andb_true_iff in Ha as [-> Ha]. destruct (IH Ha) as [-> ->]. done.
Qed.

(** Splitting the path of a name in a directory gives them back. *)
Lemma os_path_split_file (d n : string) :
  plain_dir d → Py.all_chars Py.not_slash n = true →
  Py.os_path_split (d +:+ "/" +:+ n) = (d, n).
Proof.
  intros (c & r & Hrev & Hc) Hn. unfold Py.os_path_split.
  rewrite !str_rev_app. rewrite str_app_assoc. cbn [String.rev String.rev_app String.append].
  change (String.rev "/") with "/". cbn [String.append].
  destruct (take_while_stop Py.not_slash (String.rev n) (String.rev d) "/") as [-> ->];
    [by rewrite all_chars_rev|done|].
  rewrite str_rev_involutive. f_equal.
  cbn [Py.drop_while]. change (Py.is_slash "/") with true. cbn [negb].
  rewrite Hrev. cbn [Py.drop_while].
  unfold Py.not_slash in Hc. apply negb_true_iff in Hc. rewrite Hc.
  rewrite bool_decide_eq_false_2 by done.
  by rewrite <-Hrev, str_rev_involutive.
Qed.

Lemma os_path_join_plain (d x : string) (c : ascii) :
  plain_dir d → Py.not_slash c = true →
  Py.os_path_join d (String c x) = d +:+ "/" +:+ String c x.
Proof.
  intros (c' & r & Hrev & Hc') Hc. unfold Py.os_path_join.
  rewrite starts_with_char.
  unfold Py.not_slash, Py.is_slash in Hc. apply negb_true_iff in Hc.
  rewrite bool_decide_eq_false_2 by (intros <-; by rewrite bool_decide_eq_true_2 in Hc).
  rewrite bool_decide_eq_false_2 by (intros ->; done).
  unfold Py.ends_with. rewrite Hrev. change (String.rev "/") with "/".
  rewrite starts_with_char.
  unfold Py.not_slash, Py.is_slash in Hc'. apply negb_true_iff in Hc'.
  rewrite bool_decide_eq_false_2 by (intros <-; by rewrite bool_decide_eq_true_2 in Hc').
  done.
Qed.

End Paths.

Section Names.

#[local] Arguments String.append : simpl nomatch.

Lemma pretty_N_char_digit (x : N) : Py.is_digit (pretty_N_char x) = true.
Proof. unfold pretty_N_char. by repeat case_match. Qed.

(** The digits of a number: what [pretty_N_go] puts in front. *)
Lemma pretty_N_go_digits (x : N) (s : string) :
  ∃ p, pretty_N_go x s = p +:+ s
       ∧ Py.all_chars Py.is_digit p = true
       ∧ ((0 < x)%N → p ≠ "").
Proof.
  revert s. induction (N.lt_wf_0 x) as [x _ IH]. intros s.
  destruct (decide (x = 0)%N) as [->|Hx].
  { exists "". rewrite pretty_N_go_0. split_and!; [done..|lia]. }
  rewrite pretty_N_go_step by lia.
  destruct (IH (x `div` 10)%N (N.div_lt x 10 ltac:(lia) eq_refl)
              (String (pretty_N_char (x `mod` 10)) s)) as (p & -> & Hp & _).
  exists (p +:+ String (pretty_N_char (x `mod` 10)) ""). split_and!.
  - by rewrite str_app_assoc.
  - rewrite all_chars_app, Hp. simpl. by rewrite pretty_N_char_digit.
  - intros _. by destruct p.
Qed.

Lemma pretty_N_digits (x : N) :
  Py.all_chars Py.is_digit (pretty x) = true ∧ pretty x ≠ "".
Proof.
  unfold pretty, pretty_N. case_decide; [done|].
  destruct (pretty_N_go_digits x "") as (p & -> & Hp & Hne).
  rewrite str_app_nil_r. split; [done|]. apply Hne. lia.
Qed.

Lemma zeros_digits (n : nat) : Py.all_chars Py.is_digit (Py.zeros n) = true.
Proof. induction n; simpl; auto. Qed.

Lemma format_0d_chars (width : nat) (z : Z) :
  Py.all_chars digit_or_dash (Py.format_0d width z) = true.
Proof.
  unfold Py.format_0d. rewrite !all_chars_app.
  assert (∀ s, Py.all_chars Py.is_digit s = true → Py.all_chars digit_or_dash s = true)
    as Hd.
  { intros s. apply all_chars_impl. intros c Hc. unfold digit_or_dash. by rewrite Hc. }
  rewrite (Hd _ (zeros_digits _)), (Hd _ (proj1 (pretty_N_digits _))).
  by case_bool_decide.
Qed.

Lemma format_0d_no_slash (width : nat) (z : Z) :
  Py.all_chars Py.not_slash (Py.format_0d width z) = true.
Proof.
  eapply all_chars_impl; [|apply format_0d_chars].
  intros c. unfold digit_or_dash, Py.not_slash, Py.is_slash, Py.is_digit.
  intros [Hc| ->%bool_decide_eq_true]%orb_true_iff; [|done].
  case_bool_decide; [subst c|]; done.
Qed.

Lemma page_basename_no_slash (bk pg curr tot : Z) :
  Py.all_chars Py.not_slash (page_basename bk pg curr tot) = true.
Proof. unfold page_basename. by rewrite !all_chars_app, !format_0d_no_slash. Qed.

Lemma pdf_name_no_slash (book page : Z) :
  Py.all_chars Py.not_slash (pdf_name book page) = true.
Proof. unfold pdf_name. by rewrite !all_chars_app, !format_0d_no_slash. Qed.

(** The directories of [mkdtemp] are plain and absolute. *)
Lemma tmp_dir_name_plain (token : N) : plain_dir (tmp_dir_name token).
Proof.
  unfold plain_dir, tmp_dir_name. rewrite str_rev_app.
  destruct (pretty_N_digits token) as [Hd Hne].
  rewrite <-all_chars_rev in Hd.
  destruct (String.rev (pretty token)) as [|c r] eqn:Hrev.
  { apply (f_equal String.rev) in Hrev. by rewrite str_rev_involutive in Hrev. }
  exists c, (r +:+ String.rev "/tmp/tmp"). split; [done|].
  simpl in Hd. apply andb_true_iff in Hd as [Hc _].
  unfold Py.not_slash, Py.is_slash, Py.is_digit in *.
  case_bool_decide; [subst c|]; done.
Qed.

(** In a directory of [mkdtemp] the file of a page is its name in that
    directory. *)
Lemma page_file_tmp (token : N) (bk pg curr tot : Z) :
  page_file (tmp_dir_name token) bk pg curr tot
  = tmp_dir_name token +:+ "/" +:+ page_basename bk pg curr tot.
Proof.
  unfold page_file, image_file_path, page_name, page_basename, Py.os_path_join, tmp_dir_name.
  cbn [String.append]. rewrite starts_with_char, bool_decide_eq_true_2 by done.
  by repeat (rewrite str_app_assoc; cbn [String.append]).
Qed.

End Names.

(* ===================================================================== *)
(** * The artifact and the return value *)
(* ===================================================================== *)

(** The loop of [main] is left as soon as an attempt returns. *)
Lemma retry_loop_returns (E : environment) (book page : Z) (output_dir : string)
    (w : world) (v : pyval) (w' : world) :
  download_pdf E book page output_dir w = (Ok v, w') →
  ∀ max fuel retries, (retries ≤ max)%Z →
    retry_loop E max (S fuel) book page output_dir retries w
    = (Ok (Some PyNone), log (EvPrint "Success!") w').
Proof.
  intros Hrun max fuel retries Hle. cbn [retry_loop].
  rewrite bool_decide_eq_true_2 by done.
  unfold try_except, bind. by rewrite Hrun.
Qed.

Lemma run_returns (E : environment) (book page : Z) (output_dir : string)
    (w : world) (v : pyval) (w' : world) :
  download_pdf E book page output_dir w = (Ok v, w') →
  ∀ max, (0 ≤ max)%Z →
    run E max book page output_dir w = (Ok PyNone, log (EvPrint "Success!") w').
Proof.
  intros Hrun max Hmax. unfold run, bind.
  replace (Z.to_nat (max + 1 - 0)) with (S (Z.to_nat max)) by lia.
  by rewrite (retry_loop_returns _ _ _ _ _ _ _ Hrun).
Qed.

(** C4, as the program has it.  An attempt that returns, returns [None]
    and not a path: the path of the artifact is only seen in the
    interactions.  Its last interactions are the writing of the artifact,
    at the destination directory joined with the name for the record key,
    and the removal of the temporary directory; the artifact is in the
    file system when the directory of its path was there before.  The
    loop of [main] is then left at once, whatever the count of retries:
    [main] prints [Success!] and returns [None] without another
    attempt. *)
Theorem attempt_returns_none (E : environment) (book page : Z) (output_dir : string)
    (w : world) (v : pyval) (w' : world) :
  download_pdf E book page output_dir w = (Ok v, w') →
  v = PyNone
  ∧ (∃ t doc pre,
       history w' = history w ++ pre
         ++ [EvOutput (output_path output_dir (pdf_name book page)) doc; EvCleanup t]
       ∧ (is_Some (fs w !! (Py.os_path_split
                              (output_path output_dir (pdf_name book page))).1) →
          file_at (fs w') (output_path output_dir (pdf_name book page)) = Some (Pdf doc)))
  ∧ (∀ max fuel retries, (retries ≤ max)%Z →
       retry_loop E max (S fuel) book page output_dir retries w
       = (Ok (Some PyNone), log (EvPrint "Success!") w'))
  ∧ (∀ max, (0 ≤ max)%Z →
       run E max book page output_dir w = (Ok PyNone, log (EvPrint "Success!") w')).
Proof.
  intros Hrun. destruct (download_pdf_Ok E book page output_dir w v w' Hrun) as [-> Hart].
  split; [done|]. split; [done|].
  split; [by eapply retry_loop_returns|by eapply run_returns].
Qed.

(** An attempt on the model site, for a record of two pages. *)
Lemma attempt_returns_none_witness :
  ∃ w', download_pdf (site 2 no_faults) 500 10 "/home/user/Downloads" home = (Ok PyNone, w')
        ∧ main (site 2 no_faults) (Args "/home/user/Downloads" 500 10) home
          = (Ok PyNone, log (EvPrint "Success!") w').
Proof.
  assert (∃ w', download_pdf (site 2 no_faults) 500 10 "/home/user/Downloads" home
                = (Ok PyNone, w')) as [w' Hrun].
  { eexists. vm_compute. reflexivity. }
  exists w'. split; [exact Hrun|].
  apply (attempt_returns_none _ _ _ _ _ _ _ Hrun). done.
Defined.

(** The attempt writes the artifact and the caller gets [None], which is
    not the path of the artifact. *)
Lemma attempt_does_not_return_the_path :
  let path := "/home/user/Downloads/plymouth_cty_reg_deeds_book000500_page000010.pdf" in
  let r := download_pdf (site 2 no_faults) 500 10 "/home/user/Downloads" home in
  (∃ doc, file_at (fs r.2) path = Some (Pdf doc))
  ∧ r.1 = Ok PyNone
  ∧ r.1 ≠ Ok (PyStr path)
  ∧ (main (site 2 no_faults) (Args "/home/user/Downloads" 500 10) home).1 ≠ Ok (PyStr path).
Proof. vm_compute. split; [by eexists|done]. Qed.

(** C6. The artifact of book 500, page 10 is named
    [plymouth_cty_reg_deeds_book000500_page000010.pdf]; in general the
    name is made from the record key alone, and the artifact is placed in
    the destination directory: whatever the surroundings do, an attempt
    writes no document but at the destination directory joined with that
    name, an attempt that returns has written it there, and [os.path.split]
    of that path gives the destination directory (when it is not empty and
    has no trailing slash) and the name back. *)
Theorem artifact_name_from_key (E : environment) (book page : Z) (output_dir : string)
    (w : world) :
  pdf_name 500 10 = "plymouth_cty_reg_deeds_book000500_page000010.pdf"
  ∧ pdf_name book page
    = "plymouth_cty_reg_deeds_book" +:+ Py.format_0d 6 book
        +:+ "_page" +:+ Py.format_0d 6 page +:+ ".pdf"
  ∧ (∃ d, history (download_pdf E book page output_dir w).2 = history w ++ d
        ∧ ∀ path doc, EvOutput path doc ∈ d →
            path = output_dir +:+ "/" +:+ pdf_name book page)
  ∧ (∀ v, (download_pdf E book page output_dir w).1 = Ok v →
       ∃ doc pre t,
         history (download_pdf E book page output_dir w).2
         = history w ++ pre
             ++ [EvOutput (output_dir +:+ "/" +:+ pdf_name book page) doc; EvCleanup t])
  ∧ (plain_dir output_dir →
       Py.os_path_split (output_dir +:+ "/" +:+ pdf_name book page)
       = (output_dir, pdf_name book page)).
Proof.
  split; [by vm_compute|]. split; [done|]. split_and!.
  - destruct (download_pdf_history E book page output_dir w) as (d & Hd & Hok & _).
    exists (EvPrint (trying_line book page) :: d). split; [done|].
    intros path doc [?|Hin]%elem_of_cons; [done|].
    rewrite List.forallb_forall in Hok. apply list_elem_of_In, Hok in Hin.
    by apply bool_decide_eq_true in Hin.
  - intros v Hv.
    destruct (download_pdf E book page output_dir w) as [r w'] eqn:Hrun.
    simpl in Hv. subst r.
    destruct (download_pdf_Ok E book page output_dir w v w' Hrun)
      as (_ & t & doc & pre & Hh & _).
    by exists doc, pre, t.
  - intros Hplain. apply os_path_split_file; [done|apply pdf_name_no_slash].
Qed.

(** The download directory of the model machine. *)
Lemma artifact_name_from_key_witness :
  Py.os_path_split ("/home/user/Downloads" +:+ "/" +:+ pdf_name 500 10)
  = ("/home/user/Downloads", pdf_name 500 10).
Proof.
  apply (artifact_name_from_key (site 2 no_faults) 500 10 "/home/user/Downloads" home).
  exists "s"%char, "daolnwoD/resu/emoh/". by vm_compute.
Defined.

(* ===================================================================== *)
(** * Assembling the document *)
(* ===================================================================== *)

Section Assemble.

Context (E : environment).

Lemma file_at_unlink (f : gmap string (gmap string file)) (p q : string) :
  (same_file p q → file_at (unlink f q) p = None)
  ∧ (¬ same_file p q → file_at (unlink f q) p = file_at f p).
Proof.
  unfold file_at, unlink, same_file.
  destruct (Py.os_path_split p) as [dp np], (Py.os_path_split q) as [dq nq].
  cbn [fst snd]. split.
  - intros [= -> ->]. destruct (f !! dq) as [entries|] eqn:Hq.
    + by rewrite lookup_insert_eq, lookup_delete_eq.
    + by rewrite Hq.
  - intros Hne. destruct (f !! dq) as [entries|] eqn:Hq; [|done].
    destruct (decide (dq = dp)) as [->|Hd].
    + rewrite lookup_insert_eq, Hq.
      rewrite lookup_delete_ne; [done|]. congruence.
    + by rewrite lookup_insert_ne.
Qed.



Lemma bind_run {A B} (m : M A) (f : A → M B) w :
  bind m f w = match m w with
               | (Ok a, w1) => f a w1
               | (Raise ex, w1) => (Raise ex, w1)
               end.
Proof. done. Qed.

(** The two ways [os.remove] ends. *)
Lemma os_remove_run path w :
  (∃ ex, os_remove E path w = (Raise ex, log (EvRaise ex) w))
  ∨ os_remove E path w =
      (Ok tt, log (EvRemove path) (World (unlink (fs w) path) (live_browsers w) (history w))).
Proof.
  unfold os_remove, unlink. cbv [bind fallible raise get_fs set_fs emit].
  destruct (fault E (history w)); [left; by eexists|].
  destruct (Py.os_path_split path) as [d n]. simpl.
  destruct (fs w !! d) as [entries|]; [|left; by eexists].
  destruct (entries !! n); [by right|left; by eexists].
Qed.

(** The two ways [pdf.image] ends. *)
Lemma pdf_image_run pdf name x y wd h w :
  (∃ ex, pdf_image E pdf name x y wd h w = (Raise ex, log (EvRaise ex) w))
  ∨ (∃ data pdf',
       file_at (fs w) name = Some (Raw data)
       ∧ place pdf (Placement name data x y wd h) = Some pdf'
       ∧ pdf_image E pdf name x y wd h w = (Ok pdf', log (EvImage name) w)).
Proof.
  unfold pdf_image. cbv [bind fallible raise get_fs emit ret].
  destruct (fault E (history w)); [left; by eexists|].
  destruct (file_at (fs w) name) as [[data|doc]|]; try (left; by eexists).
  destruct (place _ _) as [pdf'|] eqn:Hplace; [|left; by eexists].
  right. by exists data, pdf'.
Qed.

(** The two ways [pdf.output] ends: a call that raises writes nothing. *)
Lemma pdf_output_run pdf path w :
  (∃ ex, pdf_output E pdf path w = (Raise ex, log (EvRaise ex) w))
  ∨ (∃ w', pdf_output E pdf path w = (Ok tt, w')).
Proof.
  unfold pdf_output, store. cbv [bind fallible raise get_fs set_fs emit].
  destruct (fault E (history w)); [left; by eexists|].
  destruct (Py.os_path_split path) as [d n].
  destruct (fs w !! d) as [entries|]; [|left; by eexists].
  case_bool_decide; [left; by eexists|right; by eexists].
Qed.


End Assemble.

Section AssembleOrder.

Context (E : environment).



End AssembleOrder.

(* ===================================================================== *)
(** * Where exceptions come from *)
(* ===================================================================== *)

Section Faults.

Context (E : environment).

Lemma faults_ret {A} (a : A) : faults_only E (ret a).
Proof. by intros w ex w'. Qed.

Lemma faults_emit e : faults_only E (emit e).
Proof. by intros w ex w'. Qed.

Lemma faults_ask {A} (f : list event → A) : faults_only E (ask f).
Proof. by intros w ex w'. Qed.

Lemma faults_fallible : faults_only E (fallible E).
Proof.
  intros w ex w'. unfold fallible, raise.
  destruct (fault E (history w)) eqn:Hf; [|done]. intros [= <- _]. eauto.
Qed.

Lemma faults_bind {A B} (m : M A) (f : A → M B) :
  faults_only E m → (∀ a, faults_only E (f a)) → faults_only E (bind m f).
Proof.
  intros Hm Hf w ex w'. unfold bind.
  destruct (m w) as [[a|ex'] w1] eqn:Hrun.
  - apply Hf.
  - intros [= <- <-]. by eapply Hm.
Qed.

Lemma faults_Browser driver : faults_only E (Browser E driver).
Proof. apply faults_bind; [apply faults_fallible|]. by intros _ w ex w'. Qed.

End Faults.

Ltac faults :=
  repeat first
    [ apply faults_ret | apply faults_emit | apply faults_ask | apply faults_fallible
    | apply faults_Browser | apply faults_bind; [|intros ?] ].

(* ===================================================================== *)
(** * An attempt up to the page count *)
(* ===================================================================== *)

Section ToPageCount.

Context (E : environment) (book page : Z) (output_dir : string).

Lemma emits_navigation b :
  emits_only nav_event
    (bind (visit E b "http://titleview.org/plymouthdeeds/") (λ _,
     bind (_go_to_search_page E b book) (λ _,
     bind (_fill_in_search_terms E b book page) (λ _,
     _select_document E b)))).
Proof.
  unfold visit, _go_to_search_page, _fill_in_search_terms, _select_document,
    sleep, mouse_over, click, fill, next_window, search_button_id.
  emits. by case_bool_decide.
Qed.

Lemma faults_navigation b :
  faults_only E
    (bind (visit E b "http://titleview.org/plymouthdeeds/") (λ _,
     bind (_go_to_search_page E b book) (λ _,
     bind (_fill_in_search_terms E b book page) (λ _,
     _select_document E b)))).
Proof.
  unfold visit, _go_to_search_page, _fill_in_search_terms, _select_document,
    sleep, mouse_over, click, fill, next_window.
  faults.
Qed.

Lemma faults_create_session b : faults_only E (_create_session E b).
Proof. unfold _create_session, cookies_all. faults. Qed.

Lemma value_of_run b id w :
  (∃ ex, value_of E b id w = (Raise ex, log (EvRaise ex) w)
         ∧ fault E (history w) = Some ex)
  ∨ value_of E b id w
    = (Ok (element_value E (history w) b id),
       log (EvValue b id (element_value E (history w) b id)) w).
Proof.
  unfold value_of. cbv [bind fallible raise ask emit ret].
  destruct (fault E (history w)); [left; by eexists|by right].
Qed.

(** An attempt either raises before it knows the number of pages, having
    done nothing but navigate, or reads the label of the viewer after the
    navigation and goes on from there: it raises [ValueError] if the label
    is no page count, and fetches the pages and assembles them otherwise. *)
Lemma download_pdf_block_run t w :
  (∃ ex w', download_pdf_block E book page output_dir t w = (Raise ex, w')
            ∧ evolves nav_event w w'
            ∧ ∃ h, fault E h = Some ex)
  ∨ (∃ b session label w1,
       evolves nav_event w w1
       ∧ label = element_value E (history w1) b "ImageViewer1_lblPageNum"
       ∧ download_pdf_block E book page output_dir t w =
           match parse_page_count label with
           | Some total_pages =>
               bind (fetch_pages E (Z.to_nat (total_pages + 1 - 1)) b session t
                                 book page total_pages 1)
                    (λ _, _create_pdf E t output_dir (pdf_name book page))
                    (log (EvValue b "ImageViewer1_lblPageNum" label) w1)
           | None =>
               raise (Exc ValueError label)
                     (log (EvValue b "ImageViewer1_lblPageNum" label) w1)
           end).
Proof.
  unfold download_pdf_block. rewrite bind_run.
  pose proof (emits_Browser E nav_event (λ _, eq_refl)
                (_resource_path E "chromedriver") (λ _, eq_refl) w) as Hev.
  destruct (Browser E _ w) as [[b|ex] w1] eqn:Hb;
    [|left; exists ex, w1; split_and!; [done..|by eapply faults_Browser]].
  cbn [snd] in Hev.
  (* the navigation, as one computation *)
  assert (∀ {A} (k : M A) w0,
    bind (visit E b "http://titleview.org/plymouthdeeds/") (λ _,
      bind (_go_to_search_page E b book) (λ _,
      bind (_fill_in_search_terms E b book page) (λ _,
      bind (_select_document E b) (λ _, k)))) w0
    = bind (bind (visit E b "http://titleview.org/plymouthdeeds/") (λ _,
              bind (_go_to_search_page E b book) (λ _,
              bind (_fill_in_search_terms E b book page) (λ _,
              _select_document E b)))) (λ _, k) w0) as Hassoc.
  { intros A k w0. unfold bind.
    destruct (visit E b _ w0) as [[[]|?] ?]; [|done].
    destruct (_go_to_search_page E b book _) as [[[]|?] ?]; [|done].
    destruct (_fill_in_search_terms E b book page _) as [[[]|?] ?]; [|done].
    by destruct (_select_document E b _) as [[[]|?] ?]. }
  rewrite Hassoc, bind_run.
  pose proof (emits_navigation b w1) as Hnav.
  destruct (bind (visit E b _) _ w1) as [[[]|ex] w2] eqn:Hn;
    cbn [snd] in Hnav;
    [|left; exists ex, w2; split_and!;
        [done|eauto using evolves_trans|by eapply faults_navigation]].
  pose proof (evolves_trans _ _ _ _ Hev Hnav) as Hev2. clear Hev Hnav.
  rewrite bind_run.
  assert (emits_only nav_event (_create_session E b)) as Hs
    by (unfold _create_session, cookies_all; emits).
  specialize (Hs w2).
  destruct (_create_session E b w2) as [[session|ex] w3] eqn:Hc;
    cbn [snd] in Hs;
    [|left; exists ex, w3; split_and!;
        [done|eauto using evolves_trans|by eapply faults_create_session]].
  pose proof (evolves_trans _ _ _ _ Hev2 Hs) as Hev3. clear Hev2 Hs.
  rewrite bind_run.
  unfold _get_number_of_pages. rewrite !bind_run.
  destruct (value_of_run b "ImageViewer1_lblPageNum" w3) as [(ex & -> & Hf)| ->].
  { left. exists ex, (log (EvRaise ex) w3). split_and!; [done| |by eauto].
    eapply evolves_trans; [done|]. by apply evolves_log. }
  right. exists b, session, (element_value E (history w3) b "ImageViewer1_lblPageNum"), w3.
  split; [done|]. split; [done|]. unfold parse_page_count.
  by destruct (Py.int _).
Qed.

End ToPageCount.

(* ===================================================================== *)
(** * A record without pages *)
(* ===================================================================== *)

Section NoPages.

Context (E : environment) (book page : Z) (output_dir : string).

#[local] Arguments String.append : simpl nomatch.

Lemma nav_event_quiet (d : list event) :
  forallb nav_event d = true →
  downloads d = 0%nat ∧ advances d = 0%nat ∧ forallb keeps_files d = true
  ∧ (∀ p doc, EvOutput p doc ∉ d) ∧ (∀ b id v, EvValue b id v ∉ d).
Proof.
  intros Hnav. unfold downloads, advances. split_and!.
  - rewrite (filter_nil_forallb is_download nav_event d); [done| |done].
    by intros [].
  - rewrite (filter_nil_forallb is_next_click nav_event d); [done| |done].
    intros []; try done. simpl. by intros ->%negb_true_iff.
  - rewrite List.forallb_forall in *. intros e He. specialize (Hnav e He). by destruct e.
  - intros p doc Hin. rewrite List.forallb_forall in Hnav.
    by apply list_elem_of_In, Hnav in Hin.
  - intros b id v Hin. rewrite List.forallb_forall in Hnav.
    by apply list_elem_of_In, Hnav in Hin.
Qed.

Lemma os_path_split_tail (d n : string) :
  Py.all_chars Py.not_slash n = true → (Py.os_path_split (d +:+ "/" +:+ n)).2 = n.
Proof.
  intros Hn. unfold Py.os_path_split. cbn [snd].
  rewrite !str_rev_app, str_app_assoc. change (String.rev "/") with "/".
  cbn [String.append].
  destruct (take_while_stop Py.not_slash (String.rev n) (String.rev d) "/") as [-> _];
    [by rewrite all_chars_rev|done|].
  apply str_rev_involutive.
Qed.

(** Nothing matches in an empty directory. *)
Lemma glob_empty_dir (f : gmap string (gmap string file)) (t : string) :
  plain_dir t → f !! t = Some ∅ → glob f (Py.os_path_join t "*.jpg") = [].
Proof.
  intros Ht Hf. rewrite os_path_join_plain by done.
  unfold glob. rewrite os_path_split_file by done. by rewrite Hf.
Qed.

Lemma create_pdf_empty_dir (t name : string) (w : world) :
  plain_dir t → fs w !! t = Some ∅ →
  _create_pdf E t output_dir name w
  = pdf_output E (Fpdf "in" "letter" []) (output_path output_dir name) w.
Proof.
  intros Ht Hf. unfold _create_pdf. rewrite bind_run. cbn [bind get_fs ret].
  by rewrite glob_empty_dir.
Qed.

(** [pdf.output] returns when the call does not raise and the directory of
    the path is there. *)
Lemma pdf_output_returns pdf path w entries :
  fault E (history w) = None →
  fs w !! (Py.os_path_split path).1 = Some entries →
  (Py.os_path_split path).2 ≠ "" →
  ∃ w', pdf_output E pdf path w = (Ok tt, w').
Proof.
  intros Hf Hd Hn. unfold pdf_output, store. cbv [bind fallible get_fs set_fs emit].
  rewrite Hf. destruct (Py.os_path_split path) as [d n]. cbn [fst snd] in *.
  rewrite Hd, bool_decide_eq_false_2 by done. by eexists.
Qed.

(** With a page count below 1 the loop over the pages does nothing. *)
Lemma fetch_no_pages b session t total w :
  (total < 1)%Z →
  fetch_pages E (Z.to_nat (total + 1 - 1)) b session t book page total 1 w = (Ok tt, w).
Proof. intros Hlt. by replace (Z.to_nat (total + 1 - 1)) with 0%nat by lia. Qed.

End NoPages.

Section NoPagesAttempt.

Context (E : environment) (book page : Z) (output_dir : string).

#[local] Arguments String.append : simpl nomatch.

Lemma downloads_app d1 d2 : downloads (d1 ++ d2) = (downloads d1 + downloads d2)%nat.
Proof. unfold downloads. by rewrite List.filter_app, length_app. Qed.

Lemma advances_app d1 d2 : advances (d1 ++ d2) = (advances d1 + advances d2)%nat.
Proof. unfold advances. by rewrite List.filter_app, length_app. Qed.

Lemma pdf_name_not_empty : pdf_name book page ≠ "".
Proof. unfold pdf_name. by cbn [String.append]. Qed.

(** C10, as the program has it.  Take an attempt in which every reading of
    the page count label gives a total below 1.  Whatever else happens,
    the attempt downloads no page and never clicks the next button of the
    viewer, and a document it writes holds no image.  Such a document is
    not without pages: [FPDF.output] closes the document first, which
    gives a document without a page one blank page.  And if no call
    raises, the name of the temporary directory is free and the directory
    of the artifact path is there, then the attempt returns: it has gone
    through the assembly and written, as its last interaction before the
    removal of the temporary directory, an artifact of one blank page,
    which is then in the file system; [main] reports [Success!] and
    returns after this one attempt. *)
Theorem no_pages_still_succeeds (w : world) :
  let r := download_pdf E book page output_dir w in
  let path := output_path output_dir (pdf_name book page) in
  ∃ d, history r.2 = history w ++ d
    ∧ ((∀ b label, EvValue b "ImageViewer1_lblPageNum" label ∈ d →
          ∃ total, parse_page_count label = Some total ∧ (total < 1)%Z) →
       downloads d = 0%nat ∧ advances d = 0%nat
       ∧ (∀ p doc, EvOutput p doc ∈ d → pdf_pages doc = [[]]))
    ∧ ((∀ h, fault E h = None) →
       (∀ h b, ∃ total,
          parse_page_count (element_value E h b "ImageViewer1_lblPageNum") = Some total
          ∧ (total < 1)%Z) →
       fs w !! tmp_dir_name (tmp_token E (history w ++ [EvPrint (trying_line book page)]))
         = None →
       is_Some (fs w !! (Py.os_path_split path).1) →
       r.1 = Ok PyNone
       ∧ (∃ pre t, d = pre ++ [EvOutput path (Fpdf "in" "letter" [[]]); EvCleanup t])
       ∧ file_at (fs r.2) path = Some (Pdf (Fpdf "in" "letter" [[]]))
       ∧ main E (Args output_dir book page) w
         = (Ok PyNone, log (EvPrint "Success!") r.2)).
Proof.
  intros r path. subst r.
  pose proof (download_pdf_run_mkdtemp E book page output_dir w) as Hrun.
  cbv zeta in Hrun.
  set (h0 := history w ++ [EvPrint (trying_line book page)]) in *.
  set (t := tmp_dir_name (tmp_token E h0)) in *.
  destruct Hrun as [(ex & Hr & Hwhy)|(Hnf0 & Hfree & Hr)].
  { (* no temporary directory *)
    rewrite Hr. exists [EvPrint (trying_line book page); EvRaise ex].
    cbn [snd fst log history]. split; [by rewrite <-app_assoc|]. split.
    - intros _. split_and!; [done..|]. intros p doc Hin.
      by repeat (apply elem_of_cons in Hin as [?|Hin]; [done|]); apply elem_of_nil in Hin.
    - intros Hnf _ Hfree [? Hdir]. destruct Hwhy as [Hf|[? Hex]]; congruence. }
  set (w1 := log (EvMkdtemp t) _) in Hr.
  assert (fs w1 !! t = Some ∅) as Hempty by (subst w1; simpl; apply lookup_insert_eq).
  assert (history w1 = history w ++ [EvPrint (trying_line book page); EvMkdtemp t]) as Hh1.
  { subst w1 h0. simpl. by rewrite <-app_assoc. }
  destruct (download_pdf_block_run E book page output_dir t w1)
    as [(ex & w' & Hb & Hev & Hwhy)|(b & session & label & w2 & Hev & Hlabel & Hb)].
  { (* an exception during the navigation *)
    rewrite Hb in Hr. destruct Hev as (dn & Hdn & Hnav & _ & _).
    destruct (nav_event_quiet dn Hnav) as (Hdl & Hadv & _ & Hout & _).
    exists ([EvPrint (trying_line book page); EvMkdtemp t] ++ dn ++ [EvCleanup t]).
    rewrite Hr. cbn [snd fst cleanup log history]. rewrite Hdn, Hh1.
    split; [by rewrite <-!app_assoc|]. split.
    - intros _. rewrite !downloads_app, !advances_app, Hdl, Hadv.
      split_and!; [done..|]. intros p doc Hin.
      apply elem_of_app in Hin as [Hin|Hin].
      { by repeat (apply elem_of_cons in Hin as [?|Hin]; [done|]);
          apply elem_of_nil in Hin. }
      apply elem_of_app in Hin as [Hin|Hin]; [by destruct (Hout p doc)|].
      by apply list_elem_of_singleton in Hin.
    - intros Hnf. destruct Hwhy as [h Hh]. by rewrite Hnf in Hh. }
  destruct Hev as (dn & Hdn & Hnav & _ & Hkeep).
  destruct (nav_event_quiet dn Hnav) as (Hdl & Hadv & Hfiles & Hout & Hval).
  specialize (Hkeep Hfiles).
  set (w3 := log (EvValue b "ImageViewer1_lblPageNum" label) w2) in Hb.
  assert (history w3 = history w ++ [EvPrint (trying_line book page); EvMkdtemp t]
                         ++ dn ++ [EvValue b "ImageViewer1_lblPageNum" label]) as Hh3.
  { subst w3. simpl. rewrite Hdn, Hh1. by rewrite <-!app_assoc. }
  (* what follows the reading of the label *)
  assert (∃ rest,
    history (download_pdf_block E book page output_dir t w1).2 = history w3 ++ rest
    ∧ (∀ total, parse_page_count label = Some total → (total < 1)%Z →
         (rest = [EvOutput path (Fpdf "in" "letter" [[]])]
          ∧ ∃ w4, download_pdf_block E book page output_dir t w1 = (Ok tt, w4))
         ∨ (∃ ex, rest = [EvRaise ex]
              ∧ download_pdf_block E book page output_dir t w1
                = (Raise ex, log (EvRaise ex) w3)
              ∧ pdf_output E (Fpdf "in" "letter" []) path w3
                = (Raise ex, log (EvRaise ex) w3)))) as (rest & Hrest & Hsmall).
  { rewrite Hb. destruct (parse_page_count label) as [total|] eqn:Hparse.
    - destruct (decide (total < 1)%Z) as [Hlt|Hge].
      + rewrite bind_run, fetch_no_pages by done.
        rewrite create_pdf_empty_dir;
          [|apply tmp_dir_name_plain|subst w3; simpl; by rewrite Hkeep].
        fold path.
        destruct (pdf_output_run E (Fpdf "in" "letter" []) path w3) as [[ex Hout']|[w4 Hout']].
        * exists [EvRaise ex]. rewrite Hout'. split; [done|]. intros ? _ _. right. eauto.
        * exists [EvOutput path (Fpdf "in" "letter" [[]])]. rewrite Hout'.
          apply pdf_output_Ok in Hout' as (Hh4 & _). split; [done|].
          intros ? _ _. left. eauto.
      + assert (emits_only (body_event book page output_dir)
                  (bind (fetch_pages E (Z.to_nat (total + 1 - 1)) b session t
                           book page total 1)
                        (λ _, _create_pdf E t output_dir (pdf_name book page)))) as Hem.
        { apply emits_bind; [apply emits_fetch_pages|]. intros _. apply emits_create_pdf. }
        destruct (Hem w3) as (rest & Hrest & _). exists rest. split; [done|].
        intros ? [= <-] ?. lia.
    - exists [EvRaise (Exc ValueError label)]. split; [done|]. by intros. }
  exists ([EvPrint (trying_line book page); EvMkdtemp t] ++ dn
            ++ [EvValue b "ImageViewer1_lblPageNum" label] ++ rest ++ [EvCleanup t]).
  rewrite Hr. cbn [snd fst cleanup log history]. rewrite Hrest, Hh3.
  split; [by rewrite <-!app_assoc|]. split.
  - (* nothing is downloaded *)
    intros Hlabels.
    destruct (Hlabels b label) as (total & Hparse & Hlt).
    { apply elem_of_app. right. apply elem_of_app. right.
      apply elem_of_app. left. by apply list_elem_of_singleton. }
    rewrite !downloads_app, !advances_app, Hdl, Hadv.
    destruct (Hsmall total Hparse Hlt) as [[-> _]|(ex & -> & _)].
    + split_and!; [done..|]. intros p doc Hin.
      apply elem_of_app in Hin as [Hin|Hin].
      { by repeat (apply elem_of_cons in Hin as [?|Hin]; [done|]);
          apply elem_of_nil in Hin. }
      apply elem_of_app in Hin as [Hin|Hin]; [by destruct (Hout p doc)|].
      repeat (apply elem_of_cons in Hin as [Heq|Hin]; [by simplify_eq|]).
      by apply elem_of_nil in Hin.
    + split_and!; [done..|]. intros p doc Hin.
      apply elem_of_app in Hin as [Hin|Hin].
      { by repeat (apply elem_of_cons in Hin as [?|Hin]; [done|]);
          apply elem_of_nil in Hin. }
      apply elem_of_app in Hin as [Hin|Hin]; [by destruct (Hout p doc)|].
      repeat (apply elem_of_cons in Hin as [Heq|Hin]; [by simplify_eq|]).
      by apply elem_of_nil in Hin.
  - (* and nothing fails *)
    intros Hnf Hlabels _ [entries Hdir].
    destruct (Hlabels (history w2) b) as (total & Hparse & Hlt). rewrite <-Hlabel in Hparse.
    destruct (Hsmall total Hparse Hlt) as [[-> [w4 Hok]]|(ex & -> & _ & Hout')].
    2:{ (* the write cannot raise *)
        destruct (pdf_output_returns E (Fpdf "in" "letter" []) path w3 entries)
          as [w4 Hok]; [apply Hnf| | |congruence].
        - subst w3. cbn [log fs]. rewrite Hkeep. subst w1. cbn [log fs].
          rewrite lookup_insert_ne; [done|].
          intros Heq. rewrite Heq, Hdir in Hfree. done.
        - unfold path, output_path.
          rewrite os_path_split_tail by apply pdf_name_no_slash.
          apply pdf_name_not_empty. }
    rewrite Hok in Hr |- *. cbn [fst snd] in Hr |- *.
    pose proof (download_pdf_Ok E book page output_dir w _ _ Hr)
      as (_ & t' & doc & pre & Hh & Hfile).
    assert (doc = Fpdf "in" "letter" [[]] ∧ t' = t) as [-> ->].
    { rewrite Hok in Hrest. cbn [snd] in Hrest.
      cbn [cleanup log history] in Hh. rewrite Hrest in Hh.
      rewrite <-!app_assoc in Hh. cbn [app] in Hh.
      assert (∀ (l1 l2 : list event) x1 y1 x2 y2,
                l1 ++ [x1; y1] = l2 ++ [x2; y2] → x1 = x2 ∧ y1 = y2) as Hlast.
      { intros l1 l2 x1 y1 x2 y2 Heq.
        change (l1 ++ [x1; y1]) with (l1 ++ [x1] ++ [y1]) in Heq.
        change (l2 ++ [x2; y2]) with (l2 ++ [x2] ++ [y2]) in Heq.
        rewrite !app_assoc in Heq. apply app_inj_tail in Heq as [Heq <-].
        by apply app_inj_tail in Heq as [_ <-]. }
      match type of Hh with
      | ?l1 ++ [?x1; ?y1] = ?l2 ++ ?l3 ++ [?x2; ?y2] =>
          rewrite (app_assoc l2 l3) in Hh
      end.
      apply Hlast in Hh as [H1 H2].
      injection H1 as <-. injection H2 as <-. done. }
    split; [done|]. split.
    { exists ([EvPrint (trying_line book page); EvMkdtemp t] ++ dn
                ++ [EvValue b "ImageViewer1_lblPageNum" label]), t.
      by rewrite <-!app_assoc. }
    split; [by apply Hfile; eexists|].
    unfold main. cbn [Book Page Directory].
    by apply (run_returns E book page output_dir w PyNone).
Qed.

End NoPagesAttempt.

Section Labels.

#[local] Arguments String.append : simpl nomatch.

Lemma split_go_plain (sep : ascii) (cur b : string) :
  Py.all_chars (λ c, negb (bool_decide (c = sep))) b = true →
  Py.split_go sep cur b = [String.rev cur +:+ b].
Proof.
  revert cur. induction b as [|c b IH]; intros cur Hb; simpl in *.
  - by rewrite str_app_nil_r.
  - apply andb_true_iff in Hb as [Hc Hb]. apply negb_true_iff in Hc. rewrite Hc.
    rewrite IH by done. by rewrite str_rev_cons, str_app_assoc.
Qed.

Lemma split_go_not_nil (sep : ascii) (cur s : string) : Py.split_go sep cur s ≠ [].
Proof.
  revert cur. induction s as [|c s IH]; intros cur; simpl; [done|].
  case_bool_decide; [done|apply IH].
Qed.

(** The last field of a label is what follows its last blank. *)
Lemma last_item_split (sep : ascii) (a b : string) :
  Py.all_chars (λ c, negb (bool_decide (c = sep))) b = true →
  Py.last_item (Py.split sep (a +:+ String sep b)) = b.
Proof.
  intros Hb. unfold Py.split, Py.last_item.
  cut (∀ cur, List.last (Py.split_go sep cur (a +:+ String sep b)) "" = b);
    [by intros H|].
  induction a as [|c a IH]; intros cur; simpl.
  - rewrite bool_decide_eq_true_2 by done. by rewrite split_go_plain.
  - case_bool_decide; [|apply IH].
    specialize (IH ""). pose proof (split_go_not_nil sep "" (a +:+ String sep b)).
    by destruct (Py.split_go sep "" (a +:+ String sep b)).
Qed.

(** The label of the model site for a record of no pages. *)
Lemma site_label_zero faults h b id :
  parse_page_count (element_value (site 0 faults) h b id) = Some 0%Z.
Proof.
  unfold parse_page_count, site. cbn [element_value].
  change (pretty 0%Z) with "0".
  replace ("Page " +:+ pretty (viewer_page 1 h) +:+ " of " +:+ "0")
    with (("Page " +:+ pretty (viewer_page 1 h) +:+ " of") +:+ String " " "0")
    by (by repeat (rewrite str_app_assoc; cbn [String.append])).
  by rewrite last_item_split.
Qed.

End Labels.

(** The model site with a record of no pages. *)
Lemma no_pages_still_succeeds_witness :
  (download_pdf (site 0 no_faults) 500 10 "/home/user/Downloads" home).1 = Ok PyNone
  ∧ file_at (fs (download_pdf (site 0 no_faults) 500 10 "/home/user/Downloads" home).2)
      (output_path "/home/user/Downloads" (pdf_name 500 10))
    = Some (Pdf (Fpdf "in" "letter" [[]]))
  ∧ main (site 0 no_faults) (Args "/home/user/Downloads" 500 10) home
    = (Ok PyNone,
       log (EvPrint "Success!")
         (download_pdf (site 0 no_faults) 500 10 "/home/user/Downloads" home).2).
Proof.
  pose proof (no_pages_still_succeeds (site 0 no_faults) 500 10 "/home/user/Downloads" home)
    as H.
  cbv zeta in H. destruct H as (d & _ & _ & H).
  destruct H as (H1 & _ & H3 & H4).
  - done.
  - intros h b. exists 0%Z. split; [apply site_label_zero|done].
  - by vm_compute.
  - eexists. by vm_compute.
  - exact (conj H1 (conj H3 H4)).
Defined.

(** C10 as it was stated fails on the model site with a record of no
    pages.  The label reads [Page 1 of 0]; the attempt downloads nothing,
    never advances the viewer and returns; but the artifact it has written
    does not hold zero pages: it holds one page, a blank one. *)
Lemma no_pages_artifact_has_one_page :
  let r := download_pdf (site 0 no_faults) 500 10 "/home/user/Downloads" home in
  let path := output_path "/home/user/Downloads" (pdf_name 500 10) in
  element_value (site 0 no_faults) [] 0 "ImageViewer1_lblPageNum" = "Page 1 of 0"
  ∧ parse_page_count "Page 1 of 0" = Some 0%Z
  ∧ r.1 = Ok PyNone
  ∧ downloads (history r.2) = 0%nat
  ∧ advances (history r.2) = 0%nat
  ∧ ∃ doc, file_at (fs r.2) path = Some (Pdf doc)
           ∧ length (pdf_pages doc) = 1%nat
           ∧ pdf_pages doc ≠ [].
Proof. vm_compute. split_and!; [done..|]. eexists. by split_and!. Qed.

(* ===================================================================== *)
(** * A record of 100 pages *)
(* ===================================================================== *)

(** C1 fails on a record of 100 pages.  The attempt returns, having
    downloaded the pages 1 to 100 in this order, with 99 clicks on the next
    button, and the artifact has 100 pages; but the pages are not in the
    order of the page numbers: [sorted] puts the file of page 100, whose
    index takes three characters, between the files of the pages 9 and 10,
    so that page 100 of the record is page 10 of the artifact. *)
Theorem hundred_pages_out_of_order :
  let r := download_pdf (site 100 no_faults) 500 10 "/home/user/Downloads" home in
  let file := λ i, page_file "/tmp/tmp1" 500 10 i 100 in
  r.1 = Ok PyNone
  ∧ written (history r.2) = file <$> seqZ 1 100
  ∧ downloads (history r.2) = 100%nat
  ∧ advances (history r.2) = 99%nat
  ∧ ∃ doc,
      document_at (fs r.2) (output_path "/home/user/Downloads" (pdf_name 500 10)) = Some doc
      ∧ length (pdf_pages doc) = 100%nat
      ∧ page_images doc = file <$> (seqZ 1 9 ++ [100%Z] ++ seqZ 10 90)
      ∧ page_images doc ≠ file <$> seqZ 1 100
      ∧ page_images doc !! 9%nat = Some (file 100%Z).
Proof.
  vm_compute. split_and!; [done..|]. eexists. split_and!; [done..| |done].
  intros Heq. discriminate Heq.
Qed.

(* ===================================================================== *)
(** * The page loop *)
(* ===================================================================== *)

Section PageLoop.

Context (E : environment).

#[local] Arguments String.append : simpl nomatch.

(** One turn of the page loop that goes through: the image of the page
    the viewer shows is read, downloaded at the higher zoom level and
    stored under the name of the current page, and the viewer is advanced
    unless this is the last page. *)
Lemma page_turn_Ok b session (token : N) bk pg tot curr (k : M unit) w u w' entries :
  fs w !! tmp_dir_name token = Some entries →
  bind (_get_page_url E b) (λ page_url,
    bind (_download_image E session page_url (tmp_dir_name token)
            (page_name (tmp_dir_name token) bk pg curr tot) (curr, tot)) (λ _,
    bind (if bool_decide (curr ≠ tot) then _go_to_next_page E b else ret tt) (λ _, k)))
    w = (Ok u, w') →
  ∃ src body w1,
    history w1 = history w ++ page_events b session (tmp_dir_name token) bk pg tot curr src body
    ∧ live_browsers w1 = live_browsers w
    ∧ fs w1 = <[tmp_dir_name token :=
                  <[page_basename bk pg curr tot := Raw body]> entries]> (fs w)
    ∧ k w1 = (Ok u, w').
Proof.
  intros Hdir H.
  apply bind_Ok in H as (url & w1 & Hurl & H).
  apply bind_Ok in H as ([] & w2 & Hdl & H).
  apply bind_Ok in H as ([] & w3 & Hnext & H).
  assert (history w3 = history w2
            ++ (if bool_decide (curr ≠ tot)
                then [EvClick b "ImageViewer1_BtnNext"; EvSleep DEFAULT_SLEEP_TIME] else [])
          ∧ live_browsers w3 = live_browsers w2 ∧ fs w3 = fs w2) as (Hh3 & Hb3 & Hfs3).
  { case_bool_decide.
    - unfold _go_to_next_page, click, sleep in Hnext.
      apply bind_Ok in Hnext as ([] & wh & Hclick & Hsl).
      apply bind_Ok in Hclick as ([] & wi & [_ ->]%fallible_Ok & Hclick).
      cbv [emit] in Hclick, Hsl. simplify_eq. cbn [log history fs live_browsers].
      by rewrite <-app_assoc.
    - cbv [ret] in Hnext. simplify_eq. by rewrite app_nil_r. }
  clear Hnext.
  (* the URL *)
  unfold _get_page_url in Hurl.
  apply bind_Ok in Hurl as ([] & wa & Hsleep & Hurl).
  apply bind_Ok in Hurl as (src & wb & Hattr & Hurl).
  unfold sleep, emit in Hsleep. injection Hsleep as <-.
  unfold attr_of in Hattr.
  apply bind_Ok in Hattr as ([] & wc & [_ ->]%fallible_Ok & Hattr).
  cbv [bind ask emit ret] in Hattr, Hurl. simplify_eq.
  (* the download *)
  unfold _download_image in Hdl.
  apply bind_Ok in Hdl as (body & wd & Hget & Hdl).
  apply bind_Ok in Hdl as ([] & we & Hwrite & Hprint).
  unfold session_get in Hget.
  apply bind_Ok in Hget as ([] & wf & [_ ->]%fallible_Ok & Hget).
  cbv [bind ask emit ret] in Hget. simplify_eq.
  apply write_binary_Ok in Hwrite as (Hh & Hb & _ & entries' & Hd & Hfs).
  unfold print, emit in Hprint. injection Hprint as <-.
  fold (page_file (tmp_dir_name token) bk pg curr tot) in *.
  rewrite page_file_tmp in Hd, Hfs.
  rewrite os_path_split_file in Hd, Hfs
    by (apply tmp_dir_name_plain || apply page_basename_no_slash).
  cbn [fst snd log fs] in Hd, Hfs. rewrite Hdir in Hd. injection Hd as <-.
  eexists _, _, w3. split_and!; [| | |done].
  3:{ rewrite Hfs3. cbn [log fs]. by rewrite Hfs. }
  - rewrite Hh3. unfold page_events. cbn [log history]. rewrite Hh.
    cbn [log history]. by rewrite <-!app_assoc.
  - rewrite Hb3. cbn [log live_browsers]. by rewrite Hb.
Qed.

(** The page loop that goes through takes one turn for each page from
    [curr] to [tot], in this order, and leaves the files of these pages in
    the temporary directory. *)
Lemma fetch_pages_Ok b session (token : N) bk pg tot (fuel : nat) :
  ∀ curr w entries u w',
    fuel = Z.to_nat (tot + 1 - curr) →
    fs w !! tmp_dir_name token = Some entries →
    fetch_pages E fuel b session (tmp_dir_name token) bk pg tot curr w = (Ok u, w') →
    ∃ pages : list (string * string),
      length pages = fuel
      ∧ history w' = history w
          ++ concat (zip_with (λ i p, page_events b session (tmp_dir_name token)
                                        bk pg tot i p.1 p.2)
                              (seqZ curr (Z.of_nat fuel)) pages)
      ∧ live_browsers w' = live_browsers w
      ∧ fs w' = <[tmp_dir_name token :=
                    add_page_files bk pg tot entries
                      (zip (seqZ curr (Z.of_nat fuel)) pages.*2)]> (fs w).
Proof.
  induction fuel as [|fuel IH]; intros curr w entries u w' Hfuel Hdir Hrun.
  { cbv [fetch_pages ret] in Hrun. simplify_eq. exists []. simpl.
    rewrite app_nil_r. split_and!; [done..|]. by rewrite insert_id. }
  cbn [fetch_pages] in Hrun. rewrite bool_decide_eq_true_2 in Hrun by lia.
  eapply page_turn_Ok in Hrun as (src & body & w1 & Hh1 & Hb1 & Hfs1 & Hrun); [|done].
  eapply (IH (curr + 1)%Z) in Hrun as (pages & Hlen & Hh & Hb & Hfs); [|lia|].
  2:{ rewrite Hfs1. apply lookup_insert_eq. }
  exists ((src, body) :: pages).
  rewrite seqZ_cons by lia.
  replace (Z.pred (Z.of_nat (S fuel))) with (Z.of_nat fuel) by lia.
  replace (Z.succ curr) with (curr + 1)%Z by lia.
  cbn [length zip_with concat fmap list_fmap fst snd].
  split_and!.
  - by rewrite Hlen.
  - by rewrite Hh, Hh1, <-app_assoc.
  - by rewrite Hb, Hb1.
  - rewrite Hfs, Hfs1. by rewrite insert_insert_eq.
Qed.

End PageLoop.

(* ===================================================================== *)
(** * The images in the temporary directory *)
(* ===================================================================== *)

Section Images.

#[local] Arguments String.append : simpl nomatch.

Lemma add_page_files_to_list bk pg tot (l : list (Z * string)) :
  ∀ entries : gmap string file,
    NoDup ((λ p, page_basename bk pg p.1 tot) <$> l) →
    (∀ p, p ∈ l → entries !! page_basename bk pg p.1 tot = None) →
    map_to_list (add_page_files bk pg tot entries l)
    ≡ₚ ((λ p, (page_basename bk pg p.1 tot, Raw p.2)) <$> l) ++ map_to_list entries.
Proof.
  induction l as [|p l IH]; intros entries Hnd Hfree; [done|].
  change (add_page_files bk pg tot entries (p :: l))
    with (add_page_files bk pg tot (<[page_basename bk pg p.1 tot := Raw p.2]> entries) l).
  rewrite fmap_cons in Hnd. apply NoDup_cons in Hnd as [Hp Hnd].
  rewrite IH; [| done |].
  - rewrite map_to_list_insert by (apply Hfree; left).
    rewrite fmap_cons. cbn [app]. by rewrite Permutation_middle.
  - intros q Hq. rewrite lookup_insert_ne; [apply Hfree; by right|].
    intros Heq. apply Hp. rewrite Heq.
    apply list_elem_of_fmap. by exists q.
Qed.

Lemma page_basename_matches bk pg curr tot :
  matches_star ".jpg" (page_basename bk pg curr tot) = true.
Proof.
  unfold matches_star. apply andb_true_iff. split; [|done].
  unfold Py.ends_with.
  replace (page_basename bk pg curr tot)
    with (("bk_" +:+ Py.format_0d 6 bk +:+ "_pg_" +:+ Py.format_0d 6 pg
           +:+ "_" +:+ Py.format_0d 2 curr +:+ "_of_" +:+ Py.format_0d 2 tot) +:+ ".jpg")
    by (unfold page_basename; by rewrite !str_app_assoc).
  rewrite str_rev_app. apply str_prefix_app.
Qed.

Lemma os_path_join_page (t : string) bk pg curr tot :
  plain_dir t →
  Py.os_path_join t (page_basename bk pg curr tot)
  = t +:+ "/" +:+ page_basename bk pg curr tot.
Proof.
  intros Ht. unfold page_basename. cbn [String.append].
  by apply os_path_join_plain.
Qed.

Lemma filter_all {A} (P : A → bool) (l : list A) :
  Forall (λ x, P x = true) l → List.filter P l = l.
Proof. induction 1 as [|x l Hx _ IH]; simpl; [done|]. by rewrite Hx, IH. Qed.

(** [glob] finds the files of the pages, in some order. *)
Lemma glob_pages (f : gmap string (gmap string file)) (t : string) bk pg tot
    (entries : gmap string file) (l : list (Z * string)) :
  plain_dir t →
  f !! t = Some entries →
  map_to_list entries ≡ₚ (λ p, (page_basename bk pg p.1 tot, Raw p.2)) <$> l →
  glob f (Py.os_path_join t "*.jpg")
  ≡ₚ (λ p, t +:+ "/" +:+ page_basename bk pg p.1 tot) <$> l.
Proof.
  intros Ht Hf Hl. rewrite os_path_join_plain by done.
  unfold glob. rewrite os_path_split_file by done. rewrite Hf.
  assert ((map_to_list entries).*1 ≡ₚ (λ p, page_basename bk pg p.1 tot) <$> l) as Hnames.
  { rewrite Hl. by rewrite <-list_fmap_compose. }
  rewrite filter_all.
  2:{ rewrite Hnames. apply Forall_fmap, Forall_forall. intros p _.
      apply page_basename_matches. }
  rewrite Hnames, <-list_fmap_compose.
  erewrite list_fmap_ext; [reflexivity|].
  intros i p _. simpl. by apply os_path_join_page.
Qed.

(** A sorted list is what [sorted] makes of its permutations. *)
Lemma sorted_permutation (l L : list string) :
  l ≡ₚ L → Sorted String.le L → Py.sorted l = L.
Proof.
  intros Hp Hs. apply (Sorted_unique String.le); [|done|].
  - apply Sorted_merge_sort. apply _.
  - unfold Py.sorted. by rewrite merge_sort_Permutation.
Qed.

Lemma str_ltb_le (a b : string) : String.ltb a b = true → String.le a b.
Proof.
  unfold String.le, String.leb, String.ltb. by destruct (String.compare a b).
Qed.

(** Up to 99 pages the files of the pages are sorted in page order. *)
Lemma page_files_sorted (dir : string) bk pg tot (n : nat) :
  ∀ m, (1 ≤ m)%Z → (m + Z.of_nat n - 1 ≤ tot)%Z → (tot ≤ 99)%Z →
    StronglySorted String.le ((λ i, page_file dir bk pg i tot) <$> seqZ m (Z.of_nat n)).
Proof.
  induction n as [|n IH]; intros m Hm Hn Htot; [constructor|].
  rewrite seqZ_cons by lia.
  replace (Z.pred (Z.of_nat (S n))) with (Z.of_nat n) by lia.
  rewrite fmap_cons. constructor; [apply IH; lia|].
  apply Forall_fmap, Forall_forall. intros j Hj. apply elem_of_seqZ in Hj.
  apply str_ltb_le, page_file_lt; lia.
Qed.

Lemma page_files_distinct (dir : string) bk pg tot i j :
  (1 ≤ i)%Z → (i ≤ tot)%Z → (1 ≤ j)%Z → (j ≤ tot)%Z → (tot ≤ 99)%Z →
  page_file dir bk pg i tot = page_file dir bk pg j tot → i = j.
Proof.
  intros Hi Hi' Hj Hj' Htot Heq.
  destruct (Z.lt_trichotomy i j) as [Hlt|[?|Hlt]]; [|done|].
  - pose proof (page_file_lt dir bk pg tot i j Hi Hlt Hj' Htot) as H.
    rewrite Heq in H. apply str_ltb_compare in H. by rewrite str_compare_refl in H.
  - pose proof (page_file_lt dir bk pg tot j i Hj Hlt Hi' Htot) as H.
    rewrite Heq in H. apply str_ltb_compare in H. by rewrite str_compare_refl in H.
Qed.

End Images.

(* ===================================================================== *)
(** * The pages of the document *)
(* ===================================================================== *)

Section Document.

Context (E : environment).

#[local] Arguments String.append : simpl nomatch.

(** An image placed on a page that was just added is alone on the last
    page. *)
Lemma place_add_page (pdf pdf' : FPDF) (p : placement) :
  place (add_page pdf) p = Some pdf' → pdf_pages pdf' = pdf_pages pdf ++ [[p]].
Proof.
  unfold place, add_page. cbn [pdf_pages pdf_unit pdf_format].
  rewrite reverse_app, reverse_singleton. cbn [app]. intros [= <-]. cbn [pdf_pages].
  by rewrite reverse_involutive.
Qed.

(** The loop over the images when it goes through: one page for each
    image, in the order of the list, holding what the file of the image
    held, and each image is removed right after it was placed. *)
Lemma add_images_Ok (images : list string) :
  ∀ pdf w pdf' w',
    add_images E pdf images w = (Ok pdf', w') →
    ∃ datas : list string,
      length datas = length images
      ∧ ((∀ i j p q, images !! i = Some p → images !! j = Some q → same_file p q → i = j) →
         ∀ i n d, images !! i = Some n → datas !! i = Some d →
           file_at (fs w) n = Some (Raw d))
      ∧ pdf_pages pdf'
        = pdf_pages pdf ++ zip_with (λ n d, [Placement n d 0 0 8.5 11]) images datas
      ∧ history w' = history w ++ concat ((λ n, [EvImage n; EvRemove n]) <$> images).
Proof.
  induction images as [|image rest IH]; intros pdf w pdf' w' Hrun.
  { cbv [add_images ret] in Hrun. simplify_eq. exists []. simpl.
    rewrite !app_nil_r. split_and!; [done| |done..]. intros _ i n d Hn. done. }
  cbn [add_images] in Hrun. rewrite bind_run in Hrun.
  destruct (pdf_image_run E (add_page pdf) image 0 0 8.5 11 w)
    as [[ex Hr]|(data & pdf1 & Hfile & Hplace & Hr)]; rewrite Hr in Hrun; [done|].
  rewrite bind_run in Hrun.
  destruct (os_remove_run E image (log (EvImage image) w)) as [[ex Hr2]|Hr2];
    rewrite Hr2 in Hrun; [done|].
  apply IH in Hrun as (datas & Hlen & Hdata & Hpages & Hhist).
  exists (data :: datas). split_and!.
  - simpl. by rewrite Hlen.
  - intros Hdist [|i] n d Hn Hd; simpl in Hn, Hd; [by simplify_eq|].
    assert (file_at (unlink (fs w) image) n = Some (Raw d)) as <-.
    { apply (Hdata (λ i j p q Hp Hq Hs,
                      eq_add_S _ _ (Hdist (S i) (S j) p q Hp Hq Hs)) i n d Hn Hd). }
    symmetry. apply file_at_unlink.
    intros Hs. by pose proof (Hdist (S i) 0%nat n image Hn eq_refl Hs).
  - rewrite Hpages. apply place_add_page in Hplace. rewrite Hplace.
    by rewrite <-app_assoc.
  - rewrite Hhist. cbn [log history]. rewrite fmap_cons. cbn [concat app].
    by rewrite <-!app_assoc.
Qed.

Lemma page_images_placed (images datas : list string) :
  length datas = length images →
  img_name <$> concat (zip_with (λ n d, [Placement n d 0 0 8.5 11]) images datas) = images.
Proof.
  revert datas. induction images as [|n images IH]; intros [|d datas] Hlen;
    simplify_eq/=; [done|]. by rewrite IH.
Qed.

(** Closing a document adds no image, and no page to a document that has
    one. *)
Lemma page_images_close (pdf : FPDF) : page_images (fpdf_close pdf) = page_images pdf.
Proof.
  unfold page_images, fpdf_close.
  destruct (pdf_pages pdf) eqn:Hp; cbn; by rewrite Hp.
Qed.

Lemma fpdf_close_pages (pdf : FPDF) :
  pdf_pages pdf ≠ [] → pdf_pages (fpdf_close pdf) = pdf_pages pdf.
Proof. unfold fpdf_close. by destruct (pdf_pages pdf) eqn:Hp. Qed.

Lemma fpdf_close_no_page (pdf : FPDF) :
  pdf_pages pdf = [] → pdf_pages (fpdf_close pdf) = [[]].
Proof. unfold fpdf_close. intros Hp. rewrite Hp. cbn. by rewrite Hp. Qed.

(** The entry of a page in the temporary directory. *)
Lemma add_page_files_other bk pg tot (l : list (Z * string)) (name : string) :
  ∀ entries : gmap string file,
    name ∉ (λ p, page_basename bk pg p.1 tot) <$> l →
    add_page_files bk pg tot entries l !! name = entries !! name.
Proof.
  induction l as [|p l IH]; intros entries Hout; [done|].
  change (add_page_files bk pg tot entries (p :: l))
    with (add_page_files bk pg tot (<[page_basename bk pg p.1 tot := Raw p.2]> entries) l).
  rewrite fmap_cons in Hout. apply not_elem_of_cons in Hout as [Hne Hout].
  rewrite IH by done. by rewrite lookup_insert_ne.
Qed.

Lemma add_page_files_lookup bk pg tot (l : list (Z * string)) :
  ∀ (entries : gmap string file) k p,
    NoDup ((λ p, page_basename bk pg p.1 tot) <$> l) →
    l !! k = Some p →
    add_page_files bk pg tot entries l !! page_basename bk pg p.1 tot = Some (Raw p.2).
Proof.
  induction l as [|q l IH]; intros entries k p Hnd Hk; [done|].
  change (add_page_files bk pg tot entries (q :: l))
    with (add_page_files bk pg tot (<[page_basename bk pg q.1 tot := Raw q.2]> entries) l).
  rewrite fmap_cons in Hnd. apply NoDup_cons in Hnd as [Hq Hnd].
  destruct k as [|k]; simpl in Hk.
  - simplify_eq. rewrite add_page_files_other by done. by rewrite lookup_insert_eq.
  - by eapply IH.
Qed.

End Document.

(* ===================================================================== *)
(** * The page loop, counted *)
(* ===================================================================== *)

Section LoopCounts.

#[local] Arguments String.append : simpl nomatch.

Lemma written_app d1 d2 : written (d1 ++ d2) = written d1 ++ written d2.
Proof. unfold written. by rewrite flat_map_app. Qed.

Lemma nav_event_writes_nothing (d : list event) :
  forallb nav_event d = true → written d = [].
Proof.
  induction d as [|e d IH]; [done|]. cbn [forallb]. intros [He Hd]%andb_true_iff.
  unfold written. cbn [flat_map]. fold (written d). rewrite IH by done.
  by destruct e.
Qed.

Lemma consumed_quiet (images : list string) :
  let d := concat ((λ n, [EvImage n; EvRemove n]) <$> images) in
  written d = [] ∧ downloads d = 0%nat ∧ advances d = 0%nat.
Proof. induction images as [|n images IH]; [done|]. by rewrite fmap_cons. Qed.

Lemma page_events_counts b session dir bk pg tot curr src body :
  let d := page_events b session dir bk pg tot curr src body in
  written d = [page_file dir bk pg curr tot]
  ∧ downloads d = 1%nat
  ∧ advances d = (if bool_decide (curr ≠ tot) then 1 else 0)%nat.
Proof. unfold page_events. by case_bool_decide. Qed.

(** The page loop from page [curr] to the last page: it writes the files
    of these pages in order, downloads once for each, and clicks the next
    button once for each but the last. *)
Lemma page_loop_counts b session dir bk pg tot (pages : list (string * string)) :
  ∀ curr : Z,
    length pages = Z.to_nat (tot + 1 - curr) →
    let d := concat (zip_with (λ i p, page_events b session dir bk pg tot i p.1 p.2)
                              (seqZ curr (Z.of_nat (length pages))) pages) in
    written d = (λ i, page_file dir bk pg i tot) <$> seqZ curr (Z.of_nat (length pages))
    ∧ downloads d = length pages
    ∧ advances d = pred (length pages).
Proof.
  induction pages as [|p pages IH]; intros curr Hlen; [done|].
  cbn [length] in *. rewrite seqZ_cons by lia.
  replace (Z.pred (Z.of_nat (S (length pages)))) with (Z.of_nat (length pages)) by lia.
  cbn [zip_with concat]. rewrite fmap_cons.
  destruct (IH (Z.succ curr)) as (Hw & Hd & Ha); [lia|].
  destruct (page_events_counts b session dir bk pg tot curr p.1 p.2) as (Hw1 & Hd1 & Ha1).
  rewrite written_app, downloads_app, advances_app, Hw, Hd, Ha, Hw1, Hd1, Ha1.
  split_and!; [done..|]. case_bool_decide; destruct pages; simpl in *; lia.
Qed.

End LoopCounts.

(* ===================================================================== *)
(** * The temporary directory after the page loop *)
(* ===================================================================== *)

Section PageDirectory.

Context (token : N) (bk pg tot : Z) (bodies : list string).

#[local] Arguments String.append : simpl nomatch.

Let t := tmp_dir_name token.
Let n := length bodies.
Let l := zip (seqZ 1 (Z.of_nat n)) bodies.

Hypothesis Htot : (tot ≤ 99)%Z.
Hypothesis Hlen : n = Z.to_nat tot.

Lemma page_numbers : l.*1 = seqZ 1 (Z.of_nat n).
Proof. apply fst_zip. rewrite length_seqZ. unfold n. lia. Qed.

Lemma page_basename_inj (i j : Z) :
  (1 ≤ i ≤ tot)%Z → (1 ≤ j ≤ tot)%Z →
  page_basename bk pg i tot = page_basename bk pg j tot → i = j.
Proof.
  intros Hi Hj Heq. apply (page_files_distinct t bk pg tot); [lia..|].
  unfold t. by rewrite !page_file_tmp, Heq.
Qed.

Lemma page_names_NoDup : NoDup ((λ p, page_basename bk pg p.1 tot) <$> l).
Proof.
  replace ((λ p : Z * string, page_basename bk pg p.1 tot) <$> l)
    with ((λ i, page_basename bk pg i tot) <$> l.*1)
    by (by rewrite <-list_fmap_compose).
  rewrite page_numbers.
  apply NoDup_fmap_2_strong; [|apply NoDup_seqZ].
  intros i j Hi%elem_of_seqZ Hj%elem_of_seqZ. apply page_basename_inj; lia.
Qed.

Lemma page_paths :
  (λ p, t +:+ "/" +:+ page_basename bk pg p.1 tot) <$> l
  = (λ i, page_file t bk pg i tot) <$> seqZ 1 (Z.of_nat n).
Proof.
  rewrite <-page_numbers, <-list_fmap_compose. apply list_fmap_ext.
  intros i p _. simpl. unfold t. by rewrite page_file_tmp.
Qed.

(** Up to 99 pages [sorted(glob(...))] lists the files of the pages in
    page order. *)
Lemma sorted_glob_pages (f : gmap string (gmap string file)) :
  f !! t = Some (add_page_files bk pg tot ∅ l) →
  Py.sorted (glob f (Py.os_path_join t "*.jpg"))
  = (λ i, page_file t bk pg i tot) <$> seqZ 1 (Z.of_nat n).
Proof.
  intros Hf. apply sorted_permutation.
  - rewrite <-page_paths.
    apply (glob_pages f t bk pg tot (add_page_files bk pg tot ∅ l));
      [apply tmp_dir_name_plain|done|].
    rewrite add_page_files_to_list; [|apply page_names_NoDup|done].
    by rewrite map_to_list_empty, app_nil_r.
  - destruct (decide (0 ≤ tot)%Z) as [Hpos|Hneg].
    + apply StronglySorted_Sorted, page_files_sorted; lia.
    + replace (Z.of_nat n) with 0%Z by lia. constructor.
Qed.

Lemma page_files_not_same (i j : nat) (p q : string) :
  ((λ i, page_file t bk pg i tot) <$> seqZ 1 (Z.of_nat n)) !! i = Some p →
  ((λ i, page_file t bk pg i tot) <$> seqZ 1 (Z.of_nat n)) !! j = Some q →
  same_file p q → i = j.
Proof.
  rewrite !list_lookup_fmap. 
  intros (x & [-> Hx]%lookup_seqZ & ->)%fmap_Some (y & [-> Hy]%lookup_seqZ & ->)%fmap_Some.
  unfold same_file, t. rewrite !page_file_tmp.
  rewrite !os_path_split_file
    by (apply tmp_dir_name_plain || apply page_basename_no_slash).
  intros Heq%(f_equal snd). cbn [snd] in Heq. apply page_basename_inj in Heq; lia.
Qed.

(** What the file of a page holds. *)
Lemma page_file_content (f : gmap string (gmap string file)) (i : nat) (body : string) :
  f !! t = Some (add_page_files bk pg tot ∅ l) →
  bodies !! i = Some body →
  file_at f (page_file t bk pg (1 + Z.of_nat i) tot) = Some (Raw body).
Proof.
  intros Hf Hb. unfold t in *. rewrite page_file_tmp. unfold file_at.
  rewrite os_path_split_file
    by (apply tmp_dir_name_plain || apply page_basename_no_slash).
  rewrite Hf.
  apply (add_page_files_lookup bk pg tot l ∅ i (1 + Z.of_nat i, body)%Z);
    [apply page_names_NoDup|].
  unfold l. rewrite lookup_zip_with. 
  rewrite (proj2 (lookup_seqZ 1 (Z.of_nat n) i (1 + Z.of_nat i)%Z)).
  - by rewrite Hb.
  - split; [done|]. apply lookup_lt_Some in Hb. unfold n. lia.
Qed.

End PageDirectory.

(* ===================================================================== *)
(** * An attempt that returns *)
(* ===================================================================== *)

Section PagesInOrder.

Context (E : environment) (book page : Z) (output_dir : string).

#[local] Arguments String.append : simpl nomatch.

Lemma seqZ_to_nat (m len : Z) : seqZ m (Z.of_nat (Z.to_nat len)) = seqZ m len.
Proof. unfold seqZ. by rewrite Nat2Z.id. Qed.

(** What an attempt that returns has done, for every number of pages
    [tot] the viewer announces.  After the search it read the label, went
    through the pages 1 to [tot] in order, for each page downloading the
    image the viewer shows and storing it under the name of the page, and
    clicking the next button after every page but the last; then it placed
    the images of the document one after the other, removing each, wrote
    the document and removed its directory.  From 1 to 99 pages the
    document has one page for each page of the record, in page order, each
    holding what was downloaded for it. *)
Theorem attempt_pages_in_order (w : world) (v : pyval) (w' : world) :
  download_pdf E book page output_dir w = (Ok v, w') →
  ∃ (token : N) (b : nat) (session : list (string * string)) (label : string) (tot : Z)
    (nav : list event) (pages : list (string * string)) (doc : FPDF),
    let t := tmp_dir_name token in
    let file := λ i, page_file t book page i tot in
    let d := [EvPrint (trying_line book page); EvMkdtemp t] ++ nav
               ++ [EvValue b "ImageViewer1_lblPageNum" label]
               ++ concat (zip_with (λ i p, page_events b session t book page tot i p.1 p.2)
                                   (seqZ 1 tot) pages)
               ++ concat ((λ n, [EvImage n; EvRemove n]) <$> page_images doc)
               ++ [EvOutput (output_path output_dir (pdf_name book page)) doc;
                   EvCleanup t] in
    history w' = history w ++ d
    ∧ forallb nav_event nav = true
    ∧ parse_page_count label = Some tot
    ∧ length pages = Z.to_nat tot
    ∧ written d = file <$> seqZ 1 tot
    ∧ downloads d = Z.to_nat tot
    ∧ advances d = Z.to_nat (tot - 1)
    ∧ ((1 ≤ tot ≤ 99)%Z →
       pdf_pages doc
       = zip_with (λ i p, [Placement (file i) p.2 0 0 8.5 11]) (seqZ 1 tot) pages).
Proof.
  intros Hrun.
  destruct (download_pdf_run_mkdtemp E book page output_dir w)
    as [(ex & Hr & _)|(_ & Hfree & Hr)]; rewrite Hr in Hrun; [done|]. clear Hr.
  set (token := tmp_token E _) in *. set (t := tmp_dir_name token) in *.
  set (w0 := log (EvMkdtemp t) _) in *.
  destruct (download_pdf_block_run E book page output_dir t w0)
    as [(ex & w1 & Hr & _)|(b & session & label & w1 & Hnav & _ & Hr)];
    rewrite Hr in Hrun; [done|]. clear Hr.
  destruct (parse_page_count label) as [tot|] eqn:Hparse; [|done].
  set (w2 := log (EvValue _ _ _) w1) in *.
  destruct (bind _ _ w2) as [[[]|ex] w5] eqn:Hblock; [|done].
  cbn [fst snd] in Hrun. injection Hrun as <- <-.
  apply bind_Ok in Hblock as ([] & w3 & Hfetch & Hpdf).
  destruct Hnav as (nav & Hh1 & Hnavok & _ & Hfs1).
  destruct (nav_event_quiet nav Hnavok) as (Hnd & Hna & Hkeep & _ & _).
  specialize (Hfs1 Hkeep).
  assert (fs w2 !! t = Some ∅) as Hdir.
  { subst w2 w0. cbn [log fs]. rewrite Hfs1. cbn [log fs]. apply lookup_insert_eq. }
  eapply (fetch_pages_Ok E b session token book page tot) in Hfetch
    as (pages & Hlen & Hh3 & _ & Hfs3); [|done..].
  replace (tot + 1 - 1)%Z with tot in * by lia.
  rewrite seqZ_to_nat in Hh3.
  apply create_pdf_Ok in Hpdf as (doc & w4 & Himg & Hout).
  apply add_images_Ok in Himg as (datas & Hdlen & Hdata & Hpages & Hh4).
  cbn [pdf_pages app] in Hpages.
  apply pdf_output_Ok in Hout as (Hh5 & _).
  assert (page_images (fpdf_close doc)
          = Py.sorted (glob (fs w3) (Py.os_path_join t "*.jpg"))) as Himages.
  { rewrite page_images_close. unfold page_images. rewrite Hpages.
    by apply page_images_placed. }
  exists token, b, session, label, tot, nav, pages, (fpdf_close doc).
  cbv zeta. fold t.
  split.
  { cbn [cleanup log history]. rewrite Hh5, Hh4, Hh3. subst w2. cbn [log history].
    rewrite Hh1. subst w0. cbn [log history]. rewrite Himages.
    rewrite <-!app_assoc. done. }
  split; [done|]. split; [done|]. split; [done|].
  destruct (page_loop_counts b session t book page tot pages 1) as (Hlw & Hld & Hla);
    [rewrite Hlen; f_equal; lia|].
  rewrite Hlen, seqZ_to_nat in Hlw, Hld, Hla.
  destruct (consumed_quiet (page_images (fpdf_close doc))) as (Hcw & Hcd & Hca).
  split_and!.
  - rewrite !written_app, Hlw, Hcw, (nav_event_writes_nothing nav) by done.
    cbn. by rewrite app_nil_r.
  - rewrite !downloads_app, Hld, Hcd, Hnd. cbn. lia.
  - rewrite !advances_app, Hla, Hca, Hna. cbn. lia.
  - intros [Hone Htot].
    assert (length pages.*2 = Z.to_nat tot) as Hlen2 by (by rewrite length_fmap).
    assert (fs w3 !! t
            = Some (add_page_files book page tot ∅
                      (zip (seqZ 1 (Z.of_nat (length pages.*2))) pages.*2))) as Hdir3.
    { rewrite Hfs3, Hlen2, <-Hlen. apply lookup_insert_eq. }
    pose proof (sorted_glob_pages token book page tot pages.*2 Htot Hlen2 (fs w3) Hdir3)
      as Hsorted.
    fold t in Hsorted. rewrite Hlen2, seqZ_to_nat in Hsorted.
    rewrite Hsorted in Hpages, Hdlen, Hdata.
    assert (datas = pages.*2) as ->.
    { apply list_eq_same_length with (Z.to_nat tot); [done| |].
      { rewrite Hdlen, length_fmap, length_seqZ. done. }
      intros i d body Hi Hd Hbody.
      assert (file_at (fs w3) (page_file t book page (1 + Z.of_nat i) tot) = Some (Raw d))
        as Hfile.
      { apply (Hdata
                 (λ i j p q Hp Hq,
                    page_files_not_same token book page tot pages.*2 Htot Hlen2 i j p q
                      ltac:(fold t; by rewrite Hlen2, seqZ_to_nat)
                      ltac:(fold t; by rewrite Hlen2, seqZ_to_nat)) i); [|done].
        rewrite list_lookup_fmap.
        rewrite (proj2 (lookup_seqZ 1 tot i (1 + Z.of_nat i)%Z)); [done|]. lia. }
      pose proof (page_file_content token book page tot pages.*2 Htot Hlen2
                    (fs w3) i body Hdir3 Hbody) as Hfile'.
      fold t in Hfile'. congruence. }
    rewrite fpdf_close_pages.
    2:{ rewrite Hpages. intros Hnil%(f_equal length).
        rewrite length_zip_with, length_fmap, length_seqZ, Hlen2 in Hnil.
        cbn [length] in Hnil. lia. }
    rewrite Hpages. by rewrite zip_with_fmap_l, zip_with_fmap_r.
Qed.

End PagesInOrder.

(* ===================================================================== *)
(** * Integers and their decimal text *)
(* ===================================================================== *)

Section Decimal.

#[local] Arguments String.append : simpl nomatch.

Lemma is_nat_pretty_N_char (d : N) :
  (d < 10)%N → Ascii.is_nat (pretty_N_char d) = Some (N.to_nat d).
Proof.
  intros Hd. destruct d as [|p]; [done|].
  do 4 (destruct p as [p|p|]; try done; try lia).
Qed.

(** Reading the digits of a number gives the number back, whatever was
    read before. *)
Lemma digits_value_pretty_N_go (x : N) :
  ∀ (b : bool) (s : string), (0 < x)%N →
    Py.digits_value 0 b (pretty_N_go x s) = Py.digits_value (Z.of_N x) true s.
Proof.
  induction (N.lt_wf_0 x) as [x _ IH]. intros b s Hx.
  rewrite pretty_N_go_step by done.
  destruct (decide (x `div` 10 = 0)%N) as [Hz|Hnz].
  - rewrite Hz, pretty_N_go_0. cbn [Py.digits_value].
    apply N.div_small_iff in Hz; [|lia].
    assert (x `mod` 10 = x)%N as Hm by (by apply N.mod_small).
    rewrite is_nat_pretty_N_char by (apply N.mod_lt; lia).
    f_equal. lia.
  - rewrite (IH (x `div` 10)%N); [|apply N.div_lt; lia|by apply N.neq_0_lt_0].
    cbn [Py.digits_value].
    rewrite is_nat_pretty_N_char by (apply N.mod_lt; lia).
    f_equal. pose proof (N.div_mod x 10). lia.
Qed.

Lemma digits_value_pretty_N (x : N) (b : bool) :
  Py.digits_value 0 b (pretty x) = Some (Z.of_N x).
Proof.
  unfold pretty, pretty_N. case_decide as Hx; [by subst|].
  rewrite digits_value_pretty_N_go by lia. done.
Qed.

Lemma digits_value_zeros (k : nat) (b : bool) (s : string) :
  Py.digits_value 0 b (Py.zeros k +:+ s)
  = Py.digits_value 0 (b || bool_decide (k ≠ 0%nat)) s.
Proof.
  revert b. induction k as [|k IH]; intros b.
  - cbn [Py.zeros String.append]. by rewrite orb_false_r.
  - cbn [Py.zeros String.append Py.digits_value]. cbn. rewrite IH.
    by destruct b, k.
Qed.

Lemma lstrip_not_space (c : ascii) (s : string) :
  Py.is_space c = false → Py.lstrip (String c s) = String c s.
Proof. intros Hc. cbn [Py.lstrip]. by rewrite Hc. Qed.

Lemma is_digit_not_space (c : ascii) : Py.is_digit c = true → Py.is_space c = false.
Proof. destruct c as [[] [] [] [] [] [] [] []]; done. Qed.

Lemma dash_not_space (c : ascii) : digit_or_dash c = true → Py.is_space c = false.
Proof.
  unfold digit_or_dash. intros [Hc| ->%bool_decide_eq_true]%orb_true_iff; [|done].
  by apply is_digit_not_space.
Qed.

Lemma lstrip_id (s : string) :
  Py.all_chars digit_or_dash s = true → Py.lstrip s = s.
Proof.
  destruct s as [|c s]; [done|]. cbn [Py.all_chars].
  intros [Hc _]%andb_true_iff. by apply lstrip_not_space, dash_not_space.
Qed.

(** [int] strips nothing from a text of digits and dashes. *)
Lemma strip_id (s : string) :
  Py.all_chars digit_or_dash s = true → Py.strip s = s.
Proof.
  intros Hs. unfold Py.strip. rewrite (lstrip_id s) by done.
  rewrite lstrip_id by (by rewrite all_chars_rev).
  apply str_rev_involutive.
Qed.

Lemma digits_are_digit_or_dash (s : string) :
  Py.all_chars Py.is_digit s = true → Py.all_chars digit_or_dash s = true.
Proof. apply all_chars_impl. intros c Hc. unfold digit_or_dash. by rewrite Hc. Qed.

Lemma int_unsigned (s : string) :
  Py.all_chars Py.is_digit s = true → Py.int s = Py.digits_value 0 false s.
Proof.
  intros Hs. unfold Py.int. rewrite strip_id by (by apply digits_are_digit_or_dash).
  destruct s as [|c s]; [done|]. cbn [Py.all_chars] in Hs.
  apply andb_true_iff in Hs as [Hc _].
  destruct c as [[] [] [] [] [] [] [] []]; done.
Qed.

Lemma int_negative (s : string) :
  Py.all_chars Py.is_digit s = true →
  Py.int (String "-" s) = Z.opp <$> Py.digits_value 0 false s.
Proof.
  intros Hs. unfold Py.int. rewrite strip_id; [done|].
  cbn [Py.all_chars]. by rewrite digits_are_digit_or_dash.
Qed.

(** [int] reads a zero-padded number back: [int('{:0Wd}'.format(z)) == z]. *)
Lemma int_format_0d (width : nat) (z : Z) : Py.int (Py.format_0d width z) = Some z.
Proof.
  unfold Py.format_0d. case_bool_decide as Hz.
  - cbn [String.append].
    rewrite int_negative
      by (rewrite all_chars_app, zeros_digits; apply pretty_N_digits).
    rewrite digits_value_zeros, digits_value_pretty_N. simpl. f_equal. lia.
  - cbn [String.append].
    rewrite int_unsigned
      by (rewrite all_chars_app, zeros_digits; apply pretty_N_digits).
    rewrite digits_value_zeros, digits_value_pretty_N. f_equal. lia.
Qed.

(** [str(z)] is the number formatted without padding. *)
Lemma str_int_format (z : Z) : Py.str_int z = Py.format_0d 0 z.
Proof.
  unfold Py.str_int, Py.format_0d, pretty, pretty_Z.
  destruct z as [|p|p]; [done| |].
  - rewrite bool_decide_eq_false_2 by lia. done.
  - rewrite bool_decide_eq_true_2 by lia. done.
Qed.

(** [int(str(z)) == z]. *)
Lemma int_str_int (z : Z) : Py.int (Py.str_int z) = Some z.
Proof. rewrite str_int_format. apply int_format_0d. Qed.

Lemma format_0d_inj (width : nat) (z z' : Z) :
  Py.format_0d width z = Py.format_0d width z' → z = z'.
Proof.
  intros Heq. apply (f_equal Py.int) in Heq. rewrite !int_format_0d in Heq. congruence.
Qed.

End Decimal.

(* ===================================================================== *)
(** * Reading the number of pages *)
(* ===================================================================== *)

Section PageCount.

Context (E : environment).

#[local] Arguments String.append : simpl nomatch.

Lemma parse_last_word (label word : string) :
  last_word label word → parse_page_count label = Py.int word.
Proof.
  intros [Hw [->|[pre ->]]]; unfold parse_page_count.
  - unfold Py.split. by rewrite split_go_plain.
  - cbn [String.append]. by rewrite last_item_split.
Qed.

Lemma all_chars_lstrip (s : string) :
  Py.all_chars literal_char (Py.lstrip s) = Py.all_chars literal_char s.
Proof.
  induction s as [|c s IH]; [done|]. cbn [Py.lstrip].
  destruct (Py.is_space c) eqn:Hc; [|done].
  rewrite IH. cbn [Py.all_chars]. unfold literal_char at 2. rewrite Hc.
  by rewrite orb_true_r.
Qed.

Lemma all_chars_strip (s : string) :
  Py.all_chars literal_char (Py.strip s) = Py.all_chars literal_char s.
Proof.
  unfold Py.strip. by rewrite all_chars_rev, all_chars_lstrip, all_chars_rev, all_chars_lstrip.
Qed.

Lemma digits_value_rejects (s : string) :
  ∀ acc b, Py.all_chars literal_char s = false → Py.digits_value acc b s = None.
Proof.
  induction s as [|c s IH]; intros acc b Hs; [done|].
  cbn [Py.all_chars] in Hs. cbn [Py.digits_value].
  destruct (Ascii.is_nat c) as [d|] eqn:Hd.
  - apply IH. unfold literal_char, Py.is_digit in Hs. by rewrite Hd in Hs.
  - case_bool_decide as Hu; [subst c|done].
    destruct b; [|done]. by apply IH.
Qed.

(** [int] rejects a text that holds anything but digits, signs,
    underscores and white space. *)
Lemma int_rejects (s : string) :
  Py.all_chars literal_char s = false → Py.int s = None.
Proof.
  intros Hs. rewrite <-all_chars_strip in Hs. unfold Py.int.
  destruct (Py.strip s) as [|c r]; [done|].
  destruct c as [[] [] [] [] [] [] [] []];
    first [ by apply digits_value_rejects
          | by rewrite digits_value_rejects ].
Qed.

Lemma literal_char_ascii (c : ascii) : literal_char c = true → Py.is_ascii c = true.
Proof. destruct c as [[] [] [] [] [] [] [] []]; done. Qed.

(** A text that [int] accepts holds nothing but digits, signs, underscores
    and white space: it is a text of ASCII characters. *)
Lemma int_accepts_ascii (s : string) (z : Z) :
  Py.int s = Some z → Py.all_chars Py.is_ascii s = true.
Proof.
  intros Hs. destruct (Py.all_chars literal_char s) eqn:Hl.
  - eapply all_chars_impl; [apply literal_char_ascii|done].
  - by rewrite int_rejects in Hs.
Qed.


Lemma get_number_of_pages_run (b : nat) (w : world) :
  fault E (history w) = None →
  _get_number_of_pages E b w
  = let label := element_value E (history w) b "ImageViewer1_lblPageNum" in
    let w1 := log (EvValue b "ImageViewer1_lblPageNum" label) w in
    match parse_page_count label with
    | Some n => (Ok n, w1)
    | None => (Raise (Exc ValueError label), log (EvRaise (Exc ValueError label)) w1)
    end.
Proof.
  intros Hf. unfold _get_number_of_pages. rewrite bind_run.
  destruct (value_of_run E b "ImageViewer1_lblPageNum" w) as [(ex & _ & Hex)| ->];
    [congruence|].
  cbv zeta. unfold parse_page_count. by destruct (Py.int _).
Qed.


(** X2. [_get_number_of_pages] raises [ValueError] when the label does not end
    with an integer.  Let the text after the last blank of the label (the
    whole label, if it has no blank) be a text of ASCII characters.  When
    it is empty, as for an empty label and for a label that ends with a
    blank, or holds a character that is neither a digit, a sign, an
    underscore nor white space (TAB to CR), the function raises
    [ValueError], having read the label and done nothing else.  (Outside
    ASCII nothing is said: there [int] takes more digits and more white
    space.) *)
Theorem get_number_of_pages_value_error (b : nat) (w : world) (word : string) :
  let label := element_value E (history w) b "ImageViewer1_lblPageNum" in
  fault E (history w) = None →
  last_word label word →
  Py.all_chars Py.is_ascii word = true →
  word = "" ∨ Py.all_chars literal_char word = false →
  ∃ msg,
    _get_number_of_pages E b w
    = (Raise (Exc ValueError msg),
       log (EvRaise (Exc ValueError msg))
           (log (EvValue b "ImageViewer1_lblPageNum" label) w)).
Proof.
  intros label Hf Hlabel _ Hword. exists label.
  rewrite get_number_of_pages_run by done. cbv zeta.
  fold label. rewrite (parse_last_word label word) by done.
  destruct Hword as [->|Hbad]; [done|]. by rewrite int_rejects.
Qed.

End PageCount.


Lemma get_number_of_pages_value_error_witness :
  let E := Environment no_faults (λ _, 1%N) "/opt/deed_finder"
             (λ _ _ _, "Loading...") (λ _ _ _ _, "") (λ _ _, []) (λ _ _ _, "")
             (λ _, 0%nat) in
  ∃ msg,
    _get_number_of_pages E 0 home
    = (Raise (Exc ValueError msg),
       log (EvRaise (Exc ValueError msg))
           (log (EvValue 0 "ImageViewer1_lblPageNum" "Loading...") home)).
Proof.
  intros E.
  apply (get_number_of_pages_value_error E 0 home "Loading..."); [reflexivity| | |].
  - split; [reflexivity|by left].
  - reflexivity.
  - by right.
Defined.

(* ===================================================================== *)
(** * One name for one key, one file for one page *)
(* ===================================================================== *)

Section DistinctNames.

#[local] Arguments String.append : simpl nomatch.

Lemma str_app_inv_head (a x y : string) : a +:+ x = a +:+ y → x = y.
Proof. induction a as [|c a IH]; cbn [String.append]; [done|]. intros [= H]. auto. Qed.

(** Two texts that end at the same separator, which occurs in neither. *)
Lemma str_app_sep_inj (P : ascii → bool) (c : ascii) (a a' r r' : string) :
  Py.all_chars P a = true → Py.all_chars P a' = true → P c = false →
  a +:+ String c r = a' +:+ String c r' → a = a' ∧ r = r'.
Proof.
  intros Ha Ha' Hc. revert a' Ha'.
  induction a as [|x a IH]; intros [|x' a'] Ha'; cbn [String.append Py.all_chars] in *.
  - by intros [= ->].
  - intros [= <- _]. apply andb_true_iff in Ha' as [Hx _]. congruence.
  - intros [= -> _]. apply andb_true_iff in Ha as [Hx _]. congruence.
  - intros [= -> Heq]. apply andb_true_iff in Ha as [_ Ha].
    apply andb_true_iff in Ha' as [_ Ha'].
    destruct (IH Ha a' Ha' Heq) as [-> ->]. done.
Qed.

Lemma format_0d_sep_inj (w w' : nat) (z z' : Z) (c : ascii) (r r' : string) :
  digit_or_dash c = false →
  Py.format_0d w z +:+ String c r = Py.format_0d w' z' +:+ String c r' →
  Py.format_0d w z = Py.format_0d w' z' ∧ r = r'.
Proof.
  intros Hc. apply (str_app_sep_inj digit_or_dash); [apply format_0d_chars..|done].
Qed.

Lemma page_file_eq (dir : string) (bk pg tot i j : Z) :
  page_file dir bk pg i tot = page_file dir bk pg j tot → i = j.
Proof.
  destruct (page_file_split dir bk pg tot) as [pre Hpre]. rewrite !Hpre.
  intros Heq%str_app_inv_head. cbn [String.append] in Heq.
  apply format_0d_sep_inj in Heq as [Hi _]; [|done].
  by eapply format_0d_inj.
Qed.

(** X3. The path of the artifact tells the key: two different keys, whatever
    their sign and size, never share an artifact in a destination
    directory. *)
Theorem pdf_name_inj (output_dir : string) (book page book' page' : Z) :
  book ≠ book' ∨ page ≠ page' →
  output_path output_dir (pdf_name book page)
  ≠ output_path output_dir (pdf_name book' page').
Proof.
  unfold output_path, pdf_name. intros Hne Heq.
  apply str_app_inv_head in Heq. cbn [String.append] in Heq.
  injection Heq as Heq.
  apply format_0d_sep_inj in Heq as [Hb Heq]; [|done].
  injection Heq as Heq.
  apply format_0d_sep_inj in Heq as [Hp _]; [|done].
  apply format_0d_inj in Hb, Hp. by destruct Hne.
Qed.

(** X4. The file of a page tells the page: whatever the directory and the
    number of pages, also beyond 99, no two pages of a record share a
    file. *)
Theorem page_file_inj (dir : string) (bk pg tot i j : Z) :
  i ≠ j → page_file dir bk pg i tot ≠ page_file dir bk pg j tot.
Proof. intros Hne Heq%page_file_eq. done. Qed.

End DistinctNames.

Lemma pdf_name_inj_witness :
  output_path "/home/user/Downloads" (pdf_name 500 10)
  ≠ output_path "/home/user/Downloads" (pdf_name 5000 1).
Proof. apply pdf_name_inj. left. lia. Defined.

Lemma page_file_inj_witness :
  page_file "/tmp/tmp1" 500 10 10 100 ≠ page_file "/tmp/tmp1" 500 10 100 100.
Proof. apply page_file_inj. lia. Defined.


(* ===================================================================== *)
(** * The way to the viewer *)
(* ===================================================================== *)

Section WayToViewer.

Context (E : environment) (book page : Z) (output_dir : string).

#[local] Arguments String.append : simpl nomatch.



End WayToViewer.

(* ===================================================================== *)
(** * The temporary directory, for any number of pages *)
(* ===================================================================== *)

Section PageDirectoryAll.

Context (token : N) (bk pg tot : Z) (bodies : list string).

#[local] Arguments String.append : simpl nomatch.

Let t := tmp_dir_name token.
Let n := length bodies.
Let l := zip (seqZ 1 (Z.of_nat n)) bodies.








End PageDirectoryAll.

(* ===================================================================== *)
(** * An attempt that returns, for any number of pages *)
(* ===================================================================== *)

Section ReturningAttempt.

Context (E : environment) (book page : Z) (output_dir : string).

#[local] Arguments String.append : simpl nomatch.

Lemma sorted_perm (l : list string) : Py.sorted l ≡ₚ l.
Proof. unfold Py.sorted. apply merge_sort_Permutation. Qed.



End ReturningAttempt.

(* ===================================================================== *)
(** * The document of an attempt that returns *)
(* ===================================================================== *)

Section ReturnedDocument.

Context (E : environment) (book page : Z) (output_dir : string).

#[local] Arguments String.append : simpl nomatch.





End ReturnedDocument.


(* ===================================================================== *)
(** * The interactions of an attempt that returns *)
(* ===================================================================== *)

Section Trace.

Context (E : environment) (book page : Z) (output_dir : string).

#[local] Arguments String.append : simpl nomatch.


End Trace.


(* ===================================================================== *)
(** * What the program does to the files *)
(* ===================================================================== *)

Section Files.

Context (E : environment).

#[local] Arguments String.append : simpl nomatch.

(** A computation that only adds interactions that keep the files leaves
    the file system as it was. *)
Lemma emits_keeps_fs {A} (m : M A) (w : world) :
  emits_only keeps_files m → fs (m w).2 = fs w.
Proof. intros Hm. destruct (Hm w) as (d & _ & Hok & _ & Hfs). auto. Qed.

Lemma quiet_Browser driver : emits_only keeps_files (Browser E driver).
Proof. by apply emits_Browser. Qed.

Lemma quiet_visit b url : emits_only keeps_files (visit E b url).
Proof. unfold visit. emits. Qed.

Lemma quiet_go_to_search_page b book : emits_only keeps_files (_go_to_search_page E b book).
Proof. unfold _go_to_search_page, sleep, mouse_over, click. emits. Qed.

Lemma quiet_fill_in_search_terms b book page :
  emits_only keeps_files (_fill_in_search_terms E b book page).
Proof. unfold _fill_in_search_terms, fill, click. emits. Qed.

Lemma quiet_select_document b : emits_only keeps_files (_select_document E b).
Proof. unfold _select_document, sleep, click, next_window. emits. Qed.

Lemma quiet_create_session b : emits_only keeps_files (_create_session E b).
Proof. unfold _create_session, cookies_all. emits. Qed.

Lemma quiet_get_number_of_pages b : emits_only keeps_files (_get_number_of_pages E b).
Proof.
  unfold _get_number_of_pages, value_of.
  apply emits_bind; [emits|]. intros v. destruct (Py.int _); emits.
Qed.

Lemma quiet_get_page_url b : emits_only keeps_files (_get_page_url E b).
Proof. unfold _get_page_url, sleep, attr_of. emits. Qed.

Lemma quiet_go_to_next_page b : emits_only keeps_files (_go_to_next_page E b).
Proof. unfold _go_to_next_page, click, sleep. emits. Qed.

(** The two ways [session.get] ends. *)
Lemma session_get_run session url w :
  (∃ ex, session_get E session url w = (Raise ex, log (EvRaise ex) w))
  ∨ session_get E session url w
    = (Ok (http_body E (history w) session url),
       log (EvGet session url (http_body E (history w) session url)) w).
Proof.
  unfold session_get. cbv [bind fallible raise ask emit ret].
  destruct (fault E (history w)); [left; by eexists|by right].
Qed.

Lemma substring_prefix (n : nat) (s : string) :
  String.prefix (String.substring 0 n s) s = true.
Proof.
  revert n. induction s as [|c s IH]; intros [|n]; cbn; try done.
  destruct (Ascii.ascii_dec c c); [apply IH|done].
Qed.

(** The three ways the writing of a file ends: the opening raises and
    nothing has changed; the file was opened and the writing raises, which
    leaves a first part of the data in the file; or the data are
    written. *)
Lemma write_binary_run path data w :
  let d := (Py.os_path_split path).1 in
  let n := (Py.os_path_split path).2 in
  let w1 := World (fs w) (live_browsers w) (history w ++ [EvOpen path]) in
  (∃ ex, write_binary E path data w = (Raise ex, log (EvRaise ex) w)
         ∧ (fault E (history w) = None → fs w !! d = None ∨ n = "")
         ∧ (fault E (history w) = None → fs w !! d = None →
            ex = Exc FileNotFoundError path))
  ∨ (∃ ex entries part,
       fs w !! d = Some entries
       ∧ fault E (history w1) = Some ex
       ∧ String.prefix part data = true
       ∧ write_binary E path data w
         = (Raise ex,
            log (EvRaise ex)
                (World (<[d := <[n := Raw part]> entries]> (fs w))
                       (live_browsers w) (history w1))))
  ∨ (∃ entries,
       fs w !! d = Some entries
       ∧ write_binary E path data w
         = (Ok tt,
            log (EvWrite path data)
                (World (<[d := <[n := Raw data]> entries]> (fs w))
                       (live_browsers w) (history w1)))).
Proof.
  unfold write_binary, store, overwrite.
  cbv [bind fallible raise ask get_fs set_fs emit].
  destruct (fault E (history w)); [left; eexists; split_and!; done|].
  destruct (Py.os_path_split path) as [d n]. cbn [fst snd].
  destruct (fs w !! d) as [entries|]; [|left; eexists; split_and!; by auto].
  case_bool_decide as Hn; [left; eexists; split_and!; by auto|].
  right. unfold log. cbn [fs history live_browsers].
  destruct (fault E (history w ++ [EvOpen path])) as [ex|];
    cbn [fs history live_browsers]; rewrite lookup_insert_eq, !insert_insert_eq.
  - left. exists ex, entries. eexists. split; [done|]. split; [done|].
    split; [apply substring_prefix|done].
  - right. by exists entries.
Qed.

(** The ways [_download_image] ends. *)
Lemma download_image_ends (session : list (string * string))
    (url directory img_name : string) (img_range : Z * Z) (w : world) :
  let path := image_file_path directory img_name in
  let body := http_body E (history w) session url in
  let r := _download_image E session url directory img_name img_range w in
  ((r.1 = Ok tt
    ∧ history r.2 = history w
        ++ [EvGet session url body; EvOpen path; EvWrite path body;
            EvPrint ("Downloaded page " +:+ Py.str_int img_range.1
                       +:+ " of " +:+ Py.str_int img_range.2)]
    ∧ (∃ entries,
         fs w !! (Py.os_path_split path).1 = Some entries
         ∧ fs r.2 = <[(Py.os_path_split path).1 :=
                        <[(Py.os_path_split path).2 := Raw body]> entries]> (fs w))
    ∧ file_at (fs r.2) path = Some (Raw body))
   ∨ (∃ ex, r.1 = Raise ex
        ∧ fs r.2 = fs w
        ∧ (history r.2 = history w ++ [EvRaise ex]
           ∨ history r.2 = history w ++ [EvGet session url body; EvRaise ex]))
   ∨ (∃ ex entries part, r.1 = Raise ex
        ∧ history r.2 = history w ++ [EvGet session url body; EvOpen path; EvRaise ex]
        ∧ fs w !! (Py.os_path_split path).1 = Some entries
        ∧ String.prefix part body = true
        ∧ fs r.2 = <[(Py.os_path_split path).1 :=
                       <[(Py.os_path_split path).2 := Raw part]> entries]> (fs w)))
  ∧ (fault E (history w) = None →
     fault E (history w ++ [EvGet session url body]) = None →
     fs w !! (Py.os_path_split path).1 = None →
     ∃ msg, r.1 = Raise (Exc FileNotFoundError msg)).
Proof.
  intros path body r. subst r. unfold _download_image. fold path.
  rewrite bind_run.
  destruct (session_get_run session url w) as [[ex Hr]|Hr]; rewrite Hr.
  { split.
    - right. left. exists ex. cbn [fst snd log fs history]. auto.
    - intros Hf. unfold session_get in Hr. cbv [bind fallible raise ask emit ret] in Hr.
      by rewrite Hf in Hr. }
  fold body. rewrite bind_run.
  destruct (write_binary_run path body (log (EvGet session url body) w))
    as [(ex & Hw & _ & Hmissing)|[(ex & entries & part & Hdir & _ & Hpart & Hw)
                                 |(entries & Hdir & Hw)]];
    rewrite Hw.
  { split.
    - right. left. exists ex. cbn [fst snd log fs history]. rewrite <-app_assoc. auto.
    - intros _ Hf Hnone. cbn [fst]. exists path. f_equal. by apply Hmissing. }
  { cbn [log fs] in Hdir. split.
    - right. right. exists ex, entries, part.
      cbn [fst snd log fs history]. rewrite <-!app_assoc. done.
    - intros _ _ Hnone. congruence. }
  cbn [log fs] in Hdir. split.
  - left. cbv [print emit log fst snd fs history live_browsers].
    split; [done|]. split; [by rewrite <-!app_assoc|].
    split; [by exists entries|].
    unfold file_at. destruct (Py.os_path_split path) as [d n]. cbn [fst snd].
    by rewrite !lookup_insert_eq.
  - intros _ _ Hnone. congruence.
Qed.

(** X7. The ways [_download_image] ends.  Either it returns: it has asked
    for the image with the cookies of the session, opened the file
    [os.path.join(directory, img_name + '.jpg')], whose directory was
    there, written the bytes received, and nothing else, to it, and then
    printed its progress line; the file holds these bytes.  Or it raises
    in the request or when it opens the file: the file system is as it
    was.  Or it raises after the file was opened, while it writes or
    closes it: the file is there and holds a first part of the bytes
    received, maybe none, whatever it held before, and the rest of the
    file system is as it was.  When it raises no progress line is printed.
    When nothing else fails and the directory of the file is missing, it
    raises [FileNotFoundError]. *)
Theorem download_image_outcome (session : list (string * string))
    (url directory img_name : string) (img_range : Z * Z) (w : world) :
  let path := image_file_path directory img_name in
  let body := http_body E (history w) session url in
  let r := _download_image E session url directory img_name img_range w in
  ((r.1 = Ok tt
    ∧ history r.2 = history w
        ++ [EvGet session url body; EvOpen path; EvWrite path body;
            EvPrint ("Downloaded page " +:+ Py.str_int img_range.1
                       +:+ " of " +:+ Py.str_int img_range.2)]
    ∧ (∃ entries,
         fs w !! (Py.os_path_split path).1 = Some entries
         ∧ fs r.2 = <[(Py.os_path_split path).1 :=
                        <[(Py.os_path_split path).2 := Raw body]> entries]> (fs w))
    ∧ file_at (fs r.2) path = Some (Raw body))
   ∨ (∃ ex, r.1 = Raise ex
        ∧ fs r.2 = fs w
        ∧ (history r.2 = history w ++ [EvRaise ex]
           ∨ history r.2 = history w ++ [EvGet session url body; EvRaise ex]))
   ∨ (∃ ex entries part, r.1 = Raise ex
        ∧ history r.2 = history w ++ [EvGet session url body; EvOpen path; EvRaise ex]
        ∧ fs w !! (Py.os_path_split path).1 = Some entries
        ∧ String.prefix part body = true
        ∧ fs r.2 = <[(Py.os_path_split path).1 :=
                       <[(Py.os_path_split path).2 := Raw part]> entries]> (fs w)))
  ∧ (fault E (history w) = None →
     fault E (history w ++ [EvGet session url body]) = None →
     fs w !! (Py.os_path_split path).1 = None →
     ∃ msg, r.1 = Raise (Exc FileNotFoundError msg)).
Proof. apply download_image_ends. Qed.

(** The page loop, whatever its outcome, changes nothing but the entries
    of its directory, where it stores files of pages. *)
Lemma fetch_pages_fs b session (token : N) bk pg tot (fuel : nat) :
  ∀ curr w entries,
    fs w !! tmp_dir_name token = Some entries →
    ∃ l, fs (fetch_pages E fuel b session (tmp_dir_name token) bk pg tot curr w).2
         = <[tmp_dir_name token := add_page_files bk pg tot entries l]> (fs w).
Proof.
  induction fuel as [|fuel IH]; intros curr w entries Hdir.
  { exists []. cbn. by rewrite insert_id. }
  cbn [fetch_pages]. case_bool_decide; [|exists []; cbn; by rewrite insert_id].
  rewrite bind_run.
  pose proof (emits_keeps_fs (_get_page_url E b) w (quiet_get_page_url b)) as Hfs1.
  destruct (_get_page_url E b w) as [[url|ex] w1]; cbn [snd] in Hfs1;
    [|exists []; cbn; by rewrite Hfs1, insert_id].
  rewrite bind_run.
  destruct (download_image_ends session url (tmp_dir_name token)
              (page_name (tmp_dir_name token) bk pg curr tot) (curr, tot) w1)
    as [Hout _]. cbv zeta in Hout.
  fold (page_file (tmp_dir_name token) bk pg curr tot) in Hout.
  rewrite page_file_tmp in Hout.
  rewrite os_path_split_file in Hout
    by (apply tmp_dir_name_plain || apply page_basename_no_slash).
  cbn [fst snd] in Hout.
  destruct (_download_image E session url _ _ _ w1) as [[[]|ex] w2];
    cbn [fst snd] in Hout.
  2:{ destruct Hout as [(? & _)|[(ex' & _ & Hfs2 & _)
                                 |(ex' & entries' & part & _ & _ & Hdir' & _ & Hfs2)]];
        [done| |].
      - exists []. cbn. by rewrite Hfs2, Hfs1, insert_id.
      - rewrite Hfs1, Hdir in Hdir'. injection Hdir' as <-.
        exists [(curr, part)]. cbn. by rewrite Hfs2, Hfs1. }
  destruct Hout as [(_ & _ & (entries' & Hdir' & Hfs2) & _)|[(ex' & ? & _)|(ex' & ? & ? & ? & _)]];
    [|done..].
  rewrite Hfs1, Hdir in Hdir'. injection Hdir' as <-.
  rewrite bind_run.
  set (step := if bool_decide (curr ≠ tot) then _go_to_next_page E b else ret tt).
  assert (fs (step w2).2 = fs w2) as Hfs3.
  { subst step. case_bool_decide; [|done].
    apply emits_keeps_fs, quiet_go_to_next_page. }
  destruct (step w2) as [[[]|ex] w3]; cbn [snd] in Hfs3.
  2:{ exists [(curr, http_body E (history w1) session url)]. cbn [snd].
      by rewrite Hfs3, Hfs2, Hfs1. }
  destruct (IH (curr + 1)%Z w3
              (<[page_basename bk pg curr tot := Raw (http_body E (history w1) session url)]>
                 entries)) as [l Hl].
  { rewrite Hfs3, Hfs2. apply lookup_insert_eq. }
  exists ((curr, http_body E (history w1) session url) :: l).
  rewrite Hl, Hfs3, Hfs2, Hfs1. by rewrite insert_insert_eq.
Qed.

Lemma unlink_other (f : gmap string (gmap string file)) (path d : string) :
  d ≠ (Py.os_path_split path).1 → unlink f path !! d = f !! d.
Proof.
  intros Hd. unfold unlink. destruct (f !! _); [|done]. by rewrite lookup_insert_ne.
Qed.

Lemma unlink_all_other (l : list string) (t d : string) :
  ∀ f : gmap string (gmap string file),
    Forall (λ p, (Py.os_path_split p).1 = t) l → d ≠ t →
    foldl unlink f l !! d = f !! d.
Proof.
  induction l as [|p l IH]; intros f Hl Hd; [done|].
  apply Forall_cons in Hl as [Hp Hl]. cbn [foldl].
  rewrite IH by done. apply unlink_other. congruence.
Qed.

(** The loop over the images, whatever its outcome, has removed the first
    images of the list and changed nothing else. *)
Lemma add_images_fs (images : list string) :
  ∀ pdf w, ∃ k, fs (add_images E pdf images w).2 = foldl unlink (fs w) (take k images).
Proof.
  induction images as [|image rest IH]; intros pdf w; [by exists 0%nat|].
  cbn [add_images]. rewrite bind_run.
  destruct (pdf_image_run E (add_page pdf) image 0 0 8.5 11 w)
    as [[ex ->]|(data & pdf' & _ & _ & ->)]; [by exists 0%nat|].
  rewrite bind_run.
  destruct (os_remove_run E image (log (EvImage image) w)) as [[ex ->]| ->];
    [by exists 0%nat|].
  destruct (IH pdf' (log (EvRemove image)
                         (World (unlink (fs (log (EvImage image) w)) image)
                                (live_browsers (log (EvImage image) w))
                                (history (log (EvImage image) w))))) as [k Hk].
  exists (S k). rewrite Hk. done.
Qed.

Lemma add_page_files_keys bk pg tot (l : list (Z * string)) (n : string) :
  ∀ entries : gmap string file,
    is_Some (add_page_files bk pg tot entries l !! n) →
    is_Some (entries !! n) ∨ ∃ i, n = page_basename bk pg i tot.
Proof.
  induction l as [|p l IH]; intros entries Hn; [by left|].
  change (add_page_files bk pg tot entries (p :: l))
    with (add_page_files bk pg tot (<[page_basename bk pg p.1 tot := Raw p.2]> entries) l)
    in Hn.
  apply IH in Hn as [Hn|Hn]; [|by right].
  destruct (decide (page_basename bk pg p.1 tot = n)) as [<-|Hne]; [right; by eexists|].
  left. by rewrite lookup_insert_ne in Hn.
Qed.

(** What [glob] finds in the temporary directory lies in it. *)
Lemma glob_in_dir (f : gmap string (gmap string file)) (token : N) bk pg tot
    (l : list (Z * string)) :
  f !! tmp_dir_name token = Some (add_page_files bk pg tot ∅ l) →
  Forall (λ p, (Py.os_path_split p).1 = tmp_dir_name token)
         (Py.sorted (glob f (Py.os_path_join (tmp_dir_name token) "*.jpg"))).
Proof.
  intros Hf. rewrite sorted_perm.
  rewrite os_path_join_plain by (apply tmp_dir_name_plain || done).
  unfold glob. rewrite os_path_split_file by (apply tmp_dir_name_plain || done).
  rewrite Hf. apply Forall_fmap, Forall_forall. intros n Hn. cbv beta.
  unfold compose.
  apply list_elem_of_In, filter_In in Hn as [Hn _]. apply list_elem_of_In in Hn.
  apply list_elem_of_fmap in Hn as ([n' x] & -> & Hx). cbn [fst].
  apply elem_of_map_to_list in Hx.
  destruct (add_page_files_keys bk pg tot l n' ∅) as [[? Hempty]|[i ->]]; [by eexists| |].
  { by rewrite lookup_empty in Hempty. }
  rewrite os_path_join_page by apply tmp_dir_name_plain.
  by rewrite os_path_split_file
    by (apply tmp_dir_name_plain || apply page_basename_no_slash).
Qed.

Lemma frame_post_raise {A} t f0 path ex (w : world) :
  (∀ d, d ≠ t → fs w !! d = f0 !! d) → frame_post (A:=A) t f0 path (Raise ex, w).
Proof. intros Hw. by exists (fs w). Qed.

(** A stretch that keeps the files, before the rest of the attempt. *)
Lemma frame_post_bind {A B} (m : M A) (k : A → M B) t f0 path (w : world) :
  emits_only keeps_files m →
  (∀ d, d ≠ t → fs w !! d = f0 !! d) →
  (∀ a w1, fs w1 = fs w → frame_post t f0 path (k a w1)) →
  frame_post t f0 path (bind m k w).
Proof.
  intros Hm Hw Hk. rewrite bind_run.
  pose proof (emits_keeps_fs m w Hm) as Hfs.
  destruct (m w) as [[a|ex] w1]; cbn [snd] in Hfs; [by apply Hk|].
  apply frame_post_raise. by rewrite Hfs.
Qed.

(** [_create_pdf] on the temporary directory of an attempt. *)
Lemma create_pdf_frame (token : N) bk pg tot (l : list (Z * string))
    (output_dir name : string) (w : world) :
  fs w !! tmp_dir_name token = Some (add_page_files bk pg tot ∅ l) →
  frame_post (tmp_dir_name token) (fs w) (output_path output_dir name)
             (_create_pdf E (tmp_dir_name token) output_dir name w).
Proof.
  intros Hdir. unfold _create_pdf. rewrite bind_run. cbn [bind get_fs ret].
  rewrite bind_run.
  pose proof (glob_in_dir (fs w) token bk pg tot l Hdir) as Hin.
  set (images := Py.sorted _) in *.
  destruct (add_images_fs images (Fpdf "in" "letter" []) w) as [k Hk].
  assert (∀ d, d ≠ tmp_dir_name token →
            fs (add_images E (Fpdf "in" "letter" []) images w).2 !! d = fs w !! d) as Hout.
  { intros d Hd. rewrite Hk. apply (unlink_all_other _ (tmp_dir_name token)); [|done].
    by apply Forall_take. }
  destruct (add_images E _ images w) as [[doc|ex] w1]; cbn [snd] in Hout;
    [|by apply frame_post_raise].
  destruct (pdf_output_run E doc (output_path output_dir name) w1) as [[ex Hr]|[w2 Hr]].
  { rewrite Hr. by apply frame_post_raise. }
  rewrite Hr. apply pdf_output_Ok in Hr as (_ & _ & _ & entries & He & Hfs).
  exists (fs w1). split; [done|]. cbn [fst snd]. by exists (fpdf_close doc), entries.
Qed.

End Files.

(* ===================================================================== *)
(** * An attempt leaves nothing behind but the artifact *)
(* ===================================================================== *)

Section AttemptFiles.

Context (E : environment) (book page : Z) (output_dir : string).

#[local] Arguments String.append : simpl nomatch.

Lemma frame_post_mono {A} t f0 f1 path (r : result A * world) :
  (∀ d, d ≠ t → f1 !! d = f0 !! d) → frame_post t f1 path r → frame_post t f0 path r.
Proof.
  intros H01 (f3 & H3 & Hr). exists f3. split; [|done].
  intros d Hd. by rewrite H3, H01.
Qed.

Ltac quiet_step lem H :=
  apply frame_post_bind;
    [apply lem | intros ? ?; by rewrite H | ];
  let H' := fresh "Hfs" in
  intros ? ? H'; rewrite H in H'; clear H; rename H' into H.

(** The block of an attempt in its new directory. *)
Lemma block_frame (token : N) (w : world) :
  fs w !! tmp_dir_name token = Some ∅ →
  frame_post (tmp_dir_name token) (fs w) (output_path output_dir (pdf_name book page))
             (download_pdf_block E book page output_dir (tmp_dir_name token) w).
Proof.
  intros Hdir. unfold download_pdf_block.
  set (f0 := fs w). assert (fs w = f0) as Hfs by done.
  assert (f0 !! tmp_dir_name token = Some ∅) as Hdir0 by done. clearbody f0. clear Hdir.
  quiet_step quiet_Browser Hfs.
  quiet_step quiet_visit Hfs.
  quiet_step quiet_go_to_search_page Hfs.
  quiet_step quiet_fill_in_search_terms Hfs.
  quiet_step quiet_select_document Hfs.
  quiet_step quiet_create_session Hfs.
  quiet_step quiet_get_number_of_pages Hfs.
  rewrite bind_run.
  match goal with
  | |- context [fetch_pages E ?fuel ?b ?s _ _ _ ?tot ?c ?w1] =>
      destruct (fetch_pages_fs E b s token book page tot fuel c w1 ∅) as [l Hl];
        [by rewrite Hfs|];
      destruct (fetch_pages E fuel b s (tmp_dir_name token) book page tot c w1)
        as [[[]|ex] wl]; cbn [snd] in Hl;
        [eapply frame_post_mono; [|apply (create_pdf_frame E token book page tot l)]|]
  end.
  - intros d Hd. by rewrite Hl, lookup_insert_ne, Hfs.
  - rewrite Hl. apply lookup_insert_eq.
  - apply frame_post_raise. intros d Hd. by rewrite Hl, lookup_insert_ne, Hfs.
Qed.

(** What an attempt does to the files. *)
Lemma attempt_files (w : world) :
  let r := download_pdf E book page output_dir w in
  let path := output_path output_dir (pdf_name book page) in
  match r.1 with
  | Raise _ => fs r.2 = fs w
  | Ok _ => only_artifact path (fs w) (fs r.2)
  end.
Proof.
  intros r path. subst r.
  destruct (download_pdf_run_mkdtemp E book page output_dir w)
    as [(ex & Hr & _)|(_ & Hfree & Hr)]; rewrite Hr; [done|]. clear Hr.
  set (token := tmp_token E _) in *. set (t := tmp_dir_name token) in *.
  set (w0 := log (EvMkdtemp t) _).
  assert (fs w0 = <[t := ∅]> (fs w)) as Hfs0 by done.
  destruct (block_frame token w0) as (f3 & H3 & Hres).
  { rewrite Hfs0. apply lookup_insert_eq. }
  fold t path in Hres, H3.
  assert (∀ d, d ≠ t → f3 !! d = fs w !! d) as H3'.
  { intros d Hd. by rewrite H3, Hfs0, lookup_insert_ne. }
  destruct (download_pdf_block E book page output_dir t w0) as [[[]|ex] w2];
    cbn [fst snd] in *; cbn [cleanup log fs].
  - destruct Hres as (doc & entries & He & ->). split.
    + intros d Hd. destruct (decide (d = t)) as [->|Hdt].
      * by rewrite lookup_delete_eq.
      * by rewrite lookup_delete_ne, lookup_insert_ne, H3'.
    + intros entries0 He0.
      assert ((Py.os_path_split path).1 ≠ t) as Hne by congruence.
      rewrite H3', He0 in He by done. injection He as <-.
      exists doc. apply map_eq. intros d.
      destruct (decide (d = t)) as [->|Hdt].
      * by rewrite lookup_delete_eq, lookup_insert_ne.
      * rewrite lookup_delete_ne by done.
        destruct (decide (d = (Py.os_path_split path).1)) as [->|Hd].
        -- by rewrite !lookup_insert_eq.
        -- by rewrite !lookup_insert_ne, H3'.
  - rewrite Hres. apply map_eq. intros d.
    destruct (decide (d = t)) as [->|Hdt].
    + by rewrite lookup_delete_eq.
    + by rewrite lookup_delete_ne, H3'.
Qed.




End AttemptFiles.

(* ===================================================================== *)
(** * The attempts of [main] *)
(* ===================================================================== *)

Section MainLoop.

Context (E : environment) (book page : Z) (dir : string).

#[local] Arguments String.append : simpl nomatch.

Lemma attempt_event_not_report e :
  attempt_event book page dir e = true → is_failure_report e = false.
Proof.
  destruct e; try done. simpl. intros Hp.
  apply bool_decide_eq_false_2. by intros ->.
Qed.

(** One attempt is one attempt start; it prints neither report. *)
Lemma download_pdf_counts_all w :
  ∃ d, history (download_pdf E book page dir w).2 = history w ++ d
       ∧ attempts d = 1%nat ∧ success_reports d = 0%nat ∧ failure_reports d = 0%nat.
Proof.
  destruct (download_pdf_history E book page dir w) as (d & Hd & Hok & _).
  exists (EvPrint (trying_line book page) :: d). split; [done|].
  unfold attempts, success_reports, failure_reports.
  cbn [List.filter is_attempt_start is_success_report is_failure_report].
  unfold trying_line at 1. rewrite str_prefix_app.
  rewrite (filter_nil_forallb _ _ d (attempt_event_not_start book page dir) Hok).
  rewrite (filter_nil_forallb _ _ d (attempt_event_not_success book page dir) Hok).
  rewrite (filter_nil_forallb _ _ d attempt_event_not_report Hok).
  rewrite !bool_decide_eq_false_2; [done|..]; unfold trying_line; by cbn [String.append].
Qed.

(** X10. [main] passes on at once what [except Exception] does not catch: when
    an attempt, the first or one after failed attempts, raises an
    exception of a class outside [Exception] ([KeyboardInterrupt],
    [SystemExit]), the run ends there with that exception; nothing is
    reported and no further attempt is made. *)
Theorem main_passes_on_interrupt (max : Z) (k : nat) (w wk w' : world) (ex : exception) :
  (Z.of_nat k ≤ max)%Z →
  after_failures E book page dir k w = Some wk →
  download_pdf E book page dir wk = (Raise ex, w') →
  is_Exception ex = false →
  run E max book page dir w = (Raise ex, w').
Proof.
  intros Hk Hfail Hrun Hex. unfold run, bind at 1.
  rewrite (retry_loop_failures E book page dir max k 0 w wk Hfail) by lia.
  replace (Z.to_nat (max + 1 - (0 + Z.of_nat k)))
    with (S (Z.to_nat (max - Z.of_nat k))) by lia.
  cbn [retry_loop]. rewrite bool_decide_eq_true_2 by lia.
  unfold try_except, bind. by rewrite Hrun, Hex.
Qed.

Lemma last_app_nonempty {A} (l1 l2 : list A) (x : A) :
  l2 ≠ [] → List.last (l1 ++ l2) x = List.last l2 x.
Proof.
  intros Hne. induction l1 as [|a l1 IH]; [done|].
  cbn [app List.last]. rewrite IH. destruct (l1 ++ l2) eqn:Happ; [|done].
  by apply app_eq_nil in Happ as [_ ->].
Qed.

Lemma report_lines_counts (ex : exception) :
  let d := [EvPrint "Error! Retrying";
            EvPrint ("Exception:" +:+ nl +:+ str_exception ex +:+ nl)] in
  attempts d = 0%nat ∧ success_reports d = 0%nat ∧ failure_reports d = 1%nat.
Proof.
  unfold attempts, success_reports, failure_reports.
  cbn [List.filter is_attempt_start is_success_report is_failure_report].
  rewrite (bool_decide_eq_true_2 ("Error! Retrying" = "Error! Retrying")) by done.
  rewrite !bool_decide_eq_false_2 by (cbn [String.append]; done).
  done.
Qed.

Lemma success_line_counts :
  let d := [EvPrint "Success!"] in
  attempts d = 0%nat ∧ success_reports d = 1%nat ∧ failure_reports d = 0%nat.
Proof.
  unfold attempts, success_reports, failure_reports.
  cbn [List.filter is_attempt_start is_success_report is_failure_report].
  rewrite (bool_decide_eq_true_2 ("Success!" = "Success!")) by done.
  rewrite !bool_decide_eq_false_2 by done.
  done.
Qed.

Lemma attempts_app d1 d2 : attempts (d1 ++ d2) = (attempts d1 + attempts d2)%nat.
Proof. unfold attempts. by rewrite List.filter_app, length_app. Qed.
Lemma success_reports_app d1 d2 :
  success_reports (d1 ++ d2) = (success_reports d1 + success_reports d2)%nat.
Proof. unfold success_reports. by rewrite List.filter_app, length_app. Qed.
Lemma failure_reports_app d1 d2 :
  failure_reports (d1 ++ d2) = (failure_reports d1 + failure_reports d2)%nat.
Proof. unfold failure_reports. by rewrite List.filter_app, length_app. Qed.

Lemma retry_loop_counts (max : Z) (fuel : nat) :
  ∀ retries w,
    let r := retry_loop E max fuel book page dir retries w in
    let n := Nat.min fuel (Z.to_nat (max + 1 - retries)) in
    ∃ d, history r.2 = history w ++ d
      ∧ match r.1 with
        | Ok (Some _) =>
            attempts d = S (failure_reports d) ∧ success_reports d = 1%nat
            ∧ (attempts d ≤ n)%nat ∧ List.last d (EvPrint "") = EvPrint "Success!"
        | Ok None =>
            attempts d = n ∧ failure_reports d = n ∧ success_reports d = 0%nat
        | Raise ex =>
            is_Exception ex = false
            ∧ attempts d = S (failure_reports d) ∧ success_reports d = 0%nat
            ∧ (attempts d ≤ n)%nat
        end.
Proof.
  induction fuel as [|fuel IH]; intros retries w; cbv zeta.
  { exists []. cbn. by rewrite app_nil_r. }
  cbn [retry_loop]. case_bool_decide as Hle.
  2:{ exists []. cbn [ret fst snd]. rewrite app_nil_r. split; [done|].
      replace (Z.to_nat (max + 1 - retries)) with 0%nat by lia.
      by rewrite Nat.min_0_r. }
  replace (Nat.min (S fuel) (Z.to_nat (max + 1 - retries)))
    with (S (Nat.min fuel (Z.to_nat (max + 1 - (retries + 1))))) by lia.
  unfold try_except. rewrite bind_run.
  destruct (download_pdf_counts_all w) as (d1 & Hd1 & Ha1 & Hs1 & Hf1).
  destruct (download_pdf E book page dir w) as [[v|ex] w1] eqn:Hrun; cbn [snd] in Hd1.
  - exists (d1 ++ [EvPrint "Success!"]). cbv [print emit bind ret]. cbn [fst snd log history].
    split; [by rewrite Hd1, <-app_assoc|].
    destruct success_line_counts as (Ha0 & Hs0 & Hf0).
    rewrite attempts_app, success_reports_app, failure_reports_app, last_last.
    rewrite Ha1, Hs1, Hf1, Ha0, Hs0, Hf0. split_and!; [done|done|lia|done].
  - destruct (is_Exception ex) eqn:Hex.
    2:{ exists d1. cbn [fst snd]. split; [done|].
        rewrite Ha1, Hs1, Hf1. split_and!; [done|done|done|lia]. }
    cbv [print emit]. rewrite !bind_run.
    match goal with
    | |- context [retry_loop E max fuel book page dir ?r ?w2] =>
        destruct (IH r w2) as (d2 & Hd2 & Hres); cbv zeta in Hres;
        destruct (retry_loop E max fuel book page dir r w2) as [[[v|]|ex'] w3]
    end; cbn [fst snd log history] in *;
      exists (d1 ++ [EvPrint "Error! Retrying";
                     EvPrint ("Exception:" +:+ nl +:+ str_exception ex +:+ nl)] ++ d2);
      (split; [by rewrite Hd2, Hd1, <-!app_assoc|]);
      destruct (report_lines_counts ex) as (Ha0 & Hs0 & Hf0); cbv zeta in Ha0, Hs0, Hf0;
      rewrite !attempts_app, !success_reports_app, !failure_reports_app;
      rewrite Ha1, Hs1, Hf1, Ha0, Hs0, Hf0.
    + destruct Hres as (Ha2 & Hs2 & Hn2 & Hlast). split_and!; [lia|lia|lia|].
      rewrite app_assoc, last_app_nonempty; [done|].
      intros ->. by cbn in Ha2.
    + destruct Hres as (Ha2 & Hf2 & Hs2). split_and!; lia.
    + destruct Hres as (Hex' & Ha2 & Hs2 & Hn2). split_and!; [done|lia|lia|lia].
Qed.

(** X11. The attempts of [main], whatever happens, for any bound [max] on the
    retries.  It makes at most [max + 1] attempts.  It returns only right
    after printing [Success!], which it prints once, and every attempt
    before the last was reported as failed.  It raises an exception under
    [Exception] only as its terminal error, after [max + 1] attempts that
    were all reported, also the last one, after which no retry follows.
    Any other exception comes from the last attempt, which was not
    reported.  Unless it returns, it never prints [Success!]. *)
Theorem main_attempts (max : Z) (w : world) :
  let r := run E max book page dir w in
  ∃ d, history r.2 = history w ++ d
    ∧ (attempts d ≤ Z.to_nat (max + 1))%nat
    ∧ match r.1 with
      | Ok _ =>
          attempts d = S (failure_reports d) ∧ success_reports d = 1%nat
          ∧ List.last d (EvPrint "") = EvPrint "Success!"
      | Raise ex =>
          success_reports d = 0%nat
          ∧ if is_Exception ex
            then ex = terminal_error
                 ∧ attempts d = Z.to_nat (max + 1)
                 ∧ failure_reports d = Z.to_nat (max + 1)
            else attempts d = S (failure_reports d)
      end.
Proof.
  intros r. subst r. unfold run. rewrite bind_run.
  destruct (retry_loop_counts max (Z.to_nat (max + 1 - 0)) 0 w) as (d & Hd & Hres).
  cbv zeta in Hres. replace (max + 1 - 0)%Z with (max + 1)%Z in * by lia.
  rewrite Nat.min_id in Hres.
  destruct (retry_loop E max _ book page dir 0 w) as [[[v|]|ex] w1]; cbn [fst snd] in *.
  - exists d. destruct Hres as (Ha & Hs & Hn & Hlast). split_and!; done.
  - exists (d ++ [EvRaise terminal_error]). cbn [raise fst snd log history].
    split; [by rewrite Hd, <-app_assoc|].
    destruct Hres as (Ha & Hf & Hs).
    rewrite attempts_app, success_reports_app, failure_reports_app, Ha, Hs, Hf.
    cbn. split_and!; [lia|lia|done|lia|lia].
  - exists d. destruct Hres as (Hex & Ha & Hs & Hn). rewrite Hex. split_and!; done.
Qed.

End MainLoop.

Lemma main_passes_on_interrupt_witness :
  let stop := λ h : list event,
    if bool_decide (length h = 20%nat) then Some (Exc KeyboardInterrupt "") else None in
  ∃ w', main (site 3 stop) (Args "/home/user/Downloads" 500 10) home
        = (Raise (Exc KeyboardInterrupt ""), w')
        ∧ attempts (history w') = 1%nat.
Proof.
  intros stop.
  assert (∃ w', download_pdf (site 3 stop) 500 10 "/home/user/Downloads" home
                = (Raise (Exc KeyboardInterrupt ""), w')
                ∧ attempts (history w') = 1%nat) as (w' & Hrun & Hcount).
  { eexists. split; [vm_compute; reflexivity|]. by vm_compute. }
  exists w'. split; [|done].
  by apply (main_passes_on_interrupt (site 3 stop) 500 10 "/home/user/Downloads"
              MAX_RETRIES 0 home home w' _ ltac:(done) eq_refl Hrun).
Defined.

(* ===================================================================== *)
(** * No low zoom level is left *)
(* ===================================================================== *)

Section ZoomClean.

#[local] Arguments String.append : simpl nomatch.

(** An occurrence of [ZOOM=1] that ends at position [i], character by
    character. *)
Lemma zoom1_ends_at_get (u : string) (i : nat) :
  zoom1_ends_at u i = true ↔
  (5 ≤ i)%nat
  ∧ String.get (i - 5) u = Some "Z"%char ∧ String.get (i - 4) u = Some "O"%char
  ∧ String.get (i - 3) u = Some "O"%char ∧ String.get (i - 2) u = Some "M"%char
  ∧ String.get (i - 1) u = Some "="%char ∧ String.get i u = Some "1"%char.
Proof.
  unfold zoom1_ends_at. rewrite andb_true_iff, Nat.leb_le, String.eqb_eq. split.
  - intros [Hi Hsub]. split; [done|].
    assert (∀ p, (p < 6)%nat →
              String.get (p + (i - 5)) u = String.get p "ZOOM=1") as Hget.
    { intros p Hp. rewrite <-Hsub. symmetry. by apply String.substring_correct1. }
    pose proof (Hget 0%nat) as H0. pose proof (Hget 1%nat) as H1.
    pose proof (Hget 2%nat) as H2. pose proof (Hget 3%nat) as H3.
    pose proof (Hget 4%nat) as H4. pose proof (Hget 5%nat) as H5.
    replace (0 + (i - 5))%nat with (i - 5)%nat in H0 by lia.
    replace (1 + (i - 5))%nat with (i - 4)%nat in H1 by lia.
    replace (2 + (i - 5))%nat with (i - 3)%nat in H2 by lia.
    replace (3 + (i - 5))%nat with (i - 2)%nat in H3 by lia.
    replace (4 + (i - 5))%nat with (i - 1)%nat in H4 by lia.
    replace (5 + (i - 5))%nat with i in H5 by lia.
    rewrite H0, H1, H2, H3, H4, H5 by lia. done.
  - intros (Hi & H0 & H1 & H2 & H3 & H4 & H5). split; [done|].
    apply String.get_correct. intros p.
    destruct (decide (p < 6)%nat) as [Hp|Hp].
    + rewrite String.substring_correct1 by done.
      do 6 (destruct p as [|p];
            [cbn [Nat.add String.get];
             first [ by replace (0 + (i - 5))%nat with (i - 5)%nat by lia
                   | by replace (S (i - 5)) with (i - 4)%nat by lia
                   | by replace (S (S (i - 5))) with (i - 3)%nat by lia
                   | by replace (S (S (S (i - 5)))) with (i - 2)%nat by lia
                   | by replace (S (S (S (S (i - 5))))) with (i - 1)%nat by lia
                   | by replace (S (S (S (S (S (i - 5)))))) with i by lia ]|]).
      lia.
    + rewrite String.substring_correct2 by lia.
      do 6 (destruct p as [|p]; [lia|]). done.
Qed.

(** X12. After the rewriting no [ZOOM=1] is left in the URL, whatever the URL,
    so that rewriting once more changes nothing. *)
Theorem zoom_url_no_low_zoom (u : string) :
  (∀ i, zoom1_ends_at (zoom_url u) i = false)
  ∧ zoom_url (zoom_url u) = zoom_url u.
Proof.
  assert (∀ i, zoom1_ends_at (zoom_url u) i = false) as Hclean.
  { intros i. apply not_true_is_false. intros Hends.
    apply zoom1_ends_at_get in Hends as (Hi & H0 & H1 & H2 & H3 & H4 & H5).
    destruct (zoom_url_pointwise (String.length u) u (le_n _)) as [_ Hget].
    assert (∀ k c, String.get k (zoom_url u) = Some c → c ≠ "6"%char →
                   String.get k u = Some c) as Hkeep.
    { intros k c Hk Hc. rewrite Hget in Hk. destruct (zoom1_ends_at u k); [|done].
      by injection Hk as <-. }
    assert (zoom1_ends_at u i = true) as Hu.
    { apply zoom1_ends_at_get. split_and!; [done|..]; by apply Hkeep. }
    rewrite Hget, Hu in H5. done. }
  split; [done|].
  apply String.get_correct. intros i.
  destruct (zoom_url_pointwise (String.length (zoom_url u)) (zoom_url u) (le_n _))
    as [_ Hget].
  by rewrite Hget, Hclean.
Qed.

End ZoomClean.

(* ===================================================================== *)
(** * Where the file of a page lies *)
(* ===================================================================== *)

Section PagePaths.

#[local] Arguments String.append : simpl nomatch.

Lemma page_name_jpg (dir : string) (bk pg curr tot : Z) :
  page_name dir bk pg curr tot +:+ ".jpg" = dir +:+ "/" +:+ page_basename bk pg curr tot.
Proof.
  unfold page_name, page_basename.
  by repeat (rewrite str_app_assoc; cbn [String.append]).
Qed.

(** X13. [download_pdf] puts the directory into the name of a page and hands
    both to [_download_image], which joins them again.  For an absolute
    directory, as [tempfile] gives, [os.path.join] drops its first
    argument and the file of the page lies in the directory under its
    plain name.  For a relative directory the directory comes twice in
    the path of the file. *)
Theorem page_file_in_directory (dir : string) (bk pg curr tot : Z) :
  (Py.starts_with "/" dir = true →
   page_file dir bk pg curr tot = dir +:+ "/" +:+ page_basename bk pg curr tot)
  ∧ (Py.starts_with "/" dir = false → dir ≠ "" →
     page_file dir bk pg curr tot
     = dir +:+ (if Py.ends_with "/" dir then "" else "/")
           +:+ dir +:+ "/" +:+ page_basename bk pg curr tot).
Proof.
  unfold page_file, image_file_path. rewrite page_name_jpg.
  unfold Py.os_path_join. destruct dir as [|c dir].
  { split; [done|]. by intros _ []. }
  cbn [String.append]. rewrite !starts_with_char. split.
  - by intros ->.
  - intros -> _. rewrite bool_decide_eq_false_2 by done. cbn [orb].
    by destruct (Py.ends_with "/" (String c dir)).
Qed.

End PagePaths.

Lemma page_file_in_directory_witness :
  page_file "/tmp/tmp1" 500 10 3 12 = "/tmp/tmp1/bk_000500_pg_000010_03_of_12.jpg"
  ∧ page_file "pages" 500 10 3 12 = "pages/pages/bk_000500_pg_000010_03_of_12.jpg".
Proof.
  split.
  - rewrite (proj1 (page_file_in_directory "/tmp/tmp1" 500 10 3 12)); reflexivity.
  - rewrite (proj2 (page_file_in_directory "pages" 500 10 3 12)); [reflexivity..|done].
Defined.

(* ===================================================================== *)
(** * A destination directory that is not there *)
(* ===================================================================== *)

Section MissingDestination.

Context (E : environment) (book page : Z) (output_dir : string).

#[local] Arguments String.append : simpl nomatch.

Let path := output_path output_dir (pdf_name book page).

Lemma attempt_needs_destination (w : world) (v : pyval) (w' : world) :
  fs w !! (Py.os_path_split path).1 = None →
  (∀ token, tmp_dir_name token ≠ (Py.os_path_split path).1) →
  download_pdf E book page output_dir w ≠ (Ok v, w').
Proof.
  intros Hmissing Htmp Hrun.
  destruct (download_pdf_run_mkdtemp E book page output_dir w)
    as [(ex & Hr & _)|(_ & Hfree & Hr)]; rewrite Hr in Hrun; [done|]. clear Hr.
  set (token := tmp_token E _) in *. set (t := tmp_dir_name token) in *.
  set (w0 := log (EvMkdtemp t) _) in *.
  assert (fs w0 = <[t := ∅]> (fs w)) as Hfs0 by done.
  destruct (block_frame E book page output_dir token w0) as (f3 & H3 & Hres).
  { rewrite Hfs0. apply lookup_insert_eq. }
  fold t path in Hres, H3.
  destruct (download_pdf_block E book page output_dir t w0) as [[[]|ex] w2];
    cbn [fst snd] in *; [|done].
  destruct Hres as (doc & entries & He & _).
  rewrite H3, Hfs0, lookup_insert_ne in He by (apply not_eq_sym, Htmp || apply Htmp).
  congruence.
Qed.

Lemma retry_loop_needs_destination (max : Z) (fuel : nat) :
  ∀ retries w v,
    fs w !! (Py.os_path_split path).1 = None →
    (∀ token, tmp_dir_name token ≠ (Py.os_path_split path).1) →
    (retry_loop E max fuel book page output_dir retries w).1 ≠ Ok (Some v).
Proof.
  induction fuel as [|fuel IH]; intros retries w v Hmissing Htmp; [done|].
  cbn [retry_loop]. case_bool_decide; [|done].
  unfold try_except. rewrite bind_run.
  pose proof (attempt_files E book page output_dir w) as Hatt. cbv zeta in Hatt.
  destruct (download_pdf E book page output_dir w) as [[v1|ex] w1] eqn:Hrun;
    cbn [fst snd] in *.
  { by apply attempt_needs_destination in Hrun. }
  destruct (is_Exception ex); [|done].
  cbv [print emit]. rewrite !bind_run.
  apply IH; [|done]. cbn [log fs]. by rewrite Hatt.
Qed.

(** X14. Nothing makes the destination directory.  When the directory of the
    artifact path is not there (and is not a name [tempfile] may choose),
    no attempt returns and [main] does not return either: whatever the
    site answers, every attempt ends with an exception and the run with
    an exception too. *)
Theorem missing_destination_never_succeeds (w : world) :
  fs w !! (Py.os_path_split path).1 = None →
  (∀ token, tmp_dir_name token ≠ (Py.os_path_split path).1) →
  (∃ ex, (download_pdf E book page output_dir w).1 = Raise ex)
  ∧ (∃ ex, (main E (Args output_dir book page) w).1 = Raise ex).
Proof.
  intros Hmissing Htmp. split.
  - destruct (download_pdf E book page output_dir w) as [[v|ex] w1] eqn:Hrun;
      [|by exists ex].
    by apply attempt_needs_destination in Hrun.
  - unfold main, run. cbn [Directory Book Page]. rewrite bind_run.
    pose proof (retry_loop_needs_destination MAX_RETRIES
                  (Z.to_nat (MAX_RETRIES + 1 - 0)) 0 w) as Hloop.
    destruct (retry_loop E MAX_RETRIES _ book page output_dir 0 w) as [[[v|]|ex] w1];
      cbn [fst snd] in *.
    + by destruct (Hloop v).
    + by eexists.
    + by eexists.
Qed.

End MissingDestination.

Lemma missing_destination_never_succeeds_witness :
  (∃ ex, (download_pdf (site 2 no_faults) 500 10 "/home/user/Deeds" home).1 = Raise ex)
  ∧ (∃ ex, (main (site 2 no_faults) (Args "/home/user/Deeds" 500 10) home).1 = Raise ex).
Proof.
  apply missing_destination_never_succeeds.
  - by vm_compute.
  - intros token. unfold output_path.
    rewrite os_path_split_file; [|by exists "s"%char, "deeD/resu/emoh/"|].
    + unfold tmp_dir_name. cbn. discriminate.
    + apply pdf_name_no_slash.
Defined.

(* ===================================================================== *)
(** * When nothing fails *)
(* ===================================================================== *)

Section NothingFails.

Context (E : environment) (book page : Z) (output_dir : string).

Hypothesis no_fault : ∀ h, fault E h = None.

#[local] Arguments String.append : simpl nomatch.













End NothingFails.


(* ===================================================================== *)
(** * The document [_create_pdf] writes *)
(* ===================================================================== *)

Section Assembled.

Context (E : environment).

#[local] Arguments String.append : simpl nomatch.

Lemma place_format (pdf pdf' : FPDF) (p : placement) :
  place pdf p = Some pdf' →
  pdf_unit pdf' = pdf_unit pdf ∧ pdf_format pdf' = pdf_format pdf.
Proof.
  unfold place. destruct (reverse (pdf_pages pdf)); [done|]. by intros [= <-].
Qed.

Lemma add_images_format (images : list string) :
  ∀ pdf w pdf' w',
    add_images E pdf images w = (Ok pdf', w') →
    pdf_unit pdf' = pdf_unit pdf ∧ pdf_format pdf' = pdf_format pdf.
Proof.
  induction images as [|image rest IH]; intros pdf w pdf' w' Hrun.
  { cbv [add_images ret] in Hrun. by simplify_eq. }
  cbn [add_images] in Hrun. rewrite bind_run in Hrun.
  destruct (pdf_image_run E (add_page pdf) image 0 0 8.5 11 w)
    as [[ex Hr]|(data & pdf1 & _ & Hplace & Hr)]; rewrite Hr in Hrun; [done|].
  rewrite bind_run in Hrun.
  destruct (os_remove_run E image (log (EvImage image) w)) as [[ex Hr2]|Hr2];
    rewrite Hr2 in Hrun; [done|].
  apply IH in Hrun as [-> ->]. by apply place_format in Hplace.
Qed.

Lemma fpdf_close_format (pdf : FPDF) :
  pdf_unit (fpdf_close pdf) = pdf_unit pdf ∧ pdf_format (fpdf_close pdf) = pdf_format pdf.
Proof. unfold fpdf_close. by destruct (pdf_pages pdf). Qed.

(** X16. The document of [_create_pdf], for a directory whose name [glob]
    takes as it is (a name that is not empty and has no star, question
    mark or opening bracket).  When the function returns, the file at
    [output_dir/pdf_name] holds a document in inches and letter format,
    and the writing of the document is the last interaction.  When [glob]
    matched files, the document has one page for each of them, in the
    order of [sorted]; each page holds one image, placed at (0, 0) with
    width 8.5 and height 11, with what the file held when the function
    was called (if no two matched paths name the same file).  When [glob]
    matched nothing, the document is one blank page, the page
    [FPDF.output] gives a document that has none. *)
Theorem create_pdf_document (image_dir output_dir name : string)
    (w : world) (u : unit) (w' : world) :
  let images := Py.sorted (glob (fs w) (Py.os_path_join image_dir "*.jpg")) in
  let path := output_path output_dir name in
  literal_dir image_dir →
  _create_pdf E image_dir output_dir name w = (Ok u, w') →
  ∃ (doc : FPDF) (datas : list string),
    file_at (fs w') path = Some (Pdf doc)
    ∧ List.last (history w') (EvPrint "") = EvOutput path doc
    ∧ pdf_unit doc = "in" ∧ pdf_format doc = "letter"
    ∧ length datas = length images
    ∧ pdf_pages doc
      = match images with
        | [] => [[]]
        | _ => zip_with (λ n d, [Placement n d 0 0 8.5 11]) images datas
        end
    ∧ page_images doc = images
    ∧ ((∀ i j p q, images !! i = Some p → images !! j = Some q → same_file p q → i = j) →
       ∀ i n d, images !! i = Some n → datas !! i = Some d →
         file_at (fs w) n = Some (Raw d)).
Proof.
  intros images path _ Hrun.
  apply create_pdf_Ok in Hrun as (pdf & w1 & Himg & Hout). fold images path in Himg, Hout.
  pose proof (add_images_format _ _ _ _ _ Himg) as [Hunit Hformat].
  apply add_images_Ok in Himg as (datas & Hlen & Hdata & Hpages & _).
  apply pdf_output_Ok in Hout as (Hh & _ & Hfile & _).
  cbn [pdf_pages app] in Hpages.
  destruct (fpdf_close_format pdf) as [Hcu Hcf].
  exists (fpdf_close pdf), datas.
  split_and!; [done| |by rewrite Hcu, Hunit|by rewrite Hcf, Hformat|done| | |done].
  - by rewrite Hh, last_last.
  - clearbody images. destruct images as [|image rest].
    + by apply fpdf_close_no_page.
    + destruct datas as [|data datas]; [done|].
      rewrite fpdf_close_pages; rewrite Hpages; done.
  - rewrite page_images_close. unfold page_images. rewrite Hpages.
    by apply page_images_placed.
Qed.

End Assembled.

Lemma create_pdf_document_witness :
  let w := World {[ "/d" := {[ "b.jpg" := Raw "B"; "a.jpg" := Raw "A";
                               "notes.txt" := Raw "N" ]};
                    "/out" := ∅ ]} 0 [] in
  ∃ w' doc,
    _create_pdf (site 0 no_faults) "/d" "/out" "x.pdf" w = (Ok tt, w')
    ∧ file_at (fs w') "/out/x.pdf" = Some (Pdf doc)
    ∧ page_images doc = ["/d/a.jpg"; "/d/b.jpg"].
Proof.
  intros w.
  assert (∃ w', _create_pdf (site 0 no_faults) "/d" "/out" "x.pdf" w = (Ok tt, w'))
    as [w' Hrun].
  { eexists. vm_compute. reflexivity. }
  destruct (create_pdf_document (site 0 no_faults) "/d" "/out" "x.pdf" w tt w')
    as (doc & datas & Hfile & _ & _ & _ & _ & _ & Himages & _);
    [by split|exact Hrun|].
  exists w', doc. split; [done|]. split; [done|].
  rewrite Himages. by vm_compute.
Defined.
